(** * Claimify: positional alignment of the claim-extraction pipeline

    A shallow embedding of the TypeScript sources

      - [deterministic/claimify]   excerpt builder, context creation and
                                   the prune filter,
      - [singleturn/claimify.ts]   the second excerpt builder and the
                                   stages of the single-turn baseline,
      - [claimify.ts]              the six generative stages,
      - [prompts/claimify.ts]      user prompt templates, schemas and
                                   record types,

    followed by the properties that the specification states about them.

    Conventions.
      - Arrays are lists.  The numbers that the code uses as indices,
        lengths and window sizes are integers: [nat] for loop counters,
        [Z] where the code subtracts.
      - A slot of type [T | {}] is an [option T]; [None] is the empty
        object [{}], which the code recognises by
        [Object.keys(item).length === 0].
      - Records have the fields, of the types, that the TypeScript
        declarations give them.  A field is an [option] where the code
        itself tests it for presence ([tokenized_response], [excerpts]),
        and where a record parsed from a file may lack a field that the
        code reads outside the [try] around the call: [query] in
        Selection ([ParsedItem]) and [sentence] in the element extractor
        and the coverage evaluator of the baseline.  Reading
        [substring] off such a field throws ([Completion]).
      - Strict equality [===] on strings is [String.eqb].
      - A stage reads and parses a file, runs its loops and writes a
        file.  The file system is outside the model: a stage takes what
        reading and parsing gave ([InputFile]) and returns how the run
        ended ([Outcome]).  Console output is not modelled. *)

From Stdlib Require Import ZArith Lia.
From stdpp Require Import base list strings pretty.

Local Open Scope string_scope.
Local Open Scope list_scope.
Local Open Scope Z_scope.

(** The line feed and the double quote, for the text of templates. *)
Definition nl : string := String (Ascii.ascii_of_nat 10) "".
Definition dquote : string := String (Ascii.ascii_of_nat 34) "".

(** ** JavaScript array primitives *)

Module JS.

(** [Array.prototype.slice(start, end)], with the clamping of negative
    and oversized bounds that ECMAScript prescribes. *)
Definition slice {A : Type} (arr : list A) (start end_ : Z) : list A :=
  let len := Z.of_nat (length arr) in
  let k := if start <? 0 then Z.max (len + start) 0 else Z.min start len in
  let final := if end_ <? 0 then Z.max (len + end_) 0 else Z.min end_ len in
  take (Z.to_nat (final - k)) (drop (Z.to_nat k) arr).

(** [arr[i]]: [None] stands for [undefined]. *)
Definition index {A : Type} (arr : list A) (i : Z) : option A :=
  if i <? 0 then None else arr !! Z.to_nat i.

(** [Array.prototype.join(sep)]: an [undefined] element is rendered as
    the empty string. *)
Definition join (sep : string) (parts : list (option string)) : string :=
  String.concat sep (default "" <$> parts).

End JS.

(** ** The two excerpt builders *)

Module Deterministic.

(** [createExcerpt] of the deterministic module. *)
Definition contextParts (allSentences : list string) (targetIndex p f : Z)
  : list (option string) :=
  let numSentences := Z.of_nat (length allSentences) in
  let actualP := Z.min p targetIndex in
  let precedingSentences :=
    JS.slice allSentences (targetIndex - actualP) targetIndex in
  let actualF := Z.min f (numSentences - 1 - targetIndex) in
  let followingSentences :=
    JS.slice allSentences (targetIndex + 1) (targetIndex + 1 + actualF) in
  (Some <$> precedingSentences)
    ++ [JS.index allSentences targetIndex]
    ++ (Some <$> followingSentences).

Definition createExcerpt (allSentences : list string) (targetIndex p f : Z)
  : string :=
  JS.join " " (contextParts allSentences targetIndex p f).

End Deterministic.

Module SingleTurn.

(** [createExcerpt] of the single-turn module. *)
Definition window (tokenizedSentences : list string)
    (sentenceIndex preceding following : Z) : list string :=
  let start := Z.max 0 (sentenceIndex - preceding) in
  let end_ :=
    Z.min (Z.of_nat (length tokenizedSentences))
          (sentenceIndex + following + 1) in
  JS.slice tokenizedSentences start end_.

Definition createExcerpt (tokenizedSentences : list string)
    (sentenceIndex preceding following : Z) : string :=
  JS.join " " (Some <$> window tokenizedSentences sentenceIndex preceding following).

End SingleTurn.

(** ** Record types and schemas ([types/claimify])

    Each TypeScript record type lives in a module of its own, so that the
    field names of the source can be kept. *)

(** [DataItemWithExcerpts].  The two parallel arrays are optional: [None]
    stands for a field that is absent or not an array, the case the
    Selection stage tests for. *)
Module DataItemWithExcerpts.
Record t := mk {
  filename : string;
  query : string;
  response : string;
  tokenized_response : option (list string);
  excerpts : option (list string)
}.
End DataItemWithExcerpts.

(** The two literals of [finalSubmission]. *)
Inductive FinalSubmission :=
  | ContainsProposition
  | DoesNotContainProposition.

Definition FinalSubmission_text (v : FinalSubmission) : string :=
  match v with
  | ContainsProposition => "Contains a specific and verifiable proposition"
  | DoesNotContainProposition =>
      "Does NOT contain a specific and verifiable proposition"
  end.

(** [z.infer<typeof SelectionOutputSchema>]. *)
Module SelectionSchemaOutput.
Record t := mk {
  sentence : string;
  finalSubmission : FinalSubmission;
  sentenceWithOnlyVerifiableInformation : string
}.
End SelectionSchemaOutput.

(** [SelectionOutput]: the schema output with the two fields "added by
    our code". *)
Module SelectionOutput.
Record t := mk {
  filename : string;
  originalSentenceIndex : nat;
  sentence : string;
  finalSubmission : FinalSubmission;
  sentenceWithOnlyVerifiableInformation : string
}.
End SelectionOutput.

(** The text with which [SelectionOutputSchema] describes the rewrite
    field to the generator. *)
Definition SelectionOutputSchema_rewrite_describe : string :=
  "Insert the changed sentence OR  " +:+ dquote +:+ "Remains Unchanged" +:+ dquote
  +:+ " if no changes OR 'None' if the sentence does NOT contain a specific and verifiable preposition.".

(** The sentinel that the description above asks for. *)
Definition schema_unchanged_sentinel : string := "Remains Unchanged".

Module SentenceData.
Record t := mk {
  sentence : string;
  finalSubmission : string;
  sentenceWithOnlyVerifiableInformation : string;
  query : string;
  excerpt : string
}.
End SentenceData.

(** [DisambiguationOutput = z.infer<typeof DisambiguationOutputSchema>]. *)
Module DisambiguationOutput.
Record t := mk {
  incompleteNamesAnalysis : string;
  linguisticAmbiguityAnalysis : string;
  canBeDisambiguated : bool;
  changesNeeded : string;
  decontextualizedSentence : string
}.
End DisambiguationOutput.

Module DisambiguationData.
Record t := mk {
  incompleteNamesAnalysis : string;
  linguisticAmbiguityAnalysis : string;
  canBeDisambiguated : bool;
  changesNeeded : string;
  decontextualizedSentence : string;
  originalSentence : string;
  query : string;
  excerpt : string
}.
End DisambiguationData.

(** [DecompositionOutput = z.infer<typeof DecompositionOutputSchema>]. *)
Module DecompositionOutput.
Record t := mk {
  sentence : string;
  referentialTermsAnalysis : string;
  maxClarifiedSentence : string;
  propositionRange : string;
  specificVerifiablePropositions : list string;
  propositionsWithContext : list string
}.
End DecompositionOutput.

Module DecompositionData.
Record t := mk {
  sentence : string;
  referentialTermsAnalysis : string;
  maxClarifiedSentence : string;
  propositionRange : string;
  specificVerifiablePropositions : list string;
  propositionsWithContext : list string;
  query : string;
  excerpt : string
}.
End DecompositionData.

(** The two literals of [finalConclusion]. *)
Inductive FinalConclusion :=
  | EntailsAll
  | DoesNotEntailAll.

Definition FinalConclusion_text (v : FinalConclusion) : string :=
  match v with
  | EntailsAll => "S entails all elements of C"
  | DoesNotEntailAll => "S does not entail all elements of C"
  end.

(** [z.infer<typeof EntailmentOutputSchema>]. *)
Module EntailmentOutput.
Record t := mk {
  sentenceS : string;
  contextDescription : string;
  claimC : string;
  claimInterpretation : string;
  elementsOfC : list string;
  statementsAndActionsRuleApplies : bool;
  statementsAndActionsRuleReasoning : string;
  elementAnalysis : string;
  finalConclusion : FinalConclusion
}.
End EntailmentOutput.

(** One entry of [claimEvaluations]; the evaluation is the generator's
    object, or a string on failure. *)
Module ClaimEvaluation.
Record t := mk {
  claim : string;
  entailmentEvaluation : EntailmentOutput.t + string
}.
End ClaimEvaluation.

(** The object the Entailment stage pushes for a populated slot. *)
Module EntailmentRecord.
Record t := mk {
  claimEvaluations : list ClaimEvaluation.t
}.
End EntailmentRecord.

Inductive Verifiability :=
  | ContainsVerifiable
  | NotVerifiable
  | GenericNotVerifiable.

Definition Verifiability_text (v : Verifiability) : string :=
  match v with
  | ContainsVerifiable => "contains verifiable information"
  | NotVerifiable => "does not contain verifiable information"
  | GenericNotVerifiable =>
      "it's a generic statement, so it does not contain verifiable information"
  end.

Module Element.
Record t := mk {
  element : string;
  verifiability : Verifiability
}.
End Element.

Module ElementExtractionOutput.
Record t := mk {
  originalSentence : string;
  clarificationsNeeded : string;
  restatedSentence : string;
  statementsAndActionsRuleApplies : bool;
  statementsAndActionsRuleExplanation : string;
  elements : list Element.t
}.
End ElementExtractionOutput.

(** [ElementCoverageData]: what Element extraction pushes and Coverage
    reads; [elementExtraction] "could be error string". *)
Module ElementCoverageData.
Record t := mk {
  query : string;
  excerpt : string;
  sentence : string;
  elementExtraction : ElementExtractionOutput.t + string;
  claims : list string
}.
End ElementCoverageData.

Inductive CoverageStatus :=
  | FullyCovered
  | PartiallyCovered
  | NotCovered
  | NotVerifiableCorrectlyNotCovered
  | NotVerifiableIncorrectlyCovered.

Module ElementCoverageItem.
Record t := mk {
  element : string;
  coverageStatus : CoverageStatus;
  reasoning : option string
}.
End ElementCoverageItem.

(** The four counts are whatever numbers the generator returns; the code
    only passes them on. *)
Module Metrics.
Record t := mk {
  truePositives : Z;
  falseNegatives : Z;
  falsePositives : Z;
  trueNegatives : Z
}.
End Metrics.

Module ElementCoverageEvaluationOutput.
Record t := mk {
  elementCoverageResults : list ElementCoverageItem.t;
  overallSummary : string;
  metrics : Metrics.t
}.
End ElementCoverageEvaluationOutput.

(** The object the Coverage stage pushes for a populated slot. *)
Module CoverageRecord.
Record t := mk {
  query : string;
  excerpt : string;
  sentence : string;
  elementExtraction : ElementExtractionOutput.t + string;
  claims : list string;
  coverageEvaluation : ElementCoverageEvaluationOutput.t + string
}.
End CoverageRecord.

(** ** User prompt templates ([prompts/claimify.ts])

    The system prompts are long constant texts; a call records which one
    it was given. *)

Inductive SystemPrompt :=
  | SELECTION_SYSTEM
  | DISAMB_SYSTEM
  | DECOMP_SYS
  | EVAL_ENTAILMENT_SYS
  | EVAL_CREATE_ELEMENTS_SYS
  | EVAL_ELEMENT_COVERAGE_SYS.

(** The template shared, letter for letter, by [SELECTION_USER],
    [DISAMB_USER] and [DECOMP_USER]. *)
Definition question_excerpt_sentence (question excerpt sentence : string)
  : string :=
  nl +:+ "    Question:" +:+ nl +:+ "    " +:+ question +:+ nl
  +:+ "    Excerpt:" +:+ nl +:+ "    " +:+ excerpt +:+ nl
  +:+ "    Sentence:" +:+ nl +:+ "    " +:+ sentence +:+ nl +:+ "    ".

Definition SELECTION_USER := question_excerpt_sentence.
Definition DISAMB_USER := question_excerpt_sentence.
Definition DECOMP_USER := question_excerpt_sentence.

Definition EVAL_ENTAILMENT_USER (question excerpt sentence claim : string)
  : string :=
  nl +:+ "   Question :" +:+ nl +:+ question +:+ nl
  +:+ "Excerpt from response :" +:+ nl +:+ excerpt +:+ nl
  +:+ "Sentence of interest :" +:+ nl +:+ sentence +:+ nl
  +:+ "Claim :" +:+ nl +:+ claim +:+ nl
  +:+ "REMEMBER : if the context of S entails C , but S itself does not , you should still"
  +:+ nl +:+ "conclude that S entails C ." +:+ nl +:+ nl +:+ "    ".

Definition EVAL_CREATE_ELEMENTS_USER (question excerpt sentence : string)
  : string :=
  nl +:+ "   Question :" +:+ nl +:+ question +:+ nl
  +:+ "Excerpt from response :" +:+ nl +:+ excerpt +:+ nl
  +:+ "Sentence of interest :" +:+ nl +:+ sentence +:+ nl
  +:+ nl +:+ " ." +:+ nl +:+ nl +:+ "    ".

Definition EVAL_ELEMENT_COVERAGE_USER (question excerpt claims elements : string)
  : string :=
  "Question ( context for E ) :" +:+ nl +:+ question +:+ nl
  +:+ "Excerpt from response ( context for E ) :" +:+ nl +:+ excerpt +:+ nl
  +:+ "Claims ( C ) :" +:+ nl +:+ claims +:+ nl
  +:+ "Elements ( E ) :" +:+ nl +:+ elements.

(** ** The generation capability

    [generateObject] is the only effect of a stage besides reading and
    writing its artifacts.  A call names the schema, the system prompt and
    the user prompt; [call_site] is ghost data, the loop indices
    (document, sentence and, for Entailment, claim) at which the call is
    issued.  No site is visited twice in a run, so a language model that
    may answer differently at different sites stands for any provider,
    stateful or not.  A failure carries the text that [`${llmError}`]
    renders. *)

Inductive Schema :=
  | SelectionOutputSchema
  | DisambiguationOutputSchema
  | DecompositionOutputSchema
  | EntailmentOutputSchema
  | ElementExtractionSchema
  | ElementCoverageEvaluationSchema.

(** [z.infer<typeof schema>]. *)
Definition infer (schema : Schema) : Type :=
  match schema with
  | SelectionOutputSchema => SelectionSchemaOutput.t
  | DisambiguationOutputSchema => DisambiguationOutput.t
  | DecompositionOutputSchema => DecompositionOutput.t
  | EntailmentOutputSchema => EntailmentOutput.t
  | ElementExtractionSchema => ElementExtractionOutput.t
  | ElementCoverageEvaluationSchema => ElementCoverageEvaluationOutput.t
  end.

Record Call := mkCall {
  call_site : list nat;
  call_schema : Schema;
  call_system : SystemPrompt;
  call_prompt : string
}.

Definition LanguageModel : Type :=
  forall c : Call, infer (call_schema c) + string.

(** Computations that may call the model: the result and the calls
    issued, in order. *)
Definition Gen (A : Type) : Type := LanguageModel -> A * list Call.

Definition Gen_ret {A : Type} (a : A) : Gen A := fun _ => (a, []).

Definition Gen_bind {A B : Type} (m : Gen A) (k : A -> Gen B) : Gen B :=
  fun model =>
    let '(a, calls1) := m model in
    let '(b, calls2) := k a model in
    (b, calls1 ++ calls2).

Declare Scope gen_scope.
Delimit Scope gen_scope with gen.
Notation "'let*' x := m 'in' k" := (Gen_bind m (fun x => k))
  (at level 10, x pattern, m at level 100, k at level 200) : gen_scope.
Local Open Scope gen_scope.

Definition generateObject (c : Call) : Gen (infer (call_schema c) + string) :=
  fun model => (model c, [c]).

Definition result {A : Type} (m : Gen A) (model : LanguageModel) : A :=
  fst (m model).

Definition calls {A : Type} (m : Gen A) (model : LanguageModel) : list Call :=
  snd (m model).

(** A [for] loop over the indices of [arr] whose body pushes onto one
    output array: [body i x] returns what iteration [i] pushes. *)
Fixpoint forPush {A B : Type} (body : nat -> A -> Gen (list B))
    (i : nat) (arr : list A) : Gen (list B) :=
  match arr with
  | [] => Gen_ret []
  | x :: rest =>
      let* pushed := body i x in
      let* more := forPush body (S i) rest in
      Gen_ret (pushed ++ more)
  end.

(** What a stage is given when it reads and parses its input file, and
    how its run ends.  [ReturnedEarly] is the bare [return] after the
    [Array.isArray] test: nothing is written and the promise resolves.
    [Thrown] is the error re-thrown by the outer [catch]. *)
Inductive InputFile (A : Type) :=
  | Unreadable (error : string)
  | NotAnArray
  | ArrayOf (data : A).
Arguments Unreadable {A} error.
Arguments NotAnArray {A}.
Arguments ArrayOf {A} data.

Inductive Outcome (A : Type) :=
  | Written (artifact : A)
  | ReturnedEarly
  | Thrown (error : string).
Arguments Written {A} artifact.
Arguments ReturnedEarly {A}.
Arguments Thrown {A} error.

(** The frame every stage shares: parse, test for an array, run the
    loops, write. *)
Definition stageRun {A B : Type} (loops : A -> Gen B) (input : InputFile A)
  : Gen (Outcome B) :=
  match input with
  | Unreadable error => Gen_ret (Thrown error)
  | NotAnArray => Gen_ret ReturnedEarly
  | ArrayOf data =>
      let* finalGroupedOutput := loops data in
      Gen_ret (Written finalGroupedOutput)
  end.

(** [`ERROR: ${llmError}`]. *)
Definition ERROR (llmError : string) : string := "ERROR: " +:+ llmError.

(** A template literal renders [undefined] as the word. *)
Definition render (v : option string) : string := default "undefined" v.

(** ** Stage: Selection ([claimifySelection]) *)

Module Selection.

(** The record the [catch] branch builds.  The statement that would push
    it is commented out in the source, so the loop body below does not
    use it. *)
Definition errorOutput (filename : string) (i : nat) (sentence llmError : string)
  : SelectionOutput.t :=
  {| SelectionOutput.filename := filename;
     SelectionOutput.originalSentenceIndex := i;
     SelectionOutput.sentence := sentence;
     SelectionOutput.finalSubmission := DoesNotContainProposition;
     SelectionOutput.sentenceWithOnlyVerifiableInformation := ERROR llmError |}.

Definition request (item : nat) (i : nat) (query : string)
    (excerpt : option string) (sentence : string) : Call :=
  {| call_site := [item; i];
     call_schema := SelectionOutputSchema;
     call_system := SELECTION_SYSTEM;
     call_prompt := SELECTION_USER query (render excerpt) sentence |}.

(** Body of the loop over [tokenized_response]. *)
Definition sentenceBody (item : nat) (query : string) (excerpts : list string)
    (i : nat) (sentence : string) : Gen (list SelectionSchemaOutput.t) :=
  let excerpt := excerpts !! i in
  let* r := generateObject (request item i query excerpt sentence) in
  match r with
  | inl llmRawOutput => Gen_ret [llmRawOutput]
  | inr llmError => Gen_ret []
  end.

(** Body of the loop over [data]: the two guards [continue] without
    pushing a row. *)
Definition itemBody (idx : nat) (item : DataItemWithExcerpts.t)
  : Gen (list (list SelectionSchemaOutput.t)) :=
  match DataItemWithExcerpts.tokenized_response item,
        DataItemWithExcerpts.excerpts item with
  | Some tokenized_response, Some excerpts =>
      if negb (length tokenized_response =? length excerpts)%nat
      then Gen_ret []
      else
        let* currentFileSelectionOutputs :=
          forPush
            (sentenceBody idx (DataItemWithExcerpts.query item) excerpts)
            0%nat tokenized_response in
        Gen_ret [currentFileSelectionOutputs]
  | _, _ => Gen_ret []
  end.

Definition claimifySelection
  : InputFile (list DataItemWithExcerpts.t)
    -> Gen (Outcome (list (list SelectionSchemaOutput.t))) :=
  stageRun (forPush itemBody 0%nat).

End Selection.

(** ** Stage: Disambiguation ([claimifyDisambiguiation]) *)

Module Disambiguation.

Definition sentenceForPrompt (sentenceData : SentenceData.t) : string :=
  if String.eqb (SentenceData.sentenceWithOnlyVerifiableInformation sentenceData)
                "remains unchanged"
  then SentenceData.sentence sentenceData
  else SentenceData.sentenceWithOnlyVerifiableInformation sentenceData.

Definition request (docIndex sentenceIndex : nat) (sentenceData : SentenceData.t)
  : Call :=
  {| call_site := [docIndex; sentenceIndex];
     call_schema := DisambiguationOutputSchema;
     call_system := DISAMB_SYSTEM;
     call_prompt :=
       DISAMB_USER (SentenceData.query sentenceData)
                   (SentenceData.excerpt sentenceData)
                   (sentenceForPrompt sentenceData) |}.

Definition errorOutput (llmError : string) : DisambiguationOutput.t :=
  {| DisambiguationOutput.incompleteNamesAnalysis := ERROR llmError;
     DisambiguationOutput.linguisticAmbiguityAnalysis := ERROR llmError;
     DisambiguationOutput.canBeDisambiguated := false;
     DisambiguationOutput.changesNeeded := ERROR llmError;
     DisambiguationOutput.decontextualizedSentence := ERROR llmError |}.

(** [{ ...llmOutput, originalSentence, query, excerpt }]. *)
Definition spread (llmOutput : DisambiguationOutput.t)
    (originalSentence query excerpt : string) : DisambiguationData.t :=
  {| DisambiguationData.incompleteNamesAnalysis :=
       DisambiguationOutput.incompleteNamesAnalysis llmOutput;
     DisambiguationData.linguisticAmbiguityAnalysis :=
       DisambiguationOutput.linguisticAmbiguityAnalysis llmOutput;
     DisambiguationData.canBeDisambiguated :=
       DisambiguationOutput.canBeDisambiguated llmOutput;
     DisambiguationData.changesNeeded :=
       DisambiguationOutput.changesNeeded llmOutput;
     DisambiguationData.decontextualizedSentence :=
       DisambiguationOutput.decontextualizedSentence llmOutput;
     DisambiguationData.originalSentence := originalSentence;
     DisambiguationData.query := query;
     DisambiguationData.excerpt := excerpt |}.

Definition sentenceBody (docIndex sentenceIndex : nat)
    (sentenceItem : option SentenceData.t)
  : Gen (list (option DisambiguationData.t)) :=
  match sentenceItem with
  | None => Gen_ret [None]
  | Some sentenceData =>
      let* r := generateObject (request docIndex sentenceIndex sentenceData) in
      match r with
      | inl llmOutput =>
          Gen_ret [Some (spread llmOutput
                           (sentenceForPrompt sentenceData)
                           (SentenceData.query sentenceData)
                           (SentenceData.excerpt sentenceData))]
      | inr llmError =>
          Gen_ret [Some (spread (errorOutput llmError)
                           (sentenceForPrompt sentenceData)
                           (SentenceData.query sentenceData)
                           (SentenceData.excerpt sentenceData))]
      end
  end.

Definition documentBody (docIndex : nat)
    (documentSentences : list (option SentenceData.t))
  : Gen (list (list (option DisambiguationData.t))) :=
  let* currentDocumentOutputs :=
    forPush (sentenceBody docIndex) 0%nat documentSentences in
  Gen_ret [currentDocumentOutputs].

Definition claimifyDisambiguiation
  : InputFile (list (list (option SentenceData.t)))
    -> Gen (Outcome (list (list (option DisambiguationData.t)))) :=
  stageRun (forPush documentBody 0%nat).

End Disambiguation.

(** ** Stage: Decomposition ([claimifyDecomposition]) *)

Module Decomposition.

Definition request (docIndex sentenceIndex : nat)
    (disambiguationData : DisambiguationData.t) : Call :=
  {| call_site := [docIndex; sentenceIndex];
     call_schema := DecompositionOutputSchema;
     call_system := DECOMP_SYS;
     call_prompt :=
       DECOMP_USER (DisambiguationData.query disambiguationData)
                   (DisambiguationData.excerpt disambiguationData)
                   (DisambiguationData.decontextualizedSentence disambiguationData) |}.

Definition errorOutput (decontextualizedSentence llmError : string)
  : DecompositionOutput.t :=
  {| DecompositionOutput.sentence := decontextualizedSentence;
     DecompositionOutput.referentialTermsAnalysis := ERROR llmError;
     DecompositionOutput.maxClarifiedSentence := ERROR llmError;
     DecompositionOutput.propositionRange := ERROR llmError;
     DecompositionOutput.specificVerifiablePropositions := [];
     DecompositionOutput.propositionsWithContext := [] |}.

(** [{ ...llmOutput, query, excerpt }]. *)
Definition spread (llmOutput : DecompositionOutput.t) (query excerpt : string)
  : DecompositionData.t :=
  {| DecompositionData.sentence := DecompositionOutput.sentence llmOutput;
     DecompositionData.referentialTermsAnalysis :=
       DecompositionOutput.referentialTermsAnalysis llmOutput;
     DecompositionData.maxClarifiedSentence :=
       DecompositionOutput.maxClarifiedSentence llmOutput;
     DecompositionData.propositionRange :=
       DecompositionOutput.propositionRange llmOutput;
     DecompositionData.specificVerifiablePropositions :=
       DecompositionOutput.specificVerifiablePropositions llmOutput;
     DecompositionData.propositionsWithContext :=
       DecompositionOutput.propositionsWithContext llmOutput;
     DecompositionData.query := query;
     DecompositionData.excerpt := excerpt |}.

Definition sentenceBody (docIndex sentenceIndex : nat)
    (sentenceItem : option DisambiguationData.t)
  : Gen (list (option DecompositionData.t)) :=
  match sentenceItem with
  | None => Gen_ret [None]
  | Some disambiguationData =>
      let query := DisambiguationData.query disambiguationData in
      let excerpt := DisambiguationData.excerpt disambiguationData in
      if negb (DisambiguationData.canBeDisambiguated disambiguationData)
      then Gen_ret [None]
      else
        let* r :=
          generateObject (request docIndex sentenceIndex disambiguationData) in
        match r with
        | inl llmOutput => Gen_ret [Some (spread llmOutput query excerpt)]
        | inr llmError =>
            Gen_ret
              [Some (spread
                       (errorOutput
                          (DisambiguationData.decontextualizedSentence
                             disambiguationData)
                          llmError)
                       query excerpt)]
        end
  end.

Definition documentBody (docIndex : nat)
    (documentSentences : list (option DisambiguationData.t))
  : Gen (list (list (option DecompositionData.t))) :=
  let* currentDocumentOutputs :=
    forPush (sentenceBody docIndex) 0%nat documentSentences in
  Gen_ret [currentDocumentOutputs].

Definition claimifyDecomposition
  : InputFile (list (list (option DisambiguationData.t)))
    -> Gen (Outcome (list (list (option DecompositionData.t)))) :=
  stageRun (forPush documentBody 0%nat).

End Decomposition.

(** ** Stage: Entailment ([entailmentEvaluator]) *)

Module Entailment.

Definition request (docIndex sentenceIndex claimIndex : nat)
    (decompositionData : DecompositionData.t) (claim : string) : Call :=
  {| call_site := [docIndex; sentenceIndex; claimIndex];
     call_schema := EntailmentOutputSchema;
     call_system := EVAL_ENTAILMENT_SYS;
     call_prompt :=
       EVAL_ENTAILMENT_USER (DecompositionData.query decompositionData)
                            (DecompositionData.excerpt decompositionData)
                            (DecompositionData.sentence decompositionData)
                            claim |}.

(** Body of the loop over [propositionsWithContext]. *)
Definition claimBody (docIndex sentenceIndex : nat)
    (decompositionData : DecompositionData.t) (claimIndex : nat) (claim : string)
  : Gen (list ClaimEvaluation.t) :=
  let* r :=
    generateObject
      (request docIndex sentenceIndex claimIndex decompositionData claim) in
  match r with
  | inl llmResponse =>
      Gen_ret [ {| ClaimEvaluation.claim := claim;
                   ClaimEvaluation.entailmentEvaluation := inl llmResponse |} ]
  | inr llmError =>
      Gen_ret [ {| ClaimEvaluation.claim := claim;
                   ClaimEvaluation.entailmentEvaluation := inr (ERROR llmError) |} ]
  end.

Definition sentenceBody (docIndex sentenceIndex : nat)
    (sentenceItem : option DecompositionData.t)
  : Gen (list (option EntailmentRecord.t)) :=
  match sentenceItem with
  | None => Gen_ret [None]
  | Some decompositionData =>
      let* claimEvaluations :=
        forPush (claimBody docIndex sentenceIndex decompositionData) 0%nat
          (DecompositionData.propositionsWithContext decompositionData) in
      Gen_ret [Some {| EntailmentRecord.claimEvaluations := claimEvaluations |}]
  end.

Definition documentBody (docIndex : nat)
    (documentSentences : list (option DecompositionData.t))
  : Gen (list (list (option EntailmentRecord.t))) :=
  let* currentDocumentOutputs :=
    forPush (sentenceBody docIndex) 0%nat documentSentences in
  Gen_ret [currentDocumentOutputs].

Definition entailmentEvaluator
  : InputFile (list (list (option DecompositionData.t)))
    -> Gen (Outcome (list (list (option EntailmentRecord.t)))) :=
  stageRun (forPush documentBody 0%nat).

End Entailment.

(** ** Stage: Element extraction ([elementExtractorV2]) *)

Module ElementExtraction.

Definition request (docIndex sentenceIndex : nat)
    (decompositionData : DecompositionData.t) : Call :=
  {| call_site := [docIndex; sentenceIndex];
     call_schema := ElementExtractionSchema;
     call_system := EVAL_CREATE_ELEMENTS_SYS;
     call_prompt :=
       EVAL_CREATE_ELEMENTS_USER (DecompositionData.query decompositionData)
                                 (DecompositionData.excerpt decompositionData)
                                 (DecompositionData.sentence decompositionData) |}.

Definition pushed (decompositionData : DecompositionData.t)
    (elementExtraction : ElementExtractionOutput.t + string)
  : ElementCoverageData.t :=
  {| ElementCoverageData.query := DecompositionData.query decompositionData;
     ElementCoverageData.excerpt := DecompositionData.excerpt decompositionData;
     ElementCoverageData.sentence := DecompositionData.sentence decompositionData;
     ElementCoverageData.elementExtraction := elementExtraction;
     ElementCoverageData.claims :=
       DecompositionData.propositionsWithContext decompositionData |}.

Definition sentenceBody (docIndex sentenceIndex : nat)
    (sentenceItem : option DecompositionData.t)
  : Gen (list (option ElementCoverageData.t)) :=
  match sentenceItem with
  | None => Gen_ret [None]
  | Some decompositionData =>
      let* r :=
        generateObject (request docIndex sentenceIndex decompositionData) in
      match r with
      | inl llmResponse =>
          Gen_ret [Some (pushed decompositionData (inl llmResponse))]
      | inr llmError =>
          Gen_ret [Some (pushed decompositionData (inr (ERROR llmError)))]
      end
  end.

Definition documentBody (docIndex : nat)
    (documentSentences : list (option DecompositionData.t))
  : Gen (list (list (option ElementCoverageData.t))) :=
  let* currentDocumentOutputs :=
    forPush (sentenceBody docIndex) 0%nat documentSentences in
  Gen_ret [currentDocumentOutputs].

Definition elementExtractorV2
  : InputFile (list (list (option DecompositionData.t)))
    -> Gen (Outcome (list (list (option ElementCoverageData.t)))) :=
  stageRun (forPush documentBody 0%nat).

End ElementExtraction.

(** ** Stage: Coverage ([elementCoverageEvaluatorV2]) *)

Module Coverage.

(** [`${idx + 1}. ${claim}`] over the claims, joined by line feeds. *)
Definition claimsText (claims : list string) : string :=
  JS.join nl
    (Some <$> imap (fun idx claim => pretty (idx + 1)%nat +:+ ". " +:+ claim) claims).

Definition elementsText (elements : list Element.t) : string :=
  JS.join nl
    (Some <$> imap (fun idx element =>
                      pretty (idx + 1)%nat +:+ ". " +:+ Element.element element
                      +:+ " -> " +:+ Verifiability_text (Element.verifiability element))
                   elements).

Definition request (docIndex sentenceIndex : nat)
    (elementData : ElementCoverageData.t)
    (elementExtraction : ElementExtractionOutput.t) : Call :=
  {| call_site := [docIndex; sentenceIndex];
     call_schema := ElementCoverageEvaluationSchema;
     call_system := EVAL_ELEMENT_COVERAGE_SYS;
     call_prompt :=
       EVAL_ELEMENT_COVERAGE_USER
         (ElementCoverageData.query elementData)
         (ElementCoverageData.excerpt elementData)
         (claimsText (ElementCoverageData.claims elementData))
         (elementsText (ElementExtractionOutput.elements elementExtraction)) |}.

Definition pushed (elementData : ElementCoverageData.t)
    (coverageEvaluation : ElementCoverageEvaluationOutput.t + string)
  : CoverageRecord.t :=
  {| CoverageRecord.query := ElementCoverageData.query elementData;
     CoverageRecord.excerpt := ElementCoverageData.excerpt elementData;
     CoverageRecord.sentence := ElementCoverageData.sentence elementData;
     CoverageRecord.elementExtraction :=
       ElementCoverageData.elementExtraction elementData;
     CoverageRecord.claims := ElementCoverageData.claims elementData;
     CoverageRecord.coverageEvaluation := coverageEvaluation |}.

Definition sentenceBody (docIndex sentenceIndex : nat)
    (sentenceItem : option ElementCoverageData.t)
  : Gen (list (option CoverageRecord.t)) :=
  match sentenceItem with
  | None => Gen_ret [None]
  | Some elementData =>
      match ElementCoverageData.elementExtraction elementData with
      | inr failure =>
          Gen_ret
            [Some (pushed elementData
                     (inr ("SKIPPED: Element extraction failed - " +:+ failure)))]
      | inl elementExtraction =>
          let* r :=
            generateObject
              (request docIndex sentenceIndex elementData elementExtraction) in
          match r with
          | inl llmResponse =>
              Gen_ret [Some (pushed elementData (inl llmResponse))]
          | inr llmError =>
              Gen_ret [Some (pushed elementData (inr (ERROR llmError)))]
          end
      end
  end.

Definition documentBody (docIndex : nat)
    (documentSentences : list (option ElementCoverageData.t))
  : Gen (list (list (option CoverageRecord.t))) :=
  let* currentDocumentOutputs :=
    forPush (sentenceBody docIndex) 0%nat documentSentences in
  Gen_ret [currentDocumentOutputs].

Definition elementCoverageEvaluatorV2
  : InputFile (list (list (option ElementCoverageData.t)))
    -> Gen (Outcome (list (list (option CoverageRecord.t)))) :=
  stageRun (forPush documentBody 0%nat).

End Coverage.

(** ** The deterministic passes between the stages *)

Module ProcessedDataItem.
Record t := mk {
  filename : string;
  query : string;
  response : string;
  tokenized_response : option (list string)
}.
End ProcessedDataItem.

Module OriginalDocument.
Record t := mk {
  filename : string;
  query : string;
  response : string;
  tokenized_response : option (list string)
}.
End OriginalDocument.

Module Pipeline.

(** [createContext]: the [data.map] that adds [excerpts] to every item. *)
Definition createContext (p f : Z) (data : list ProcessedDataItem.t)
  : list DataItemWithExcerpts.t :=
  (fun item =>
     let excerpts :=
       match ProcessedDataItem.tokenized_response item with
       | Some tokenized_response =>
           imap (fun index _ =>
                   Deterministic.createExcerpt tokenized_response
                     (Z.of_nat index) p f)
                tokenized_response
       | None => []
       end in
     {| DataItemWithExcerpts.filename := ProcessedDataItem.filename item;
        DataItemWithExcerpts.query := ProcessedDataItem.query item;
        DataItemWithExcerpts.response := ProcessedDataItem.response item;
        DataItemWithExcerpts.tokenized_response :=
          ProcessedDataItem.tokenized_response item;
        DataItemWithExcerpts.excerpts := Some excerpts |})
  <$> data.

(** The test of [filterVerifiableInformation] on one item.  On an empty
    object the field read is [undefined], which is not ["None"]. *)
Definition isNone (item : option SentenceData.t) : bool :=
  match item with
  | Some sentenceData =>
      String.eqb (SentenceData.sentenceWithOnlyVerifiableInformation sentenceData)
                 "None"
  | None => false
  end.

(** [filterVerifiableInformation]: the nested [data.map] between reading
    and writing. *)
Definition filterVerifiableInformation (data : list (list (option SentenceData.t)))
  : list (list (option SentenceData.t)) :=
  (fun innerArray : list (option SentenceData.t) =>
     (fun item => if isNone item then None else item) <$> innerArray)
  <$> data.

(** [{ ...item, excerpt: "" }]. *)
Definition withEmptyExcerpt (item : SentenceData.t) : SentenceData.t :=
  {| SentenceData.sentence := SentenceData.sentence item;
     SentenceData.finalSubmission := SentenceData.finalSubmission item;
     SentenceData.sentenceWithOnlyVerifiableInformation :=
       SentenceData.sentenceWithOnlyVerifiableInformation item;
     SentenceData.query := SentenceData.query item;
     SentenceData.excerpt := "" |}.

(** [{ ...filteredSentence, query: originalDoc.query, excerpt }]. *)
Definition withContext (filteredSentence : SentenceData.t) (query excerpt : string)
  : SentenceData.t :=
  {| SentenceData.sentence := SentenceData.sentence filteredSentence;
     SentenceData.finalSubmission := SentenceData.finalSubmission filteredSentence;
     SentenceData.sentenceWithOnlyVerifiableInformation :=
       SentenceData.sentenceWithOnlyVerifiableInformation filteredSentence;
     SentenceData.query := query;
     SentenceData.excerpt := excerpt |}.

(** [unsafe_createContext]: the [filteredData.map] between reading the
    two files and writing.  [None] for [tokenized_response] is a field
    that is absent. *)
Definition unsafe_createContext (p f : Z)
    (filteredData : list (list (option SentenceData.t)))
    (originalDocuments : list OriginalDocument.t)
  : list (list (option SentenceData.t)) :=
  imap
    (fun docIndex (docFilteredSentences : list (option SentenceData.t)) =>
       match originalDocuments !! docIndex
             ≫= (fun originalDoc =>
                   pair originalDoc <$> OriginalDocument.tokenized_response originalDoc)
       with
       | None =>
           (fun item : option SentenceData.t =>
              match item with
              | None => None
              | Some item => Some (withEmptyExcerpt item)
              end)
           <$> docFilteredSentences
       | Some (originalDoc, tokenizedResponse) =>
           imap
             (fun sentenceIndex (filteredItem : option SentenceData.t) =>
                match filteredItem with
                | None => None
                | Some filteredSentence =>
                    let excerpt :=
                      Deterministic.createExcerpt tokenizedResponse
                        (Z.of_nat sentenceIndex) p f in
                    Some (withContext filteredSentence
                            (OriginalDocument.query originalDoc) excerpt)
                end)
             docFilteredSentences
       end)
    filteredData.

End Pipeline.

(** The document loop that the five stages after Selection share: run
    the sentence loop, push its array as the row of the document. *)
Definition perDocument {A B : Type} (body : nat -> nat -> A -> Gen (list B))
    (docIndex : nat) (documentSentences : list A) : Gen (list (list B)) :=
  let* currentDocumentOutputs := forPush (body docIndex) 0%nat documentSentences in
  Gen_ret [currentDocumentOutputs].

Definition laterStage {A B : Type} (body : nat -> nat -> A -> Gen (list B))
  : InputFile (list (list A)) -> Gen (Outcome (list (list B))) :=
  stageRun (forPush (perDocument body) 0%nat).

(** ** Vocabulary of the specification *)

(** [artifact[d][s]]. *)
Definition slotAt {A : Type} (artifact : list (list A)) (d s : nat) : option A :=
  artifact !! d ≫= (.!! s).

(** Alignment of an output artifact with the input it was computed from:
    one row per document, one entry per entry. *)
Definition aligned {A B : Type} (input : list (list A)) (output : list (list B))
  : Prop :=
  Forall2 (fun doc row => length row = length doc) input output.

(** The same for Selection, whose input rows are the sentence arrays of
    the documents. *)
Definition sentencesOf (item : DataItemWithExcerpts.t) : list string :=
  default [] (DataItemWithExcerpts.tokenized_response item).

Definition alignedWithSentences (data : list DataItemWithExcerpts.t)
    (output : list (list SelectionSchemaOutput.t)) : Prop :=
  aligned (sentencesOf <$> data) output.

(** A stage keeps the alignment: on every array input and whatever the
    model answers, it writes an artifact aligned with the input, whose
    entry at [(d, s)] is what the sentence loop pushed for the input entry
    at [(d, s)]. *)
Definition keepsAlignment {A B : Type}
    (stage : InputFile (list (list A)) -> Gen (Outcome (list (list B))))
    (body : nat -> nat -> A -> Gen (list B)) : Prop :=
  forall model data,
    exists out,
      result (stage (ArrayOf data)) model = Written out
      /\ aligned data out
      /\ forall d s, slotAt out d s
                     = slotAt data d s
                         ≫= (fun item => head (result (body d s item) model)).

(** A document that fails one of the two guards of the Selection loop. *)
Definition malformed (item : DataItemWithExcerpts.t) : Prop :=
  match DataItemWithExcerpts.tokenized_response item,
        DataItemWithExcerpts.excerpts item with
  | Some tokenized_response, Some excerpts =>
      length tokenized_response <> length excerpts
  | _, _ => True
  end.

(** The run failed and the failure reached the caller. *)
Definition aborts {A : Type} (outcome : Outcome A) : Prop :=
  exists error, outcome = Thrown error.

(** The call was issued for sentence [s] of document [d]. *)
Definition issuedFor (d s : nat) (c : Call) : Prop :=
  take 2 (call_site c) = [d; s].

(** A stage keeps pruned slots pruned: an empty entry of the input is an
    empty entry of the output at the same place, and no call of the run
    is issued for it. *)
Definition keepsPruned {A B : Type}
    (stage : InputFile (list (list (option A)))
             -> Gen (Outcome (list (list (option B))))) : Prop :=
  forall model data d s,
    slotAt data d s = Some None ->
    exists out,
      result (stage (ArrayOf data)) model = Written out
      /\ slotAt out d s = Some None
      /\ forall c, c ∈ calls (stage (ArrayOf data)) model -> ~ issuedFor d s c.

(** Every call the computation issues is answered with an object. *)
Definition succeeds {A : Type} (m : Gen A) (model : LanguageModel) : Prop :=
  forall c, c ∈ calls m model -> exists o, model c = inl o.

(** A stage carries an input field over when the field can be read back
    from what the stage stores for a slot whose calls all succeed. *)
Definition carries {In Stored : Type}
    (body : nat -> nat -> option In -> Gen (list (option Stored)))
    (field : In -> string) : Prop :=
  exists get : Stored -> string,
    forall model d s input stored,
      succeeds (body d s (Some input)) model ->
      result (body d s (Some input)) model = [Some stored] ->
      get stored = field input.

(** The conclusion a stored claim evaluation holds, if it holds one. *)
Definition storedConclusion (evaluation : ClaimEvaluation.t)
  : option FinalConclusion :=
  match ClaimEvaluation.entailmentEvaluation evaluation with
  | inl llmResponse => Some (EntailmentOutput.finalConclusion llmResponse)
  | inr _ => None
  end.

(** ** Sample inputs *)

Module Sample.

(** An object of each schema. *)
Definition answer (schema : Schema) : infer schema :=
  match schema with
  | SelectionOutputSchema =>
      {| SelectionSchemaOutput.sentence := "S";
         SelectionSchemaOutput.finalSubmission := ContainsProposition;
         SelectionSchemaOutput.sentenceWithOnlyVerifiableInformation :=
           "remains unchanged" |}
  | DisambiguationOutputSchema =>
      {| DisambiguationOutput.incompleteNamesAnalysis := "none";
         DisambiguationOutput.linguisticAmbiguityAnalysis := "none";
         DisambiguationOutput.canBeDisambiguated := true;
         DisambiguationOutput.changesNeeded := "none";
         DisambiguationOutput.decontextualizedSentence := "S" |}
  | DecompositionOutputSchema =>
      {| DecompositionOutput.sentence := "S";
         DecompositionOutput.referentialTermsAnalysis := "none";
         DecompositionOutput.maxClarifiedSentence := "S";
         DecompositionOutput.propositionRange := "1 - 1";
         DecompositionOutput.specificVerifiablePropositions := ["P"];
         DecompositionOutput.propositionsWithContext := ["P - true or false?"] |}
  | EntailmentOutputSchema =>
      {| EntailmentOutput.sentenceS := "S";
         EntailmentOutput.contextDescription := "context";
         EntailmentOutput.claimC := "C";
         EntailmentOutput.claimInterpretation := "C";
         EntailmentOutput.elementsOfC := ["E"];
         EntailmentOutput.statementsAndActionsRuleApplies := false;
         EntailmentOutput.statementsAndActionsRuleReasoning := "none";
         EntailmentOutput.elementAnalysis := "E holds";
         EntailmentOutput.finalConclusion := EntailsAll |}
  | ElementExtractionSchema =>
      {| ElementExtractionOutput.originalSentence := "S";
         ElementExtractionOutput.clarificationsNeeded := "no";
         ElementExtractionOutput.restatedSentence := "S";
         ElementExtractionOutput.statementsAndActionsRuleApplies := false;
         ElementExtractionOutput.statementsAndActionsRuleExplanation := "none";
         ElementExtractionOutput.elements :=
           [ {| Element.element := "E";
                Element.verifiability := ContainsVerifiable |} ] |}
  | ElementCoverageEvaluationSchema =>
      {| ElementCoverageEvaluationOutput.elementCoverageResults :=
           [ {| ElementCoverageItem.element := "E";
                ElementCoverageItem.coverageStatus := FullyCovered;
                ElementCoverageItem.reasoning := None |} ];
         ElementCoverageEvaluationOutput.overallSummary := "covered";
         ElementCoverageEvaluationOutput.metrics :=
           {| Metrics.truePositives := 1; Metrics.falseNegatives := 0;
              Metrics.falsePositives := 0; Metrics.trueNegatives := 0 |} |}
  end.

(** A provider that fails with ["boom"] at the sites listed and answers
    everywhere else. *)
Definition failingAt (sites : list (list nat)) : LanguageModel :=
  fun c =>
    if bool_decide (call_site c ∈ sites) then inr "boom"
    else inl (answer (call_schema c)).

Definition answering : LanguageModel := failingAt [].

Definition item (tokenized_response excerpts : option (list string))
  : DataItemWithExcerpts.t :=
  {| DataItemWithExcerpts.filename := "doc.json";
     DataItemWithExcerpts.query := "Q";
     DataItemWithExcerpts.response := "R";
     DataItemWithExcerpts.tokenized_response := tokenized_response;
     DataItemWithExcerpts.excerpts := excerpts |}.

Definition threeSentences : DataItemWithExcerpts.t :=
  item (Some ["s0"; "s1"; "s2"]) (Some ["s0 s1"; "s0 s1 s2"; "s1 s2"]).

Definition mismatched : DataItemWithExcerpts.t :=
  item (Some ["s0"; "s1"]) (Some ["s0 s1"]).

Definition sentenceData (sentence rewrite : string) : SentenceData.t :=
  {| SentenceData.sentence := sentence;
     SentenceData.finalSubmission :=
       FinalSubmission_text ContainsProposition;
     SentenceData.sentenceWithOnlyVerifiableInformation := rewrite;
     SentenceData.query := "Q";
     SentenceData.excerpt := "X" |}.

Definition disambiguationData (canBeDisambiguated : bool) (originalSentence : string)
  : DisambiguationData.t :=
  {| DisambiguationData.incompleteNamesAnalysis := "none";
     DisambiguationData.linguisticAmbiguityAnalysis := "none";
     DisambiguationData.canBeDisambiguated := canBeDisambiguated;
     DisambiguationData.changesNeeded := "none";
     DisambiguationData.decontextualizedSentence := "S";
     DisambiguationData.originalSentence := originalSentence;
     DisambiguationData.query := "Q";
     DisambiguationData.excerpt := "X" |}.

(** A disambiguated slot whose rewritten sentence is [sentence]. *)
Definition decontextualized (sentence : string) : DisambiguationData.t :=
  {| DisambiguationData.incompleteNamesAnalysis := "none";
     DisambiguationData.linguisticAmbiguityAnalysis := "none";
     DisambiguationData.canBeDisambiguated := true;
     DisambiguationData.changesNeeded := "none";
     DisambiguationData.decontextualizedSentence := sentence;
     DisambiguationData.originalSentence := "original";
     DisambiguationData.query := "Q";
     DisambiguationData.excerpt := "X" |}.

Definition decompositionData (query excerpt sentence : string)
  : DecompositionData.t :=
  {| DecompositionData.sentence := sentence;
     DecompositionData.referentialTermsAnalysis := "none";
     DecompositionData.maxClarifiedSentence := sentence;
     DecompositionData.propositionRange := "1 - 1";
     DecompositionData.specificVerifiablePropositions := ["P"];
     DecompositionData.propositionsWithContext := ["P - true or false?"];
     DecompositionData.query := query;
     DecompositionData.excerpt := excerpt |}.

Definition elementCoverageData : ElementCoverageData.t :=
  ElementExtraction.pushed (decompositionData "Q" "X" "S")
    (inl (answer ElementExtractionSchema)).

End Sample.

(** ** Proof automation *)

(** Runs a sentence body on a symbolic model: unfold the monad, then
    split on the answers of the model. *)
Ltac split_model :=
  repeat match goal with
         | model : LanguageModel |- context [?m ?c] =>
             constr_eq m model; destruct (model c) eqn:?; cbn
         end.

(** The calls of a sentence body are none or one. *)
Ltac one_call :=
  first [ intros []%elem_of_nil
        | intros ->%list_elem_of_singleton; reflexivity ].

Ltac run_body :=
  unfold result, calls, Gen_bind, Gen_ret, generateObject; cbn; split_model.

(** ** Exceptions thrown inside the loops

    A property read off [undefined] throws a [TypeError].  Where the code
    does that outside the [try] around the generation call, the error
    leaves both loops, reaches the outer [catch] and is re-thrown: the
    run writes nothing. *)

Inductive Completion (A : Type) :=
  | Normal (value : A)
  | Throws (error : string).
Arguments Normal {A} value.
Arguments Throws {A} error.

(** The text of the error for [x.substring] with [x] undefined, as V8
    words it. *)
Definition substring_of_undefined : string :=
  "TypeError: Cannot read properties of undefined (reading 'substring')".

(** [forPush] for a body that may throw: the loop stops at the first
    iteration that does. *)
Fixpoint forPushT {A B : Type} (body : nat -> A -> Gen (Completion (list B)))
    (i : nat) (arr : list A) : Gen (Completion (list B)) :=
  match arr with
  | [] => Gen_ret (Normal [])
  | x :: rest =>
      let* r := body i x in
      match r with
      | Throws error => Gen_ret (Throws error)
      | Normal pushed =>
          let* more := forPushT body (S i) rest in
          match more with
          | Throws error => Gen_ret (Throws error)
          | Normal more => Gen_ret (Normal (pushed ++ more))
          end
      end
  end.

(** The document loop around a sentence loop that may throw. *)
Definition perDocumentT {A B : Type}
    (body : nat -> nat -> A -> Gen (Completion (list B)))
    (docIndex : nat) (documentSentences : list A)
  : Gen (Completion (list (list B))) :=
  let* r := forPushT (body docIndex) 0%nat documentSentences in
  match r with
  | Throws error => Gen_ret (Throws error)
  | Normal currentDocumentOutputs => Gen_ret (Normal [currentDocumentOutputs])
  end.

(** The frame of a stage whose loops may throw: the outer [catch]
    re-throws. *)
Definition stageRunT {A B : Type} (loops : A -> Gen (Completion B))
    (input : InputFile A) : Gen (Outcome B) :=
  match input with
  | Unreadable error => Gen_ret (Thrown error)
  | NotAnArray => Gen_ret ReturnedEarly
  | ArrayOf data =>
      let* r := loops data in
      match r with
      | Throws error => Gen_ret (Thrown error)
      | Normal finalGroupedOutput => Gen_ret (Written finalGroupedOutput)
      end
  end.

(** The frame of a stage after Selection whose sentence loop may throw. *)
Definition laterStageT {A B : Type}
    (body : nat -> nat -> A -> Gen (Completion (list B)))
  : InputFile (list (list A)) -> Gen (Outcome (list (list B))) :=
  stageRunT (forPushT (perDocumentT body) 0%nat).

(** Such a stage keeps the alignment on the inputs all of whose entries
    are [ready]: it writes an artifact aligned with the input, whose entry
    at [(d, s)] is the one entry that the sentence loop pushed for the
    input entry at [(d, s)]. *)
Definition keepsAlignmentOn {A B : Type}
    (stage : InputFile (list (list A)) -> Gen (Outcome (list (list B))))
    (body : nat -> nat -> A -> Gen (Completion (list B)))
    (ready : A -> Prop) : Prop :=
  forall model data,
    (forall d s item, slotAt data d s = Some item -> ready item) ->
    exists out,
      result (stage (ArrayOf data)) model = Written out
      /\ aligned data out
      /\ forall d s item,
           slotAt data d s = Some item ->
           exists entry,
             result (body d s item) model = Normal [entry]
             /\ slotAt out d s = Some entry.

(** The run on an array throws, and writes nothing, exactly when some
    entry of the input is not [ready]. *)
Definition abortsUnless {A B : Type}
    (stage : InputFile (list (list A)) -> Gen (Outcome (list (list B))))
    (ready : A -> Prop) : Prop :=
  forall model data,
    aborts (result (stage (ArrayOf data)) model)
    <-> exists d s item, slotAt data d s = Some item /\ ~ ready item.

(** [keepsPruned] on the inputs all of whose entries are [ready]. *)
Definition keepsPrunedOn {A B : Type}
    (stage : InputFile (list (list (option A)))
             -> Gen (Outcome (list (list (option B)))))
    (ready : option A -> Prop) : Prop :=
  forall model data d s,
    (forall d' s' item, slotAt data d' s' = Some item -> ready item) ->
    slotAt data d s = Some None ->
    exists out,
      result (stage (ArrayOf data)) model = Written out
      /\ slotAt out d s = Some None
      /\ forall c, c ∈ calls (stage (ArrayOf data)) model -> ~ issuedFor d s c.

(** ** Selection on documents that may lack their query

    [claimifySelection] once more, for parsed documents of which [query]
    too may be absent.  The two guards come first; a document that passes
    them is then logged with [query.substring(0, 50)], outside the inner
    [try], which throws when there is no query. *)

Module ParsedItem.
Record t := mk {
  filename : string;
  query : option string;
  response : string;
  tokenized_response : option (list string);
  excerpts : option (list string)
}.

End ParsedItem.

Module SelectionParsed.

Definition itemBody (idx : nat) (item : ParsedItem.t)
  : Gen (Completion (list (list SelectionSchemaOutput.t))) :=
  match ParsedItem.tokenized_response item, ParsedItem.excerpts item with
  | Some tokenized_response, Some excerpts =>
      if negb (length tokenized_response =? length excerpts)%nat
      then Gen_ret (Normal [])
      else
        match ParsedItem.query item with
        | None => Gen_ret (Throws substring_of_undefined)
        | Some query =>
            let* currentFileSelectionOutputs :=
              forPush (Selection.sentenceBody idx query excerpts)
                0%nat tokenized_response in
            Gen_ret (Normal [currentFileSelectionOutputs])
        end
  | _, _ => Gen_ret (Normal [])
  end.

Definition claimifySelection
  : InputFile (list ParsedItem.t)
    -> Gen (Outcome (list (list SelectionSchemaOutput.t))) :=
  stageRunT (forPushT itemBody 0%nat).



End SelectionParsed.

Module SampleParsed.


End SampleParsed.

(** * The rest of the code *)

(** ** [extractSentenceCoverageData] ([deterministic/claimify]) *)

Module SentenceCoverageData.
Record t := mk {
  sentence : string;
  maxClarifiedSentence : string
}.
End SentenceCoverageData.

Module SentenceCoverage.

(** The nested [data.map]: empty objects are kept, of a populated slot
    only [sentence] and [maxClarifiedSentence] are. *)
Definition extractedData (data : list (list (option DecompositionData.t)))
  : list (list (option SentenceCoverageData.t)) :=
  (fun documentSentences : list (option DecompositionData.t) =>
     (fun sentenceItem : option DecompositionData.t =>
        match sentenceItem with
        | None => None
        | Some decompositionData =>
            Some {| SentenceCoverageData.sentence :=
                      DecompositionData.sentence decompositionData;
                    SentenceCoverageData.maxClarifiedSentence :=
                      DecompositionData.maxClarifiedSentence decompositionData |}
        end)
     <$> documentSentences)
  <$> data.

(** The three counts computed from the extracted data. *)
Definition totalDocuments {A : Type} (extractedData : list (list (option A))) : nat :=
  length extractedData.

Definition totalSentences {A : Type} (extractedData : list (list (option A))) : nat :=
  foldl (fun sum doc => (sum + length doc)%nat) 0%nat extractedData.

Definition nonEmptySentences {A : Type} (extractedData : list (list (option A)))
  : nat :=
  foldl (fun sum doc =>
           (sum + length (filter (fun item : option A => is_Some item) doc))%nat)
        0%nat extractedData.

Definition extractSentenceCoverageData
    (input : InputFile (list (list (option DecompositionData.t))))
  : Outcome (list (list (option SentenceCoverageData.t))) :=
  match input with
  | Unreadable error => Thrown error
  | NotAnArray => ReturnedEarly
  | ArrayOf data => Written (extractedData data)
  end.

End SentenceCoverage.

(** ** The single-turn baseline ([singleturn/claimify.ts]) *)

Module InputData.
Record t := mk {
  filename : string;
  query : string;
  response : string;
  tokenized_response : list string
}.
End InputData.

(** [z.infer<typeof BaselineExtractionSchema>]. *)
Module BaselineExtraction.
Record t := mk {
  extractedClaims : list string
}.
End BaselineExtraction.

(** What the extractor pushes for a claim.  [sentence] is
    [tokenized_response[bestSentenceIndex]], which is [undefined] when the
    document has no sentence. *)
Module ExtractedClaimRecord.
Record t := mk {
  claim : string;
  sentence : option string;
  excerpt : string;
  query : string;
  filename : string;
  sentenceIndex : nat
}.
End ExtractedClaimRecord.

Module BaselineClaimData.
Record t := mk {
  claim : string;
  sentence : string;
  excerpt : string;
  query : string;
  filename : string;
  sentenceIndex : nat
}.
End BaselineClaimData.

(** [{ ...claimData, entailmentEvaluation }]. *)
Module BaselineEntailmentRecord.
Record t := mk {
  claim : string;
  sentence : string;
  excerpt : string;
  query : string;
  filename : string;
  sentenceIndex : nat;
  entailmentEvaluation : EntailmentOutput.t
}.
End BaselineEntailmentRecord.

(** The records of the file that the coverage evaluator reads.  In a
    record parsed from it [sentence] may be absent. *)
Module BaselineElementData.
Record t := mk {
  query : string;
  excerpt : string;
  sentence : option string;
  claims : list string;
  elementExtraction : ElementExtractionOutput.t + string;
  filename : string;
  sentenceIndex : nat
}.
End BaselineElementData.

Module BaselineCoverageRecord.
Record t := mk {
  query : string;
  excerpt : string;
  sentence : option string;
  claims : list string;
  elementExtraction : ElementExtractionOutput.t + string;
  coverageEvaluation : ElementCoverageEvaluationOutput.t + string;
  filename : string;
  sentenceIndex : nat
}.
End BaselineCoverageRecord.

(** *** [baselineClaimExtractor] *)

Module BaselineExtractor.

Definition BASELINE_USER (query response : string) : string :=
  "Question: " +:+ query +:+ nl +:+ nl +:+ "Response: " +:+ response +:+ nl +:+ nl
  +:+ "Extract all verifiable factual claims from this response. Each claim should be atomic, decontextualized, and formatted as a "
  +:+ dquote +:+ "true or false?" +:+ dquote
  +:+ " question that can be independently fact-checked.".

(** The extractor issues one call per item, with [BaselineExtractionSchema]
    and [BASELINE_SYSTEM]; [site] is the item index, ghost data as for the
    stages. *)
Record ExtractionCall := mkExtractionCall {
  site : nat;
  prompt : string
}.

Definition ExtractionModel : Type := ExtractionCall -> BaselineExtraction.t + string.

Section WordOverlap.

(** Three built-ins of the JavaScript string library, taken as they
    are: [s.toLowerCase()], [s.split(/\s+/)] and [s.includes(t)]. *)
Variable toLowerCase : string -> string.
Variable splitWhitespace : string -> list string.
Variable includes : string -> string -> bool.

(** The number of words of the claim that contain, or are contained in,
    a word of the sentence. *)
Definition overlap (claim sentence : string) : nat :=
  let claimWords := splitWhitespace (toLowerCase claim) in
  let sentenceWords := splitWhitespace (toLowerCase sentence) in
  length
    (List.filter
       (fun word =>
          existsb (fun sentWord => includes sentWord word || includes word sentWord)
                  sentenceWords)
       claimWords).

(** The loop over [tokenized_response], from [sentIndex] on, with the two
    variables it updates. *)
Fixpoint bestLoop (claim : string) (sentIndex : nat) (sentences : list string)
    (bestSentenceIndex maxOverlap : nat) : nat * nat :=
  match sentences with
  | [] => (bestSentenceIndex, maxOverlap)
  | sentence :: rest =>
      if (maxOverlap <? overlap claim sentence)%nat
      then bestLoop claim (S sentIndex) rest sentIndex (overlap claim sentence)
      else bestLoop claim (S sentIndex) rest bestSentenceIndex maxOverlap
  end.

Definition bestSentenceIndex (claim : string) (tokenized_response : list string)
  : nat :=
  fst (bestLoop claim 0%nat tokenized_response 0%nat 0%nat).

(** What the loop over [extractedClaims] pushes for one claim. *)
Definition claimRecord (item : InputData.t) (claim : string)
  : ExtractedClaimRecord.t :=
  let tokenized_response := InputData.tokenized_response item in
  let bestSentenceIndex := bestSentenceIndex claim tokenized_response in
  {| ExtractedClaimRecord.claim := claim;
     ExtractedClaimRecord.sentence := tokenized_response !! bestSentenceIndex;
     ExtractedClaimRecord.excerpt :=
       SingleTurn.createExcerpt tokenized_response (Z.of_nat bestSentenceIndex) 5 5;
     ExtractedClaimRecord.query := InputData.query item;
     ExtractedClaimRecord.filename := InputData.filename item;
     ExtractedClaimRecord.sentenceIndex := bestSentenceIndex |}.

Definition request (itemIndex : nat) (item : InputData.t) : ExtractionCall :=
  {| site := itemIndex;
     prompt := BASELINE_USER (InputData.query item) (InputData.response item) |}.

(** The row of one item: a record per extracted claim, or nothing when
    the call fails. *)
Definition currentItemClaims (model : ExtractionModel) (itemIndex : nat)
    (item : InputData.t) : list ExtractedClaimRecord.t :=
  match model (request itemIndex item) with
  | inl llmOutput =>
      claimRecord item <$> BaselineExtraction.extractedClaims llmOutput
  | inr llmError => []
  end.

(** The run: how it ends, and the calls issued. *)
Definition baselineClaimExtractor (model : ExtractionModel)
    (input : InputFile (list InputData.t))
  : Outcome (list (list ExtractedClaimRecord.t)) * list ExtractionCall :=
  match input with
  | Unreadable error => (Thrown error, [])
  | NotAnArray => (ReturnedEarly, [])
  | ArrayOf data => (Written (imap (currentItemClaims model) data), imap request data)
  end.

End WordOverlap.

End BaselineExtractor.

(** *** [baselineEntailmentEvaluator] *)

Module BaselineEntailment.

Definition request (docIndex claimIndex : nat) (claimData : BaselineClaimData.t)
  : Call :=
  {| call_site := [docIndex; claimIndex];
     call_schema := EntailmentOutputSchema;
     call_system := EVAL_ENTAILMENT_SYS;
     call_prompt :=
       EVAL_ENTAILMENT_USER (BaselineClaimData.query claimData)
                            (BaselineClaimData.excerpt claimData)
                            (BaselineClaimData.sentence claimData)
                            (BaselineClaimData.claim claimData) |}.

Definition errorOutput (sentence claim llmError : string) : EntailmentOutput.t :=
  {| EntailmentOutput.sentenceS := sentence;
     EntailmentOutput.contextDescription := ERROR llmError;
     EntailmentOutput.claimC := claim;
     EntailmentOutput.claimInterpretation := ERROR llmError;
     EntailmentOutput.elementsOfC := [];
     EntailmentOutput.statementsAndActionsRuleApplies := false;
     EntailmentOutput.statementsAndActionsRuleReasoning := ERROR llmError;
     EntailmentOutput.elementAnalysis := ERROR llmError;
     EntailmentOutput.finalConclusion := DoesNotEntailAll |}.

(** [{ ...claimData, entailmentEvaluation }]. *)
Definition spread (claimData : BaselineClaimData.t)
    (entailmentEvaluation : EntailmentOutput.t) : BaselineEntailmentRecord.t :=
  {| BaselineEntailmentRecord.claim := BaselineClaimData.claim claimData;
     BaselineEntailmentRecord.sentence := BaselineClaimData.sentence claimData;
     BaselineEntailmentRecord.excerpt := BaselineClaimData.excerpt claimData;
     BaselineEntailmentRecord.query := BaselineClaimData.query claimData;
     BaselineEntailmentRecord.filename := BaselineClaimData.filename claimData;
     BaselineEntailmentRecord.sentenceIndex := BaselineClaimData.sentenceIndex claimData;
     BaselineEntailmentRecord.entailmentEvaluation := entailmentEvaluation |}.

Definition claimBody (docIndex claimIndex : nat) (claimData : BaselineClaimData.t)
  : Gen (list BaselineEntailmentRecord.t) :=
  let* r := generateObject (request docIndex claimIndex claimData) in
  match r with
  | inl llmResponse => Gen_ret [spread claimData llmResponse]
  | inr llmError =>
      Gen_ret [spread claimData
                 (errorOutput (BaselineClaimData.sentence claimData)
                              (BaselineClaimData.claim claimData) llmError)]
  end.

Definition documentBody (docIndex : nat) (documentClaims : list BaselineClaimData.t)
  : Gen (list (list BaselineEntailmentRecord.t)) :=
  let* currentDocumentOutputs :=
    forPush (claimBody docIndex) 0%nat documentClaims in
  Gen_ret [currentDocumentOutputs].

Definition baselineEntailmentEvaluator
  : InputFile (list (list BaselineClaimData.t))
    -> Gen (Outcome (list (list BaselineEntailmentRecord.t))) :=
  stageRun (forPush documentBody 0%nat).

End BaselineEntailment.

(** *** [baselineElementExtractor] *)

Module BaselineElements.

(** The file read is the one [baselineClaimExtractor] wrote: its records
    are [ExtractedClaimRecord.t], in which [sentence] is absent when the
    document had no sentence.  The claim is logged with
    [sentence.substring(0, 70)] before the [try]: without a sentence that
    throws, outside the [try]. *)

Definition request (docIndex claimIndex : nat) (claimItem : ExtractedClaimRecord.t)
    (sentence : string) : Call :=
  {| call_site := [docIndex; claimIndex];
     call_schema := ElementExtractionSchema;
     call_system := EVAL_CREATE_ELEMENTS_SYS;
     call_prompt :=
       EVAL_CREATE_ELEMENTS_USER (ExtractedClaimRecord.query claimItem)
                                 (ExtractedClaimRecord.excerpt claimItem)
                                 sentence |}.

Definition pushed (claimItem : ExtractedClaimRecord.t)
    (elementExtraction : ElementExtractionOutput.t + string)
  : BaselineElementData.t :=
  {| BaselineElementData.query := ExtractedClaimRecord.query claimItem;
     BaselineElementData.excerpt := ExtractedClaimRecord.excerpt claimItem;
     BaselineElementData.sentence := ExtractedClaimRecord.sentence claimItem;
     BaselineElementData.claims := [ExtractedClaimRecord.claim claimItem];
     BaselineElementData.elementExtraction := elementExtraction;
     BaselineElementData.filename := ExtractedClaimRecord.filename claimItem;
     BaselineElementData.sentenceIndex :=
       ExtractedClaimRecord.sentenceIndex claimItem |}.

Definition claimBody (docIndex claimIndex : nat) (claimItem : ExtractedClaimRecord.t)
  : Gen (Completion (list BaselineElementData.t)) :=
  match ExtractedClaimRecord.sentence claimItem with
  | None => Gen_ret (Throws substring_of_undefined)
  | Some sentence =>
      let* r := generateObject (request docIndex claimIndex claimItem sentence) in
      match r with
      | inl llmResponse => Gen_ret (Normal [pushed claimItem (inl llmResponse)])
      | inr llmError => Gen_ret (Normal [pushed claimItem (inr (ERROR llmError))])
      end
  end.

Definition documentBody
  : nat -> list ExtractedClaimRecord.t
    -> Gen (Completion (list (list BaselineElementData.t))) :=
  perDocumentT claimBody.

Definition baselineElementExtractor
  : InputFile (list (list ExtractedClaimRecord.t))
    -> Gen (Outcome (list (list BaselineElementData.t))) :=
  stageRunT (forPushT documentBody 0%nat).

(** The record has the sentence that the loop logs. *)
Definition hasSentence (claimItem : ExtractedClaimRecord.t) : Prop :=
  is_Some (ExtractedClaimRecord.sentence claimItem).

End BaselineElements.

(** *** [baselineCoverageEvaluator] *)

Module BaselineCoverage.

(** An empty entry and a record whose extraction failed are dealt with
    first, each with [continue]; only then is the claim logged with
    [sentence.substring(0, 70)], before the [try].  The next line logs
    [claims.length] and [elementExtraction.elements.length]: the element
    extractor writes both fields in every record, and they are taken as
    present, as the declared type has them. *)

Definition request (docIndex claimIndex : nat)
    (elementData : BaselineElementData.t)
    (elementExtraction : ElementExtractionOutput.t) : Call :=
  {| call_site := [docIndex; claimIndex];
     call_schema := ElementCoverageEvaluationSchema;
     call_system := EVAL_ELEMENT_COVERAGE_SYS;
     call_prompt :=
       EVAL_ELEMENT_COVERAGE_USER
         (BaselineElementData.query elementData)
         (BaselineElementData.excerpt elementData)
         (Coverage.claimsText (BaselineElementData.claims elementData))
         (Coverage.elementsText (ElementExtractionOutput.elements elementExtraction)) |}.

Definition pushed (elementData : BaselineElementData.t)
    (coverageEvaluation : ElementCoverageEvaluationOutput.t + string)
  : BaselineCoverageRecord.t :=
  {| BaselineCoverageRecord.query := BaselineElementData.query elementData;
     BaselineCoverageRecord.excerpt := BaselineElementData.excerpt elementData;
     BaselineCoverageRecord.sentence := BaselineElementData.sentence elementData;
     BaselineCoverageRecord.claims := BaselineElementData.claims elementData;
     BaselineCoverageRecord.elementExtraction :=
       BaselineElementData.elementExtraction elementData;
     BaselineCoverageRecord.coverageEvaluation := coverageEvaluation;
     BaselineCoverageRecord.filename := BaselineElementData.filename elementData;
     BaselineCoverageRecord.sentenceIndex :=
       BaselineElementData.sentenceIndex elementData |}.

Definition claimBody (docIndex claimIndex : nat)
    (claimItem : option BaselineElementData.t)
  : Gen (Completion (list (option BaselineCoverageRecord.t))) :=
  match claimItem with
  | None => Gen_ret (Normal [None])
  | Some elementData =>
      match BaselineElementData.elementExtraction elementData with
      | inr failure =>
          Gen_ret
            (Normal
               [Some (pushed elementData
                        (inr ("SKIPPED: Element extraction failed - " +:+ failure)))])
      | inl elementExtraction =>
          match BaselineElementData.sentence elementData with
          | None => Gen_ret (Throws substring_of_undefined)
          | Some _ =>
              let* r :=
                generateObject
                  (request docIndex claimIndex elementData elementExtraction) in
              match r with
              | inl llmResponse =>
                  Gen_ret (Normal [Some (pushed elementData (inl llmResponse))])
              | inr llmError =>
                  Gen_ret (Normal [Some (pushed elementData (inr (ERROR llmError)))])
              end
          end
      end
  end.

Definition documentBody
  : nat -> list (option BaselineElementData.t)
    -> Gen (Completion (list (list (option BaselineCoverageRecord.t)))) :=
  perDocumentT claimBody.

Definition baselineCoverageEvaluator
  : InputFile (list (list (option BaselineElementData.t)))
    -> Gen (Outcome (list (list (option BaselineCoverageRecord.t)))) :=
  stageRunT (forPushT documentBody 0%nat).

(** The entry does not make the loop read a sentence that is not
    there: it is empty, or its extraction failed, or it has a sentence. *)
Definition evaluable (claimItem : option BaselineElementData.t) : Prop :=
  match claimItem with
  | None => True
  | Some elementData =>
      match BaselineElementData.elementExtraction elementData with
      | inr _ => True
      | inl _ => is_Some (BaselineElementData.sentence elementData)
      end
  end.

End BaselineCoverage.

(** [best] is the first index at which [score] is greatest over the
    sentences. *)
Definition firstBest (score : string -> nat) (sentences : list string) (best : nat)
  : Prop :=
  exists sentence,
    sentences !! best = Some sentence
    /\ (forall j s, sentences !! j = Some s -> (score s <= score sentence)%nat)
    /\ (forall j s, (j < best)%nat -> sentences !! j = Some s ->
                    (score s < score sentence)%nat).

(** ** More sample inputs *)

Module Sample2.

Definition processed (tokenized_response : option (list string))
  : ProcessedDataItem.t :=
  {| ProcessedDataItem.filename := "doc.json";
     ProcessedDataItem.query := "Q";
     ProcessedDataItem.response := "R";
     ProcessedDataItem.tokenized_response := tokenized_response |}.

Definition original (tokenized_response : option (list string))
  : OriginalDocument.t :=
  {| OriginalDocument.filename := "doc.json";
     OriginalDocument.query := "Q0";
     OriginalDocument.response := "R";
     OriginalDocument.tokenized_response := tokenized_response |}.

Definition inputData (tokenized_response : list string) : InputData.t :=
  {| InputData.filename := "doc.json";
     InputData.query := "Q";
     InputData.response := "R";
     InputData.tokenized_response := tokenized_response |}.

Definition claimData (claim : string) : BaselineClaimData.t :=
  {| BaselineClaimData.claim := claim;
     BaselineClaimData.sentence := "S";
     BaselineClaimData.excerpt := "X";
     BaselineClaimData.query := "Q";
     BaselineClaimData.filename := "doc.json";
     BaselineClaimData.sentenceIndex := 0 |}.

(** A record as the claim extractor writes it. *)
Definition extracted (claim : string) (sentence : option string)
  : ExtractedClaimRecord.t :=
  {| ExtractedClaimRecord.claim := claim;
     ExtractedClaimRecord.sentence := sentence;
     ExtractedClaimRecord.excerpt := "X";
     ExtractedClaimRecord.query := "Q";
     ExtractedClaimRecord.filename := "doc.json";
     ExtractedClaimRecord.sentenceIndex := 0 |}.

(** Stand-ins for the three string built-ins: no case folding, words
    separated by single spaces are not split, containment is equality. *)
Definition toLowerCase (s : string) : string := s.
Definition splitWhitespace (s : string) : list string := [s].
Definition includes (s t : string) : bool := String.eqb s t.

(** An extraction model that fails at the item indices listed and
    returns two claims anywhere else. *)
Definition extracting (failing : list nat) : BaselineExtractor.ExtractionModel :=
  fun c =>
    if bool_decide (BaselineExtractor.site c ∈ failing) then inr "boom"
    else inl {| BaselineExtraction.extractedClaims := ["s1"; "zz"] |}.

End Sample2.
(** * Properties *)

(** ** The excerpt builders *)

Section Excerpt.

Context {A : Type}.
Implicit Types (arr : list A) (a b m : nat).

(** On bounds that are in range and ordered, [slice] is the usual
    sub-list. *)
Lemma slice_in_range arr a b :
  (a <= b <= length arr)%nat ->
  JS.slice arr (Z.of_nat a) (Z.of_nat b) = take (b - a) (drop a arr).
Proof.
  intros Hab. unfold JS.slice.
  destruct (Z.ltb_spec (Z.of_nat a) 0) as [Hneg|_]; [lia|].
  destruct (Z.ltb_spec (Z.of_nat b) 0) as [Hneg|_]; [lia|].
  rewrite !Z.min_l by lia.
  rewrite <- Nat2Z.inj_sub by lia.
  by rewrite !Nat2Z.id.
Qed.

(** A sub-list splits around any of its positions. *)
Lemma sublist_split_at arr a m b x :
  (a <= m < b)%nat -> arr !! m = Some x ->
  take (b - a) (drop a arr)
  = take (m - a) (drop a arr) ++ [x] ++ take (b - S m) (drop (S m) arr).
Proof.
  intros Hamb Hx.
  replace (b - a)%nat with ((m - a) + S (b - S m))%nat by lia.
  rewrite <- take_take_drop, drop_drop.
  replace (a + (m - a))%nat with m by lia.
  by rewrite (drop_S _ _ _ Hx).
Qed.

End Excerpt.

(** The sentences that the deterministic builder joins are the single
    window of the single-turn builder. *)
Lemma contextParts_window (sentences : list string) (targetIndex p f : Z) :
  0 <= targetIndex < Z.of_nat (length sentences) -> 0 <= p -> 0 <= f ->
  Deterministic.contextParts sentences targetIndex p f
  = Some <$> SingleTurn.window sentences targetIndex p f.
Proof.
  intros Ht Hp Hf.
  unfold Deterministic.contextParts, SingleTurn.window.
  set (n := length sentences) in *.
  set (t := Z.to_nat targetIndex).
  set (a := Z.to_nat (Z.max 0 (targetIndex - p))).
  set (b := Z.to_nat (Z.min (Z.of_nat n) (targetIndex + f + 1))).
  assert (Hta : targetIndex = Z.of_nat t) by (unfold t; lia).
  assert (Hab : (a <= t < b)%nat /\ (b <= n)%nat) by (unfold a, b, t; lia).
  destruct (lookup_lt_is_Some_2 sentences t) as [x Hx]; [fold n; lia|].
  replace (targetIndex - Z.min p targetIndex) with (Z.of_nat a) by (unfold a; lia).
  replace (targetIndex + 1 + Z.min f (Z.of_nat n - 1 - targetIndex))
    with (Z.of_nat b) by (unfold b; lia).
  replace (Z.max 0 (targetIndex - p)) with (Z.of_nat a) by (unfold a; lia).
  replace (Z.min (Z.of_nat n) (targetIndex + f + 1)) with (Z.of_nat b)
    by (unfold b; lia).
  replace (targetIndex + 1) with (Z.of_nat (S t)) by lia.
  rewrite Hta.
  rewrite !slice_in_range by (fold n; lia).
  unfold JS.index.
  destruct (Z.ltb_spec (Z.of_nat t) 0) as [Hneg|_]; [lia|].
  rewrite Nat2Z.id, Hx.
  rewrite (sublist_split_at sentences a t b x) by (done || lia).
  by rewrite !fmap_app.
Qed.

(** C6.  For an in-range target index and non-negative [p] and [f], the
    excerpt builder returns [sentences[start..end)] joined by single
    spaces, with [start = max(0, targetIndex - p)] and
    [end = min(len, targetIndex + f + 1)]; the target sentence is in that
    window, at offset [targetIndex - start].  The three windows of the
    specification over ["a","b","c","d","e"] come out as stated. *)
Theorem createExcerpt_is_window (sentences : list string) (targetIndex p f : Z) :
  0 <= targetIndex < Z.of_nat (length sentences) -> 0 <= p -> 0 <= f ->
  let start := Z.to_nat (Z.max 0 (targetIndex - p)) in
  let end_ :=
    Z.to_nat (Z.min (Z.of_nat (length sentences)) (targetIndex + f + 1)) in
  let window := take (end_ - start) (drop start sentences) in
  Deterministic.createExcerpt sentences targetIndex p f = String.concat " " window
  /\ (exists s, sentences !! Z.to_nat targetIndex = Some s
             /\ window !! (Z.to_nat targetIndex - start)%nat = Some s)
  /\ Deterministic.createExcerpt ["a"; "b"; "c"; "d"; "e"] 2 1 2 = "b c d e"
  /\ Deterministic.createExcerpt ["a"; "b"; "c"; "d"; "e"] 0 3 0 = "a"
  /\ Deterministic.createExcerpt ["a"; "b"; "c"; "d"; "e"] 4 0 3 = "e".
Proof.
  intros Ht Hp Hf start end_ window.
  assert (Hse : (start <= Z.to_nat targetIndex < end_)%nat
                /\ (end_ <= length sentences)%nat)
    by (unfold start, end_; lia).
  split; [|split; [|by repeat split]].
  - unfold Deterministic.createExcerpt, JS.join.
    rewrite contextParts_window by done.
    unfold SingleTurn.window.
    replace (Z.max 0 (targetIndex - p)) with (Z.of_nat start)
      by (unfold start; lia).
    replace (Z.min (Z.of_nat (length sentences)) (targetIndex + f + 1))
      with (Z.of_nat end_) by (unfold end_; lia).
    rewrite slice_in_range by lia.
    rewrite <- list_fmap_compose.
    by rewrite list_fmap_id.
  - destruct (lookup_lt_is_Some_2 sentences (Z.to_nat targetIndex)) as [s Hs];
      [lia|].
    exists s. split; [done|].
    unfold window.
    rewrite lookup_take_lt by lia.
    rewrite lookup_drop.
    by replace (start + (Z.to_nat targetIndex - start))%nat
      with (Z.to_nat targetIndex) by lia.
Qed.

Lemma createExcerpt_is_window_witness :
  Deterministic.createExcerpt ["a"; "b"; "c"; "d"; "e"] 1 1 1
  = String.concat " " ["a"; "b"; "c"].
Proof.
  refine (proj1 (createExcerpt_is_window ["a"; "b"; "c"; "d"; "e"] 1 1 1 _ _ _));
    simpl; lia.
Defined.

(** C10.  The slice-based builder of the deterministic module and the
    max/min-based builder of the single-turn module return the same
    string for every sentence list, every in-range target index and all
    non-negative [p] and [f]. *)
Theorem createExcerpt_builders_agree (sentences : list string)
    (targetIndex p f : Z) :
  0 <= targetIndex < Z.of_nat (length sentences) -> 0 <= p -> 0 <= f ->
  Deterministic.createExcerpt sentences targetIndex p f
  = SingleTurn.createExcerpt sentences targetIndex p f.
Proof.
  intros Ht Hp Hf.
  unfold Deterministic.createExcerpt, SingleTurn.createExcerpt.
  by rewrite contextParts_window.
Qed.

Lemma createExcerpt_builders_agree_witness :
  Deterministic.createExcerpt ["a"; "b"; "c"; "d"; "e"] 2 1 2
  = SingleTurn.createExcerpt ["a"; "b"; "c"; "d"; "e"] 2 1 2.
Proof.
  apply createExcerpt_builders_agree; simpl; lia.
Defined.

(** Outside that domain the two builders part: with a negative [p] the
    single-turn window starts after the target sentence. *)
Example builders_differ_for_negative_p :
  Deterministic.createExcerpt ["a"; "b"; "c"; "d"; "e"] 2 (-1) 2 = "c d e"
  /\ SingleTurn.createExcerpt ["a"; "b"; "c"; "d"; "e"] 2 (-1) 2 = "d e".
Proof. split; reflexivity. Qed.

(** [createContext] gives every document as many excerpts as it has
    sentences, so Selection skips none of the documents that have a
    sentence array. *)
Lemma createContext_not_malformed p f data item :
  item ∈ Pipeline.createContext p f data ->
  is_Some (DataItemWithExcerpts.tokenized_response item) ->
  ~ malformed item.
Proof.
  unfold Pipeline.createContext.
  intros (source & -> & _)%list_elem_of_fmap [sentences Hsentences].
  unfold malformed. cbn in *. rewrite Hsentences.
  rewrite length_imap. intros Hne. by apply Hne.
Qed.

(** ** Loops that push *)

Section ForPush.

Context {A B : Type}.
Implicit Types (body : nat -> A -> Gen (list B)) (arr : list A).

Lemma result_forPush body model i arr :
  result (forPush body i arr) model
  = mjoin (imap (fun k x => result (body (i + k)%nat x) model) arr).
Proof.
  revert i. induction arr as [|x rest IH]; intros i; [done|].
  unfold result in *. cbn [forPush]. unfold Gen_bind at 1.
  destruct (body i x model) as [pushed calls1] eqn:Hbody.
  unfold Gen_bind.
  specialize (IH (S i)).
  destruct (forPush body (S i) rest model) as [more calls2].
  cbn in *. rewrite Nat.add_0_r, Hbody. cbn. f_equal.
  rewrite IH. f_equal. apply imap_ext. intros k y _. cbn.
  by rewrite Nat.add_succ_r.
Qed.

Lemma calls_forPush body model i arr :
  calls (forPush body i arr) model
  = mjoin (imap (fun k x => calls (body (i + k)%nat x) model) arr).
Proof.
  revert i. induction arr as [|x rest IH]; intros i; [done|].
  unfold calls in *. cbn [forPush]. unfold Gen_bind at 1.
  destruct (body i x model) as [pushed calls1] eqn:Hbody.
  unfold Gen_bind.
  specialize (IH (S i)).
  destruct (forPush body (S i) rest model) as [more calls2].
  cbn in *. rewrite Nat.add_0_r, Hbody, app_nil_r. cbn. f_equal.
  rewrite IH. f_equal. apply imap_ext. intros k y _. cbn.
  by rewrite Nat.add_succ_r.
Qed.

(** When every iteration pushes exactly one element, the output is the
    indexed map of the input. *)
Lemma forPush_one_each body model (g : nat -> A -> B) i arr :
  (forall k x, arr !! k = Some x ->
               result (body (i + k)%nat x) model = [g (i + k)%nat x]) ->
  result (forPush body i arr) model = imap (fun k x => g (i + k)%nat x) arr.
Proof.
  intros Hone. rewrite result_forPush.
  revert i Hone. induction arr as [|x rest IH]; intros i Hone; [done|].
  rewrite !imap_cons. cbn.
  rewrite (Hone 0%nat x) by done. cbn. f_equal.
  erewrite (imap_ext _ (fun k y => result (body (S i + k)%nat y) model));
    [erewrite (imap_ext (_ ∘ S) (fun k y => g (S i + k)%nat y))|].
  - apply IH. intros k y Hk. cbn. rewrite <- !Nat.add_succ_r. by apply (Hone (S k)).
  - intros k y _. cbn. by rewrite Nat.add_succ_r.
  - intros k y _. cbn. by rewrite Nat.add_succ_r.
Qed.

(** Every call of the loop is a call of one of its iterations. *)
Lemma elem_of_calls_forPush body model i arr c :
  c ∈ calls (forPush body i arr) model ->
  exists k x, arr !! k = Some x /\ c ∈ calls (body (i + k)%nat x) model.
Proof.
  rewrite calls_forPush. intros Hc.
  apply list_elem_of_join in Hc as (cs & Hc & Hcs).
  apply elem_of_lookup_imap in Hcs as (k & x & -> & Hx).
  by exists k, x.
Qed.

End ForPush.

Section ForPushAligned.

Context {A B : Type}.
Implicit Types (body : nat -> A -> Gen (list B)) (arr : list A).

(** When every iteration pushes exactly one element, the output has the
    length of the input and its [k]-th entry is the push of iteration
    [k]. *)
Lemma forPush_lookup body model i arr :
  (forall k x, arr !! k = Some x ->
               length (result (body (i + k)%nat x) model) = 1%nat) ->
  length (result (forPush body i arr) model) = length arr
  /\ forall k, result (forPush body i arr) model !! k
               = arr !! k ≫= (fun x => head (result (body (i + k)%nat x) model)).
Proof.
  intros Hone.
  assert (Hg : forall k x, arr !! k = Some x ->
             exists b, result (body (i + k)%nat x) model = [b]).
  { intros k x Hx. specialize (Hone k x Hx).
    destruct (result (body (i + k)%nat x) model) as [|b [|]]; try done.
    by exists b. }
  clear Hone. rewrite result_forPush.
  revert i Hg. induction arr as [|x rest IH]; intros i Hg.
  { split; [done|]. by intros []. }
  rewrite imap_cons.
  destruct (Hg 0%nat x eq_refl) as [b Hb]. rewrite Hb.
  match goal with
  | |- context [mjoin ([b] :: ?ls)] => change (mjoin ([b] :: ls)) with ([b] ++ mjoin ls)
  end.
  destruct (IH (S i)) as [IHlen IHlook].
  { intros k y Hy. replace (S i + k)%nat with (i + S k)%nat by lia.
    by apply (Hg (S k)). }
  assert (Hshift :
    imap ((fun k y => result (body (i + k)%nat y) model) ∘ S) rest
    = imap (fun k y => result (body (S i + k)%nat y) model) rest).
  { apply imap_ext. intros k y _. cbn. by rewrite Nat.add_succ_r. }
  rewrite Hshift. split.
  - rewrite length_app, IHlen. done.
  - intros [|k].
    + cbn. by rewrite Hb.
    + change (([b] ++ ?l) !! S k) with (l !! k).
      rewrite IHlook. cbn. destruct (rest !! k); [|done]. cbn.
      by rewrite Nat.add_succ_r.
Qed.

End ForPushAligned.

Section ForPushShort.

Context {A B : Type}.
Implicit Types (body : nat -> A -> Gen (list B)) (arr : list A).

Lemma result_forPush_cons body model i x rest :
  result (forPush body i (x :: rest)) model
  = result (body i x) model ++ result (forPush body (S i) rest) model.
Proof.
  unfold result. cbn [forPush]. unfold Gen_bind.
  destruct (body i x model), (forPush body (S i) rest model). done.
Qed.

Lemma forPush_length_le body model i arr :
  (forall j y, arr !! j = Some y ->
               (length (result (body (i + j)%nat y) model) <= 1)%nat) ->
  (length (result (forPush body i arr) model) <= length arr)%nat.
Proof.
  revert i. induction arr as [|x rest IH]; intros i Hle; [done|].
  rewrite result_forPush_cons, length_app. cbn [length].
  specialize (Hle 0%nat x eq_refl) as Hx. rewrite Nat.add_0_r in Hx.
  enough (length (result (forPush body (S i) rest) model) <= length rest)%nat by lia.
  apply IH. intros j y Hj.
  replace (S i + j)%nat with (i + S j)%nat by lia. by apply (Hle (S j)).
Qed.

(** An iteration that pushes nothing, in a loop whose iterations push at
    most one element, leaves the output shorter than the input. *)
Lemma forPush_length_lt body model i arr k x :
  (forall j y, arr !! j = Some y ->
               (length (result (body (i + j)%nat y) model) <= 1)%nat) ->
  arr !! k = Some x ->
  result (body (i + k)%nat x) model = [] ->
  (length (result (forPush body i arr) model) < length arr)%nat.
Proof.
  revert i k. induction arr as [|y rest IH]; intros i k Hle Hk Hnone; [done|].
  rewrite result_forPush_cons, length_app. cbn [length].
  assert (Hrest : forall j z, rest !! j = Some z ->
            (length (result (body (S i + j)%nat z) model) <= 1)%nat).
  { intros j z Hj. replace (S i + j)%nat with (i + S j)%nat by lia.
    by apply (Hle (S j)). }
  destruct k as [|k].
  - injection Hk as ->. rewrite Nat.add_0_r in Hnone. rewrite Hnone. cbn.
    pose proof (forPush_length_le body model (S i) rest Hrest). lia.
  - specialize (Hle 0%nat y eq_refl) as Hy. rewrite Nat.add_0_r in Hy.
    enough (length (result (forPush body (S i) rest) model) < length rest)%nat by lia.
    apply (IH (S i) k Hrest Hk).
    by replace (S i + k)%nat with (i + S k)%nat by lia.
Qed.

End ForPushShort.

(** ** The five stages after Selection, generically *)

Section LaterStage.

Context {A B : Type} (body : nat -> nat -> A -> Gen (list B)).

(** Each slot, populated or not, makes the sentence loop push once. *)
Hypothesis pushes_once :
  forall model d s item, length (result (body d s item) model) = 1%nat.

Lemma result_perDocument model d doc :
  result (perDocument body d doc) model = [result (forPush (body d) 0%nat doc) model].
Proof.
  unfold perDocument, result, Gen_bind.
  by destruct (forPush (body d) 0%nat doc model).
Qed.

Lemma calls_perDocument model d doc :
  calls (perDocument body d doc) model = calls (forPush (body d) 0%nat doc) model.
Proof.
  unfold perDocument, calls, Gen_bind.
  destruct (forPush (body d) 0%nat doc model). cbn. apply app_nil_r.
Qed.

Lemma result_laterStage model data :
  result (laterStage body (ArrayOf data)) model
  = Written (imap (fun d doc => result (forPush (body d) 0%nat doc) model) data).
Proof.
  unfold laterStage, stageRun.
  transitivity (Written (result (forPush (perDocument body) 0%nat data) model)).
  { unfold result, Gen_bind.
    by destruct (forPush (perDocument body) 0%nat data model). }
  f_equal.
  apply (forPush_one_each (perDocument body) model
           (fun d doc => result (forPush (body d) 0%nat doc) model) 0%nat data).
  intros k doc _. apply result_perDocument.
Qed.

Lemma calls_laterStage model data c :
  c ∈ calls (laterStage body (ArrayOf data)) model ->
  exists d s doc item,
    data !! d = Some doc /\ doc !! s = Some item
    /\ c ∈ calls (body d s item) model.
Proof.
  unfold laterStage, stageRun. intros Hc.
  assert (Hc' : c ∈ calls (forPush (perDocument body) 0%nat data) model).
  { revert Hc. unfold calls, Gen_bind.
    destruct (forPush (perDocument body) 0%nat data model). cbn.
    by rewrite app_nil_r. }
  apply elem_of_calls_forPush in Hc' as (d & doc & Hdoc & Hc').
  rewrite calls_perDocument in Hc'.
  apply elem_of_calls_forPush in Hc' as (s & item & Hitem & Hc').
  by exists d, s, doc, item.
Qed.

(** The stage writes an artifact aligned with its input, and the entry
    at [(d, s)] is what the sentence loop pushed for the input entry at
    [(d, s)]. *)
Lemma laterStage_aligned model data :
  exists out,
    result (laterStage body (ArrayOf data)) model = Written out
    /\ aligned data out
    /\ forall d s, slotAt out d s
                   = slotAt data d s
                       ≫= (fun item => head (result (body d s item) model)).
Proof.
  eexists. split; [apply result_laterStage|]. split.
  - unfold aligned. apply Forall2_same_length_lookup_2.
    + by rewrite length_imap.
    + intros d doc row Hdoc Hrow.
      rewrite list_lookup_imap, Hdoc in Hrow. injection Hrow as <-.
      by apply forPush_lookup.
  - intros d s. unfold slotAt.
    rewrite list_lookup_imap.
    destruct (data !! d) as [doc|]; [|done]. cbn.
    by apply forPush_lookup.
Qed.

End LaterStage.

(** ** The stages, one by one *)

Lemma Disambiguation_is_laterStage :
  Disambiguation.claimifyDisambiguiation = laterStage Disambiguation.sentenceBody.
Proof. reflexivity. Qed.

Lemma Disambiguation_pushes_once model d s item :
  length (result (Disambiguation.sentenceBody d s item) model) = 1%nat.
Proof. destruct item; unfold Disambiguation.sentenceBody; run_body; done. Qed.

Lemma Disambiguation_pruned model d s :
  Disambiguation.sentenceBody d s None model = ([None], []).
Proof. reflexivity. Qed.

Lemma Disambiguation_issuedFor model d s item c :
  c ∈ calls (Disambiguation.sentenceBody d s item) model -> issuedFor d s c.
Proof.
  destruct item; unfold Disambiguation.sentenceBody; run_body; one_call.
Qed.

Lemma Decomposition_is_laterStage :
  Decomposition.claimifyDecomposition = laterStage Decomposition.sentenceBody.
Proof. reflexivity. Qed.

Lemma Decomposition_pushes_once model d s item :
  length (result (Decomposition.sentenceBody d s item) model) = 1%nat.
Proof.
  destruct item as [disambiguationData|]; unfold Decomposition.sentenceBody;
    [destruct (DisambiguationData.canBeDisambiguated disambiguationData)|];
    run_body; done.
Qed.

Lemma Decomposition_pruned model d s :
  Decomposition.sentenceBody d s None model = ([None], []).
Proof. reflexivity. Qed.

Lemma Decomposition_issuedFor model d s item c :
  c ∈ calls (Decomposition.sentenceBody d s item) model -> issuedFor d s c.
Proof.
  destruct item as [disambiguationData|]; unfold Decomposition.sentenceBody;
    [destruct (DisambiguationData.canBeDisambiguated disambiguationData)|];
    run_body; one_call.
Qed.

Lemma Entailment_is_laterStage :
  Entailment.entailmentEvaluator = laterStage Entailment.sentenceBody.
Proof. reflexivity. Qed.

Lemma Entailment_sentenceBody_Some model d s decompositionData :
  Entailment.sentenceBody d s (Some decompositionData) model
  = ([Some {| EntailmentRecord.claimEvaluations :=
                result
                  (forPush (Entailment.claimBody d s decompositionData) 0%nat
                     (DecompositionData.propositionsWithContext decompositionData))
                  model |}],
     calls
       (forPush (Entailment.claimBody d s decompositionData) 0%nat
          (DecompositionData.propositionsWithContext decompositionData))
       model).
Proof.
  unfold Entailment.sentenceBody, result, calls, Gen_bind, Gen_ret.
  destruct (forPush _ _ _ model). cbn. by rewrite app_nil_r.
Qed.

Lemma Entailment_pushes_once model d s item :
  length (result (Entailment.sentenceBody d s item) model) = 1%nat.
Proof.
  destruct item; [|done]. unfold result.
  by rewrite Entailment_sentenceBody_Some.
Qed.

Lemma Entailment_pruned model d s :
  Entailment.sentenceBody d s None model = ([None], []).
Proof. reflexivity. Qed.

Lemma Entailment_issuedFor model d s item c :
  c ∈ calls (Entailment.sentenceBody d s item) model -> issuedFor d s c.
Proof.
  destruct item as [decompositionData|]; [|one_call].
  unfold calls at 1. rewrite Entailment_sentenceBody_Some. cbn.
  intros (k & claim & _ & Hc)%elem_of_calls_forPush. revert Hc.
  unfold Entailment.claimBody. run_body; one_call.
Qed.

Lemma ElementExtraction_is_laterStage :
  ElementExtraction.elementExtractorV2 = laterStage ElementExtraction.sentenceBody.
Proof. reflexivity. Qed.

Lemma ElementExtraction_pushes_once model d s item :
  length (result (ElementExtraction.sentenceBody d s item) model) = 1%nat.
Proof. destruct item; unfold ElementExtraction.sentenceBody; run_body; done. Qed.

Lemma ElementExtraction_pruned model d s :
  ElementExtraction.sentenceBody d s None model = ([None], []).
Proof. reflexivity. Qed.

Lemma ElementExtraction_issuedFor model d s item c :
  c ∈ calls (ElementExtraction.sentenceBody d s item) model -> issuedFor d s c.
Proof.
  destruct item; unfold ElementExtraction.sentenceBody; run_body; one_call.
Qed.

Lemma Coverage_is_laterStage :
  Coverage.elementCoverageEvaluatorV2 = laterStage Coverage.sentenceBody.
Proof. reflexivity. Qed.

Lemma Coverage_pushes_once model d s item :
  length (result (Coverage.sentenceBody d s item) model) = 1%nat.
Proof.
  destruct item as [elementData|]; unfold Coverage.sentenceBody;
    [destruct (ElementCoverageData.elementExtraction elementData)|];
    run_body; done.
Qed.

Lemma Coverage_pruned model d s :
  Coverage.sentenceBody d s None model = ([None], []).
Proof. reflexivity. Qed.

Lemma Coverage_issuedFor model d s item c :
  c ∈ calls (Coverage.sentenceBody d s item) model -> issuedFor d s c.
Proof.
  destruct item as [elementData|]; unfold Coverage.sentenceBody;
    [destruct (ElementCoverageData.elementExtraction elementData)|];
    run_body; one_call.
Qed.

(** ** Selection *)

Lemma result_stageRun {A B : Type} (loops : A -> Gen B) model data :
  result (stageRun loops (ArrayOf data)) model = Written (result (loops data) model).
Proof.
  unfold stageRun, result, Gen_bind. by destruct (loops data model).
Qed.

Lemma calls_stageRun {A B : Type} (loops : A -> Gen B) model data :
  calls (stageRun loops (ArrayOf data)) model = calls (loops data) model.
Proof.
  unfold stageRun, calls, Gen_bind. destruct (loops data model). cbn.
  apply app_nil_r.
Qed.

(** The rows of the Selection artifact are the rows its document loop
    pushed, in order; a document that pushes none leaves no gap. *)
Lemma Selection_rows model data :
  result (Selection.claimifySelection (ArrayOf data)) model
  = Written (mjoin (imap (fun idx item => result (Selection.itemBody idx item) model)
                         data)).
Proof.
  unfold Selection.claimifySelection.
  by rewrite result_stageRun, result_forPush.
Qed.

Lemma Selection_skips_malformed model idx item :
  malformed item -> Selection.itemBody idx item model = ([], []).
Proof.
  unfold malformed, Selection.itemBody.
  destruct (DataItemWithExcerpts.tokenized_response item) as [tokenized_response|];
    [|done].
  destruct (DataItemWithExcerpts.excerpts item) as [excerpts|]; [|done].
  intros Hlen.
  by destruct (Nat.eqb_spec (length tokenized_response) (length excerpts)).
Qed.

Lemma Selection_wellformed_row model idx item tokenized_response excerpts :
  DataItemWithExcerpts.tokenized_response item = Some tokenized_response ->
  DataItemWithExcerpts.excerpts item = Some excerpts ->
  length tokenized_response = length excerpts ->
  result (Selection.itemBody idx item) model
  = [result
       (forPush (Selection.sentenceBody idx (DataItemWithExcerpts.query item) excerpts)
          0%nat tokenized_response)
       model].
Proof.
  intros Htr Hex Hlen. unfold Selection.itemBody. rewrite Htr, Hex.
  rewrite (proj2 (Nat.eqb_eq _ _) Hlen). cbn [negb].
  unfold result, Gen_bind. by destruct (forPush _ _ _ model).
Qed.

Lemma Selection_sentence_success model idx query excerpts i sentence o :
  model (Selection.request idx i query (excerpts !! i) sentence) = inl o ->
  result (Selection.sentenceBody idx query excerpts i sentence) model = [o].
Proof.
  intros Ho. unfold Selection.sentenceBody, result, Gen_bind, generateObject.
  by rewrite Ho.
Qed.

Lemma Selection_sentence_failure model idx query excerpts i sentence llmError :
  model (Selection.request idx i query (excerpts !! i) sentence) = inr llmError ->
  result (Selection.sentenceBody idx query excerpts i sentence) model = [].
Proof.
  intros Ho. unfold Selection.sentenceBody, result, Gen_bind, generateObject.
  by rewrite Ho.
Qed.

Lemma Selection_sentence_at_most_one model idx query excerpts i sentence :
  (length (result (Selection.sentenceBody idx query excerpts i sentence) model) <= 1)%nat.
Proof. unfold Selection.sentenceBody. run_body; lia. Qed.

(** In a document that passes the guards, one failed call is enough to
    make the row shorter than the sentence array. *)
Lemma Selection_failed_call_shortens_row model idx item tokenized_response
    excerpts i sentence llmError :
  DataItemWithExcerpts.tokenized_response item = Some tokenized_response ->
  DataItemWithExcerpts.excerpts item = Some excerpts ->
  length tokenized_response = length excerpts ->
  tokenized_response !! i = Some sentence ->
  model (Selection.request idx i (DataItemWithExcerpts.query item)
           (excerpts !! i) sentence) = inr llmError ->
  exists row,
    result (Selection.itemBody idx item) model = [row]
    /\ (length row < length tokenized_response)%nat.
Proof.
  intros Htr Hex Hlen Hi Hfail. eexists.
  split; [by apply Selection_wellformed_row|].
  apply (forPush_length_lt _ model 0%nat tokenized_response i sentence).
  - intros. apply Selection_sentence_at_most_one.
  - done.
  - by apply (Selection_sentence_failure _ _ _ _ _ _ llmError).
Qed.

(** The record that the [catch] branch of Selection builds, and does not
    push, has the verdict "does not contain". *)
Lemma Selection_errorOutput_verdict filename i sentence llmError :
  FinalSubmission_text
    (SelectionOutput.finalSubmission (Selection.errorOutput filename i sentence llmError))
  = "Does NOT contain a specific and verifiable proposition"
  /\ SelectionOutput.sentenceWithOnlyVerifiableInformation
       (Selection.errorOutput filename i sentence llmError)
     = ERROR llmError.
Proof. by split. Qed.

(** ** C1: the alignment invariant *)

(** C1 (as amended).  Disambiguation, Decomposition, Entailment, Element
    extraction and Coverage write, for every document, exactly one entry
    per input entry, in index order, whether the generation calls succeed
    or fail.  Selection does so for a document whose [tokenized_response]
    and [excerpts] are arrays of equal length and whose generation calls
    all succeed; a document whose parallel arrays are missing or differ
    in length pushes no row at all. *)
Theorem alignment_invariant (model : LanguageModel) (idx : nat)
    (item : DataItemWithExcerpts.t) (tokenized_response excerpts : list string) :
  DataItemWithExcerpts.tokenized_response item = Some tokenized_response ->
  DataItemWithExcerpts.excerpts item = Some excerpts ->
  length tokenized_response = length excerpts ->
  (forall i sentence,
     tokenized_response !! i = Some sentence ->
     exists o,
       model (Selection.request idx i (DataItemWithExcerpts.query item)
                (excerpts !! i) sentence) = inl o) ->
  (exists row,
     result (Selection.itemBody idx item) model = [row]
     /\ length row = length tokenized_response
     /\ forall i sentence,
          tokenized_response !! i = Some sentence ->
          exists o,
            model (Selection.request idx i (DataItemWithExcerpts.query item)
                     (excerpts !! i) sentence) = inl o
            /\ row !! i = Some o)
  /\ (forall idx' item',
        malformed item' -> result (Selection.itemBody idx' item') model = [])
  /\ keepsAlignment Disambiguation.claimifyDisambiguiation Disambiguation.sentenceBody
  /\ keepsAlignment Decomposition.claimifyDecomposition Decomposition.sentenceBody
  /\ keepsAlignment Entailment.entailmentEvaluator Entailment.sentenceBody
  /\ keepsAlignment ElementExtraction.elementExtractorV2 ElementExtraction.sentenceBody
  /\ keepsAlignment Coverage.elementCoverageEvaluatorV2 Coverage.sentenceBody.
Proof.
  intros Htr Hex Hlen Hok. split; [|split].
  - eexists. split; [by apply Selection_wellformed_row|].
    destruct (forPush_lookup
                (Selection.sentenceBody idx (DataItemWithExcerpts.query item) excerpts)
                model 0%nat tokenized_response) as [Hlength Hlookup].
    { intros k sentence Hk. destruct (Hok k sentence Hk) as [o Ho].
      by rewrite (Selection_sentence_success _ _ _ _ _ _ o). }
    split; [done|].
    intros i sentence Hi. destruct (Hok i sentence Hi) as [o Ho].
    exists o. split; [done|].
    rewrite Hlookup, Hi. cbn.
    by rewrite (Selection_sentence_success _ _ _ _ _ _ o).
  - intros idx' item' Hbad. unfold result.
    by rewrite Selection_skips_malformed.
  - repeat split; intros model' data.
    + apply (laterStage_aligned _ Disambiguation_pushes_once).
    + apply (laterStage_aligned _ Decomposition_pushes_once).
    + apply (laterStage_aligned _ Entailment_pushes_once).
    + apply (laterStage_aligned _ ElementExtraction_pushes_once).
    + apply (laterStage_aligned _ Coverage_pushes_once).
Qed.

Lemma alignment_invariant_witness :
  exists row,
    result (Selection.itemBody 0 Sample.threeSentences) Sample.answering = [row]
    /\ length row = 3%nat.
Proof.
  destruct (alignment_invariant Sample.answering 0 Sample.threeSentences
              ["s0"; "s1"; "s2"] ["s0 s1"; "s0 s1 s2"; "s1 s2"]
              eq_refl eq_refl eq_refl) as [(row & Hrow & Hlen & _) _].
  - intros i sentence _. eexists. reflexivity.
  - exists row. split; [exact Hrow | exact Hlen].
Defined.

(** C1 as stated fails at Selection: a document whose two parallel
    arrays differ in length gets no row, so the artifact is not aligned
    with the documents. *)
Lemma alignment_invariant_counterexample :
  result (Selection.claimifySelection (ArrayOf [Sample.mismatched])) Sample.answering
  = Written []
  /\ length (sentencesOf Sample.mismatched) = 2%nat
  /\ ~ alignedWithSentences [Sample.mismatched] [].
Proof.
  split; [reflexivity|]. split; [reflexivity|].
  intros Haligned. inversion Haligned.
Qed.

(** ** C2: error isolation *)

(** C2 fails at Selection.  On a document of three sentences whose
    second generation call fails, Selection attempts the three calls and
    writes a row of two entries, the two successes: the [catch] branch
    builds its error record but the statement that pushes it is commented
    out. *)
Theorem selection_drops_failed_slot :
  let run := Selection.claimifySelection (ArrayOf [Sample.threeSentences]) in
  let model := Sample.failingAt [[0; 1]%nat] in
  call_site <$> calls run model = [[0; 0]; [0; 1]; [0; 2]]%nat
  /\ result run model
     = Written [[Sample.answer SelectionOutputSchema;
                 Sample.answer SelectionOutputSchema]].
Proof. split; reflexivity. Qed.

(** The stages after Selection isolate the error: three entries, the
    middle one the sentinel. *)
Lemma disambiguation_isolates_failed_slot :
  let sentenceData := Sample.sentenceData "s" "remains unchanged" in
  let ok :=
    Disambiguation.spread (Sample.answer DisambiguationOutputSchema) "s" "Q" "X" in
  let sentinel :=
    Disambiguation.spread (Disambiguation.errorOutput "boom") "s" "Q" "X" in
  result
    (Disambiguation.claimifyDisambiguiation
       (ArrayOf [[Some sentenceData; Some sentenceData; Some sentenceData]]))
    (Sample.failingAt [[0; 1]%nat])
  = Written [[Some ok; Some sentinel; Some ok]].
Proof. reflexivity. Qed.

(** ** C3: what a failed call leaves behind *)

(** C3 (as amended).  Two statements, each about one call of one stage.
    A failed call at Disambiguation stores a record with
    [canBeDisambiguated = false], its free-text fields set to the error
    marker and the carried-over fields in place.  A failed call at
    Entailment stores, for that claim, the error marker in place of the
    evaluation object: no conclusion is stored. *)
Theorem fail_closed_defaults (model : LanguageModel) (d s claimIndex : nat)
    (sentenceData : SentenceData.t) (decompositionData : DecompositionData.t)
    (claim : string) :
  (forall llmError,
     model (Disambiguation.request d s sentenceData) = inr llmError ->
     exists stored,
       result (Disambiguation.sentenceBody d s (Some sentenceData)) model
       = [Some stored]
       /\ DisambiguationData.canBeDisambiguated stored = false
       /\ DisambiguationData.incompleteNamesAnalysis stored = ERROR llmError
       /\ DisambiguationData.linguisticAmbiguityAnalysis stored = ERROR llmError
       /\ DisambiguationData.changesNeeded stored = ERROR llmError
       /\ DisambiguationData.decontextualizedSentence stored = ERROR llmError
       /\ DisambiguationData.originalSentence stored
          = Disambiguation.sentenceForPrompt sentenceData
       /\ DisambiguationData.query stored = SentenceData.query sentenceData
       /\ DisambiguationData.excerpt stored = SentenceData.excerpt sentenceData)
  /\ (forall llmError,
        model (Entailment.request d s claimIndex decompositionData claim)
        = inr llmError ->
        exists evaluation,
          result (Entailment.claimBody d s decompositionData claimIndex claim) model
          = [evaluation]
          /\ ClaimEvaluation.claim evaluation = claim
          /\ ClaimEvaluation.entailmentEvaluation evaluation = inr (ERROR llmError)
          /\ storedConclusion evaluation = None).
Proof.
  split.
  - intros llmError Hfail. eexists. split.
    + unfold Disambiguation.sentenceBody, result, Gen_bind, generateObject.
      by rewrite Hfail.
    + by repeat split.
  - intros llmError Hfail. eexists. split.
    + unfold Entailment.claimBody, result, Gen_bind, generateObject.
      by rewrite Hfail.
    + by repeat split.
Qed.

(** A provider that fails at Disambiguation only, and one that fails at
    Entailment only. *)
Lemma fail_closed_defaults_witness :
  (exists stored,
     result (Disambiguation.sentenceBody 0 0 (Some (Sample.sentenceData "s" "r")))
       (Sample.failingAt [[0; 0]%nat])
     = [Some stored]
     /\ DisambiguationData.canBeDisambiguated stored = false)
  /\ (exists evaluation,
        result
          (Entailment.claimBody 0 0 (Sample.decompositionData "Q" "X" "S") 0 "P")
          (Sample.failingAt [[0; 0; 0]%nat])
        = [evaluation]
        /\ storedConclusion evaluation = None).
Proof.
  split.
  - destruct (proj1 (fail_closed_defaults (Sample.failingAt [[0; 0]%nat]) 0 0 0
                       (Sample.sentenceData "s" "r")
                       (Sample.decompositionData "Q" "X" "S") "P")
                "boom" eq_refl) as (stored & Hstored & Hdefault & _).
    exists stored. split; [exact Hstored | exact Hdefault].
  - destruct (proj2 (fail_closed_defaults (Sample.failingAt [[0; 0; 0]%nat]) 0 0 0
                       (Sample.sentenceData "s" "r")
                       (Sample.decompositionData "Q" "X" "S") "P")
                "boom" eq_refl) as (evaluation & Hstored & _ & _ & Hnone).
    exists evaluation. split; [exact Hstored | exact Hnone].
Defined.

(** C3 as stated fails at Entailment: after a failed call no conclusion
    is stored, so the stored conclusion is not "S does not entail all
    elements of C". *)
Lemma fail_closed_defaults_counterexample :
  let decompositionData := Sample.decompositionData "Q" "X" "S" in
  let model := Sample.failingAt [[0; 0; 0]%nat] in
  let evaluation :=
    {| ClaimEvaluation.claim := "P - true or false?";
       ClaimEvaluation.entailmentEvaluation := inr "ERROR: boom" |} in
  model (Entailment.request 0 0 0 decompositionData "P - true or false?") = inr "boom"
  /\ result (Entailment.entailmentEvaluator (ArrayOf [[Some decompositionData]])) model
     = Written [[Some {| EntailmentRecord.claimEvaluations := [evaluation] |}]]
  /\ storedConclusion evaluation <> Some DoesNotEntailAll.
Proof. split; [reflexivity|]. split; [reflexivity|]. discriminate. Qed.

(** ** C4: structural errors *)

Section ForPushT.

Context {A B : Type}.
Implicit Types (body : nat -> A -> Gen (Completion (list B))) (arr : list A).

Lemma result_forPushT_cons body model i x rest :
  result (forPushT body i (x :: rest)) model
  = match result (body i x) model with
    | Throws error => Throws error
    | Normal pushed =>
        match result (forPushT body (S i) rest) model with
        | Throws error => Throws error
        | Normal more => Normal (pushed ++ more)
        end
    end.
Proof.
  unfold result. cbn [forPushT]. unfold Gen_bind at 1.
  destruct (body i x model) as [[pushed|error] calls1]; [|done].
  unfold Gen_bind.
  by destruct (forPushT body (S i) rest model) as [[more|error] calls2].
Qed.

Lemma calls_forPushT_cons body model i x rest :
  calls (forPushT body i (x :: rest)) model
  = calls (body i x) model
    ++ match result (body i x) model with
       | Throws _ => []
       | Normal _ => calls (forPushT body (S i) rest) model
       end.
Proof.
  unfold calls, result. cbn [forPushT]. unfold Gen_bind at 1.
  destruct (body i x model) as [[pushed|error] calls1]; [|done].
  unfold Gen_bind.
  destruct (forPushT body (S i) rest model) as [[more|error] calls2]; cbn;
    by rewrite app_nil_r.
Qed.

(** The loop throws exactly when one of its iterations does. *)
Lemma forPushT_throws_iff body model i arr :
  (exists error, result (forPushT body i arr) model = Throws error)
  <-> exists k x error,
        arr !! k = Some x /\ result (body (i + k)%nat x) model = Throws error.
Proof.
  revert i. induction arr as [|x rest IH]; intros i.
  { split; [by intros [? ?]|by intros (? & ? & ? & ? & ?)]. }
  rewrite result_forPushT_cons.
  destruct (result (body i x) model) as [pushed|error] eqn:Hx.
  - specialize (IH (S i)).
    destruct (result (forPushT body (S i) rest) model) as [more|error] eqn:Hrest.
    + split; [by intros [? ?]|].
      intros ([|k] & y & error & Hy & Hthrows).
      * injection Hy as <-. rewrite Nat.add_0_r in Hthrows. congruence.
      * destruct (proj2 IH) as [? ?]; [|done].
        exists k, y, error. split; [done|].
        by replace (S i + k)%nat with (i + S k)%nat by lia.
    + split; [|by exists error].
      intros _. destruct (proj1 IH) as (k & y & error' & Hy & Hthrows);
        [by exists error|].
      exists (S k), y, error'. split; [done|].
      by replace (i + S k)%nat with (S i + k)%nat by lia.
  - split; [|by exists error].
    intros _. exists 0%nat, x, error. split; [done|].
    by rewrite Nat.add_0_r.
Qed.

(** When no iteration throws, the loop pushes what the iterations push,
    in order, and issues their calls, in order. *)
Lemma forPushT_normal body model (g : nat -> A -> list B) i arr :
  (forall k x, arr !! k = Some x ->
               result (body (i + k)%nat x) model = Normal (g (i + k)%nat x)) ->
  result (forPushT body i arr) model
  = Normal (mjoin (imap (fun k x => g (i + k)%nat x) arr))
  /\ calls (forPushT body i arr) model
     = mjoin (imap (fun k x => calls (body (i + k)%nat x) model) arr).
Proof.
  revert i. induction arr as [|x rest IH]; intros i Hnormal; [done|].
  rewrite result_forPushT_cons, calls_forPushT_cons.
  pose proof (Hnormal 0%nat x eq_refl) as Hx. rewrite Nat.add_0_r in Hx.
  rewrite Hx.
  destruct (IH (S i)) as [IHresult IHcalls].
  { intros k y Hy. replace (S i + k)%nat with (i + S k)%nat by lia.
    by apply (Hnormal (S k)). }
  rewrite IHresult, IHcalls, !imap_cons, !Nat.add_0_r.
  split.
  - change (mjoin (?l :: ?ls)) with (l ++ mjoin ls). do 3 f_equal.
    apply imap_ext. intros k y _. cbn. by rewrite Nat.add_succ_r.
  - change (mjoin (?l :: ?ls)) with (l ++ mjoin ls). do 2 f_equal.
    apply imap_ext. intros k y _. cbn. by rewrite Nat.add_succ_r.
Qed.

End ForPushT.

Lemma result_stageRunT {A B : Type} (loops : A -> Gen (Completion B)) model data :
  result (stageRunT loops (ArrayOf data)) model
  = match result (loops data) model with
    | Throws error => Thrown error
    | Normal out => Written out
    end.
Proof.
  unfold stageRunT, result, Gen_bind.
  by destruct (loops data model) as [[out|error] calls1].
Qed.

Lemma calls_stageRunT {A B : Type} (loops : A -> Gen (Completion B)) model data :
  calls (stageRunT loops (ArrayOf data)) model = calls (loops data) model.
Proof.
  unfold stageRunT, calls, Gen_bind.
  destruct (loops data model) as [[out|error] calls1]; cbn; apply app_nil_r.
Qed.








(** What does reach the caller: a failure to read or parse the input. *)
Lemma unreadable_input_is_thrown model error :
  aborts (result (Selection.claimifySelection (Unreadable error)) model)
  /\ aborts (result (Disambiguation.claimifyDisambiguiation (Unreadable error)) model)
  /\ aborts (result (Decomposition.claimifyDecomposition (Unreadable error)) model)
  /\ aborts (result (Entailment.entailmentEvaluator (Unreadable error)) model)
  /\ aborts (result (ElementExtraction.elementExtractorV2 (Unreadable error)) model)
  /\ aborts (result (Coverage.elementCoverageEvaluatorV2 (Unreadable error)) model).
Proof. repeat split; by exists error. Qed.

(** ** C5: what a successful call leaves behind *)

(** C5 (as amended).  For a populated slot whose generation call
    succeeds: Selection stores the generation output alone;
    Disambiguation stores every field of the output, with [query],
    [excerpt] and, as [originalSentence], the sentence put in the prompt;
    Decomposition stores every field of the output, its [sentence]
    included, with [query] and [excerpt]; Element extraction and Coverage
    store [query], [excerpt], [sentence] and the claims as they were,
    with the output under [elementExtraction] and [coverageEvaluation]. *)
Theorem stored_on_success (model : LanguageModel) (d s : nat) :
  (forall query excerpts i sentence o,
     model (Selection.request d i query (excerpts !! i) sentence) = inl o ->
     result (Selection.sentenceBody d query excerpts i sentence) model = [o])
  /\ (forall sentenceData o,
        model (Disambiguation.request d s sentenceData) = inl o ->
        exists stored,
          result (Disambiguation.sentenceBody d s (Some sentenceData)) model
          = [Some stored]
          /\ DisambiguationData.incompleteNamesAnalysis stored
             = DisambiguationOutput.incompleteNamesAnalysis o
          /\ DisambiguationData.linguisticAmbiguityAnalysis stored
             = DisambiguationOutput.linguisticAmbiguityAnalysis o
          /\ DisambiguationData.canBeDisambiguated stored
             = DisambiguationOutput.canBeDisambiguated o
          /\ DisambiguationData.changesNeeded stored
             = DisambiguationOutput.changesNeeded o
          /\ DisambiguationData.decontextualizedSentence stored
             = DisambiguationOutput.decontextualizedSentence o
          /\ DisambiguationData.originalSentence stored
             = Disambiguation.sentenceForPrompt sentenceData
          /\ DisambiguationData.query stored = SentenceData.query sentenceData
          /\ DisambiguationData.excerpt stored = SentenceData.excerpt sentenceData)
  /\ (forall disambiguationData o,
        DisambiguationData.canBeDisambiguated disambiguationData = true ->
        model (Decomposition.request d s disambiguationData) = inl o ->
        exists stored,
          result (Decomposition.sentenceBody d s (Some disambiguationData)) model
          = [Some stored]
          /\ DecompositionData.sentence stored = DecompositionOutput.sentence o
          /\ DecompositionData.referentialTermsAnalysis stored
             = DecompositionOutput.referentialTermsAnalysis o
          /\ DecompositionData.maxClarifiedSentence stored
             = DecompositionOutput.maxClarifiedSentence o
          /\ DecompositionData.propositionRange stored
             = DecompositionOutput.propositionRange o
          /\ DecompositionData.specificVerifiablePropositions stored
             = DecompositionOutput.specificVerifiablePropositions o
          /\ DecompositionData.propositionsWithContext stored
             = DecompositionOutput.propositionsWithContext o
          /\ DecompositionData.query stored
             = DisambiguationData.query disambiguationData
          /\ DecompositionData.excerpt stored
             = DisambiguationData.excerpt disambiguationData)
  /\ (forall decompositionData o,
        model (ElementExtraction.request d s decompositionData) = inl o ->
        result (ElementExtraction.sentenceBody d s (Some decompositionData)) model
        = [Some {| ElementCoverageData.query :=
                     DecompositionData.query decompositionData;
                   ElementCoverageData.excerpt :=
                     DecompositionData.excerpt decompositionData;
                   ElementCoverageData.sentence :=
                     DecompositionData.sentence decompositionData;
                   ElementCoverageData.elementExtraction := inl o;
                   ElementCoverageData.claims :=
                     DecompositionData.propositionsWithContext
                       decompositionData |}])
  /\ (forall elementData elementExtraction o,
        ElementCoverageData.elementExtraction elementData = inl elementExtraction ->
        model (Coverage.request d s elementData elementExtraction) = inl o ->
        result (Coverage.sentenceBody d s (Some elementData)) model
        = [Some {| CoverageRecord.query := ElementCoverageData.query elementData;
                   CoverageRecord.excerpt := ElementCoverageData.excerpt elementData;
                   CoverageRecord.sentence := ElementCoverageData.sentence elementData;
                   CoverageRecord.elementExtraction := inl elementExtraction;
                   CoverageRecord.claims := ElementCoverageData.claims elementData;
                   CoverageRecord.coverageEvaluation := inl o |}]).
Proof.
  repeat apply conj.
  - intros. by apply Selection_sentence_success.
  - intros sentenceData o Ho. eexists. split.
    + unfold Disambiguation.sentenceBody, result, Gen_bind, generateObject.
      by rewrite Ho.
    + by repeat split.
  - intros disambiguationData o Hcan Ho. eexists. split.
    + unfold Decomposition.sentenceBody, result.
      rewrite Hcan. cbn [negb]. unfold Gen_bind, generateObject. by rewrite Ho.
    + by repeat split.
  - intros decompositionData o Ho.
    unfold ElementExtraction.sentenceBody, result, Gen_bind, generateObject.
    by rewrite Ho.
  - intros elementData elementExtraction o Hextraction Ho.
    unfold Coverage.sentenceBody, result, Gen_bind, generateObject.
    rewrite Hextraction. cbn. rewrite Ho. cbn.
    unfold Coverage.pushed. by rewrite Hextraction.
Qed.

Lemma stored_on_success_witness :
  exists stored,
    result
      (Disambiguation.sentenceBody 0 0 (Some (Sample.sentenceData "s" "r")))
      Sample.answering
    = [Some stored]
    /\ DisambiguationData.decontextualizedSentence stored = "S"
    /\ DisambiguationData.originalSentence stored = "r"
    /\ DisambiguationData.query stored = "Q"
    /\ DisambiguationData.excerpt stored = "X".
Proof.
  destruct (proj1 (proj2 (stored_on_success Sample.answering 0 0))
              (Sample.sentenceData "s" "r")
              (Sample.answer DisambiguationOutputSchema) eq_refl)
    as (stored & Hstored & _ & _ & _ & _ & Hsentence & Horiginal & Hquery & Hexcerpt).
  exists stored. split; [exact Hstored|]. split; [exact Hsentence|].
  split; [exact Horiginal|]. split; [exact Hquery | exact Hexcerpt].
Defined.

(** Whatever a sample model answers, it answers. *)
Lemma answering_succeeds {A : Type} (m : Gen A) : succeeds m Sample.answering.
Proof. intros c _. by eexists. Qed.

(** C5 as stated fails at Decomposition and at Selection.  Two
    Decomposition slots that differ in the original sentence only are
    stored as the same record, so the original sentence cannot be read
    back from it; nor can the sentence that was decomposed, the stored
    [sentence] being the one of the output; and Selection stores the same
    entry for two sentences whose documents differ in query and
    excerpt. *)
Lemma stored_on_success_counterexample :
  let slot1 := Some (Sample.disambiguationData true "original one") in
  let slot2 := Some (Sample.disambiguationData true "original two") in
  result (Decomposition.sentenceBody 0 0 slot1) Sample.answering
  = result (Decomposition.sentenceBody 0 0 slot2) Sample.answering
  /\ ~ carries Decomposition.sentenceBody DisambiguationData.originalSentence
  /\ ~ carries Decomposition.sentenceBody
        DisambiguationData.decontextualizedSentence
  /\ result (Selection.sentenceBody 0 "Q1" ["X1"] 0 "s") Sample.answering
     = result (Selection.sentenceBody 0 "Q2" ["X2"] 0 "s") Sample.answering.
Proof.
  split; [reflexivity|]. split; [|split; [|reflexivity]].
  - intros [get Hget].
    pose proof (Hget Sample.answering 0%nat 0%nat
                  (Sample.disambiguationData true "original one") _
                  (answering_succeeds _) eq_refl) as H1.
    pose proof (Hget Sample.answering 0%nat 0%nat
                  (Sample.disambiguationData true "original two") _
                  (answering_succeeds _) eq_refl) as H2.
    cbn in H1, H2. congruence.
  - intros [get Hget].
    pose proof (Hget Sample.answering 0%nat 0%nat
                  (Sample.decontextualized "sentence one") _
                  (answering_succeeds _) eq_refl) as H1.
    pose proof (Hget Sample.answering 0%nat 0%nat
                  (Sample.decontextualized "sentence two") _
                  (answering_succeeds _) eq_refl) as H2.
    cbn in H1, H2. congruence.
Qed.

(** ** C7: the prune filter *)

Lemma slotAt_Some {A : Type} (artifact : list (list A)) d s doc item :
  artifact !! d = Some doc -> doc !! s = Some item ->
  slotAt artifact d s = Some item.
Proof. intros Hdoc Hitem. unfold slotAt. by rewrite Hdoc. Qed.

Lemma slotAt_filterVerifiableInformation data d s :
  slotAt (Pipeline.filterVerifiableInformation data) d s
  = (fun item => if Pipeline.isNone item then None else item) <$> slotAt data d s.
Proof.
  unfold slotAt, Pipeline.filterVerifiableInformation.
  rewrite list_lookup_fmap.
  destruct (data !! d) as [innerArray|]; [|done]. cbn.
  by rewrite list_lookup_fmap.
Qed.

(** C7.  The prune filter turns exactly the populated slots whose
    [sentenceWithOnlyVerifiableInformation] is ["None"] into empty
    slots, leaves every other slot as it is, and changes neither the
    number of documents, nor the length of a document's slot sequence,
    nor the order. *)
Theorem prune_filter (data : list (list (option SentenceData.t))) (d s : nat) :
  aligned data (Pipeline.filterVerifiableInformation data)
  /\ (forall sentenceData,
        slotAt data d s = Some (Some sentenceData) ->
        SentenceData.sentenceWithOnlyVerifiableInformation sentenceData = "None" ->
        slotAt (Pipeline.filterVerifiableInformation data) d s = Some None)
  /\ (forall sentenceData,
        slotAt data d s = Some (Some sentenceData) ->
        SentenceData.sentenceWithOnlyVerifiableInformation sentenceData <> "None" ->
        slotAt (Pipeline.filterVerifiableInformation data) d s
        = Some (Some sentenceData))
  /\ (slotAt data d s = Some None ->
      slotAt (Pipeline.filterVerifiableInformation data) d s = Some None)
  /\ (slotAt data d s = None ->
      slotAt (Pipeline.filterVerifiableInformation data) d s = None).
Proof.
  split.
  { unfold aligned, Pipeline.filterVerifiableInformation.
    apply Forall2_fmap_r, Forall_Forall2_diag, Forall_forall.
    intros innerArray _. apply length_fmap. }
  rewrite slotAt_filterVerifiableInformation.
  repeat split.
  - intros sentenceData -> Hnone. cbn.
    by rewrite (proj2 (String.eqb_eq _ _) Hnone).
  - intros sentenceData -> Hsome. cbn.
    by rewrite (proj2 (String.eqb_neq _ _) Hsome).
  - by intros ->.
  - by intros ->.
Qed.

Lemma prune_filter_witness :
  slotAt
    (Pipeline.filterVerifiableInformation
       [[Some (Sample.sentenceData "s" "None");
         Some (Sample.sentenceData "t" "remains unchanged")]])
    0 0
  = Some None.
Proof.
  refine (proj1 (proj2 (prune_filter _ 0 0)) (Sample.sentenceData "s" "None") _ _);
    reflexivity.
Defined.

(** ** C8: pruning is monotone *)

Section KeepsPruned.

Context {A B : Type} (body : nat -> nat -> option A -> Gen (list (option B))).

Hypothesis pushes_once :
  forall model d s item, length (result (body d s item) model) = 1%nat.
Hypothesis passes_pruned :
  forall model d s, body d s None model = ([None], []).
Hypothesis calls_issuedFor :
  forall model d s item c, c ∈ calls (body d s item) model -> issuedFor d s c.

Lemma laterStage_keepsPruned : keepsPruned (laterStage body).
Proof.
  intros model data d s Hslot.
  destruct (laterStage_aligned body pushes_once model data)
    as (out & Hout & _ & Hlookup).
  exists out. split; [done|]. split.
  - rewrite Hlookup, Hslot. cbn. unfold result. by rewrite passes_pruned.
  - intros c Hc Hfor.
    apply calls_laterStage in Hc as (d' & s' & doc & item & Hdoc & Hitem & Hc).
    pose proof (calls_issuedFor _ _ _ _ _ Hc) as Hsite.
    unfold issuedFor in Hfor, Hsite. rewrite Hsite in Hfor.
    injection Hfor as -> ->.
    rewrite (slotAt_Some _ _ _ _ _ Hdoc Hitem) in Hslot.
    injection Hslot as ->.
    unfold calls in Hc. rewrite passes_pruned in Hc.
    by apply elem_of_nil in Hc.
Qed.

End KeepsPruned.

Lemma slotAt_unsafe_createContext_pruned p f filteredData originalDocuments d s :
  slotAt filteredData d s = Some None ->
  slotAt (Pipeline.unsafe_createContext p f filteredData originalDocuments) d s
  = Some None.
Proof.
  unfold slotAt, Pipeline.unsafe_createContext. rewrite list_lookup_imap.
  destruct (filteredData !! d) as [docFilteredSentences|]; [|done]. cbn.
  intros Hslot.
  destruct (originalDocuments !! d ≫= _) as [[originalDoc tokenizedResponse]|].
  - by rewrite list_lookup_imap, Hslot.
  - by rewrite list_lookup_fmap, Hslot.
Qed.

(** C8.  A slot that is empty in the input of a stage is empty at the
    same index in its output, and the stage issues no generation call for
    it.  This holds of the two deterministic passes and of the five
    stages after Selection, hence along the whole pipeline: a slot pruned
    by the filter is still pruned after context creation,
    Disambiguation, Decomposition, Element extraction and Coverage, and
    after Entailment. *)
Theorem pruning_monotonic (d s : nat) :
  (forall data,
     slotAt data d s = Some None ->
     slotAt (Pipeline.filterVerifiableInformation data) d s = Some None)
  /\ (forall p f filteredData originalDocuments,
        slotAt filteredData d s = Some None ->
        slotAt (Pipeline.unsafe_createContext p f filteredData originalDocuments) d s
        = Some None)
  /\ keepsPruned Disambiguation.claimifyDisambiguiation
  /\ keepsPruned Decomposition.claimifyDecomposition
  /\ keepsPruned Entailment.entailmentEvaluator
  /\ keepsPruned ElementExtraction.elementExtractorV2
  /\ keepsPruned Coverage.elementCoverageEvaluatorV2
  /\ (forall p f selected originalDocuments m1 m2 m3 m4 m5,
        slotAt (Pipeline.filterVerifiableInformation selected) d s = Some None ->
        exists disambiguated decomposed entailed extracted covered,
          result
            (Disambiguation.claimifyDisambiguiation
               (ArrayOf (Pipeline.unsafe_createContext p f
                           (Pipeline.filterVerifiableInformation selected)
                           originalDocuments)))
            m1 = Written disambiguated
          /\ result (Decomposition.claimifyDecomposition (ArrayOf disambiguated)) m2
             = Written decomposed
          /\ result (Entailment.entailmentEvaluator (ArrayOf decomposed)) m3
             = Written entailed
          /\ result (ElementExtraction.elementExtractorV2 (ArrayOf decomposed)) m4
             = Written extracted
          /\ result (Coverage.elementCoverageEvaluatorV2 (ArrayOf extracted)) m5
             = Written covered
          /\ slotAt disambiguated d s = Some None
          /\ slotAt decomposed d s = Some None
          /\ slotAt entailed d s = Some None
          /\ slotAt extracted d s = Some None
          /\ slotAt covered d s = Some None).
Proof.
  assert (Hdisamb : keepsPruned Disambiguation.claimifyDisambiguiation)
    by exact (laterStage_keepsPruned _ Disambiguation_pushes_once
                Disambiguation_pruned Disambiguation_issuedFor).
  assert (Hdecomp : keepsPruned Decomposition.claimifyDecomposition)
    by exact (laterStage_keepsPruned _ Decomposition_pushes_once
                Decomposition_pruned Decomposition_issuedFor).
  assert (Hentail : keepsPruned Entailment.entailmentEvaluator)
    by exact (laterStage_keepsPruned _ Entailment_pushes_once
                Entailment_pruned Entailment_issuedFor).
  assert (Hextract : keepsPruned ElementExtraction.elementExtractorV2)
    by exact (laterStage_keepsPruned _ ElementExtraction_pushes_once
                ElementExtraction_pruned ElementExtraction_issuedFor).
  assert (Hcover : keepsPruned Coverage.elementCoverageEvaluatorV2)
    by exact (laterStage_keepsPruned _ Coverage_pushes_once
                Coverage_pruned Coverage_issuedFor).
  split.
  { intros data Hslot. by rewrite slotAt_filterVerifiableInformation, Hslot. }
  split; [intros; by apply slotAt_unsafe_createContext_pruned|].
  do 5 (split; [done|]).
  intros p f selected originalDocuments m1 m2 m3 m4 m5 Hpruned.
  apply (slotAt_unsafe_createContext_pruned p f _ originalDocuments) in Hpruned.
  destruct (Hdisamb m1 _ d s Hpruned) as (disambiguated & Hrun1 & Hslot1 & _).
  destruct (Hdecomp m2 _ d s Hslot1) as (decomposed & Hrun2 & Hslot2 & _).
  destruct (Hentail m3 _ d s Hslot2) as (entailed & Hrun3 & Hslot3 & _).
  destruct (Hextract m4 _ d s Hslot2) as (extracted & Hrun4 & Hslot4 & _).
  destruct (Hcover m5 _ d s Hslot4) as (covered & Hrun5 & Hslot5 & _).
  by exists disambiguated, decomposed, entailed, extracted, covered.
Qed.

Lemma pruning_monotonic_witness :
  exists out,
    result
      (Decomposition.claimifyDecomposition
         (ArrayOf [[Some (Sample.disambiguationData true "s"); None]]))
      Sample.answering
    = Written out
    /\ slotAt out 0 1 = Some None.
Proof.
  destruct (proj1 (proj2 (proj2 (proj2 (pruning_monotonic 0 1))))
              Sample.answering
              [[Some (Sample.disambiguationData true "s"); None]] 0%nat 1%nat
              eq_refl) as (out & Hout & Hslot & _).
  exists out. split; [exact Hout | exact Hslot].
Defined.

(** ** C9: the sentence put in the Disambiguation prompt *)

(** C9.  Disambiguation puts the original sentence in the prompt exactly
    when [sentenceWithOnlyVerifiableInformation] is the lowercase string
    ["remains unchanged"]; any other value is put in the prompt as it
    is.  That includes ["Remains Unchanged"], the spelling that the
    description of the Selection schema asks the generator for. *)
Theorem sentence_for_prompt (model : LanguageModel) (d s : nat)
    (sentenceData : SentenceData.t) :
  let rewrite_ := SentenceData.sentenceWithOnlyVerifiableInformation sentenceData in
  (rewrite_ = "remains unchanged" ->
   Disambiguation.sentenceForPrompt sentenceData = SentenceData.sentence sentenceData)
  /\ (rewrite_ <> "remains unchanged" ->
      Disambiguation.sentenceForPrompt sentenceData = rewrite_)
  /\ (rewrite_ = "Remains Unchanged" ->
      Disambiguation.sentenceForPrompt sentenceData = "Remains Unchanged")
  /\ calls (Disambiguation.sentenceBody d s (Some sentenceData)) model
     = [Disambiguation.request d s sentenceData]
  /\ call_prompt (Disambiguation.request d s sentenceData)
     = DISAMB_USER (SentenceData.query sentenceData)
         (SentenceData.excerpt sentenceData)
         (Disambiguation.sentenceForPrompt sentenceData)
  /\ schema_unchanged_sentinel = "Remains Unchanged"
  /\ SelectionOutputSchema_rewrite_describe
     = "Insert the changed sentence OR  " +:+ dquote +:+ schema_unchanged_sentinel
       +:+ dquote
       +:+ " if no changes OR 'None' if the sentence does NOT contain a specific and verifiable preposition.".
Proof.
  intros rewrite_. unfold Disambiguation.sentenceForPrompt. fold rewrite_.
  repeat split.
  - intros ->. done.
  - intros Hother. by rewrite (proj2 (String.eqb_neq _ _) Hother).
  - intros ->. done.
  - unfold Disambiguation.sentenceBody. run_body; done.
Qed.

Lemma sentence_for_prompt_witness :
  Disambiguation.sentenceForPrompt (Sample.sentenceData "s" "Remains Unchanged")
  = "Remains Unchanged".
Proof.
  refine (proj1 (proj2 (proj2
            (sentence_for_prompt Sample.answering 0 0
               (Sample.sentenceData "s" "Remains Unchanged")))) _).
  reflexivity.
Defined.

(** * The rest of the code *)

(** ** More on the excerpt builders *)

(** For an in-range target and non-negative sizes, the window of the
    single-turn builder as a sub-list. *)
Lemma window_sublist (sentences : list string) (targetIndex p f : Z) :
  0 <= targetIndex < Z.of_nat (length sentences) -> 0 <= p -> 0 <= f ->
  SingleTurn.window sentences targetIndex p f
  = take (Z.to_nat (Z.min p targetIndex + 1
                    + Z.min f (Z.of_nat (length sentences) - 1 - targetIndex)))
         (drop (Z.to_nat (targetIndex - Z.min p targetIndex)) sentences).
Proof.
  intros Ht Hp Hf. unfold SingleTurn.window.
  set (n := length sentences) in *.
  set (a := Z.to_nat (targetIndex - Z.min p targetIndex)).
  set (b := Z.to_nat (Z.min (Z.of_nat n) (targetIndex + f + 1))).
  replace (Z.max 0 (targetIndex - p)) with (Z.of_nat a) by (unfold a; lia).
  replace (Z.min (Z.of_nat n) (targetIndex + f + 1)) with (Z.of_nat b)
    by (unfold b; lia).
  rewrite slice_in_range by (fold n; unfold a, b; lia).
  f_equal. unfold a, b. lia.
Qed.

(** X1.  The excerpt of an in-range sentence joins exactly
    [min(p, targetIndex) + 1 + min(f, len - 1 - targetIndex)] sentences:
    never none, never more than [p + f + 1]. *)
Theorem excerpt_window_size (sentences : list string) (targetIndex p f : Z) :
  0 <= targetIndex < Z.of_nat (length sentences) -> 0 <= p -> 0 <= f ->
  Z.of_nat (length (Deterministic.contextParts sentences targetIndex p f))
  = Z.min p targetIndex + 1
    + Z.min f (Z.of_nat (length sentences) - 1 - targetIndex)
  /\ 1 <= Z.of_nat (length (Deterministic.contextParts sentences targetIndex p f))
     <= p + f + 1.
Proof.
  intros Ht Hp Hf.
  rewrite contextParts_window, length_fmap, window_sublist by done.
  rewrite length_take, length_drop. lia.
Qed.

Lemma excerpt_window_size_witness :
  Z.of_nat (length (Deterministic.contextParts ["a"; "b"; "c"; "d"; "e"] 1 3 1)) = 3.
Proof.
  refine (proj1 (excerpt_window_size ["a"; "b"; "c"; "d"; "e"] 1 3 1 _ _ _));
    simpl; lia.
Defined.

Lemma concat_Some (sep : string) (parts : list string) :
  JS.join sep (Some <$> parts) = String.concat sep parts.
Proof.
  unfold JS.join. rewrite <- list_fmap_compose. by rewrite list_fmap_id.
Qed.

(** X2.  The two ends of the range of sizes.  With [p = f = 0] the
    excerpt is the target sentence alone; with [p] and [f] large enough to
    reach both ends of the document, it is the whole document joined by
    single spaces, however much larger they are. *)
Theorem excerpt_extremes (sentences : list string) (targetIndex p f : Z)
    (sentence : string) :
  0 <= targetIndex ->
  sentences !! Z.to_nat targetIndex = Some sentence ->
  Deterministic.createExcerpt sentences targetIndex 0 0 = sentence
  /\ (targetIndex <= p ->
      Z.of_nat (length sentences) - 1 - targetIndex <= f ->
      Deterministic.createExcerpt sentences targetIndex p f
      = String.concat " " sentences).
Proof.
  intros Hnonneg Hsentence.
  assert (Ht : 0 <= targetIndex < Z.of_nat (length sentences)).
  { apply lookup_lt_Some in Hsentence. lia. }
  unfold Deterministic.createExcerpt. split.
  - rewrite contextParts_window, concat_Some, window_sublist by (done || lia).
    replace (Z.to_nat (Z.min 0 targetIndex + 1 + Z.min 0 _)) with 1%nat by lia.
    replace (Z.to_nat (targetIndex - Z.min 0 targetIndex))
      with (Z.to_nat targetIndex) by lia.
    rewrite (drop_S _ _ _ Hsentence). cbn. done.
  - intros Hp Hf.
    rewrite contextParts_window, concat_Some, window_sublist by (done || lia).
    replace (Z.to_nat (targetIndex - Z.min p targetIndex)) with 0%nat by lia.
    rewrite drop_0, take_ge by lia. done.
Qed.

Lemma excerpt_extremes_witness :
  Deterministic.createExcerpt ["a"; "b"; "c"] 1 0 0 = "b"
  /\ Deterministic.createExcerpt ["a"; "b"; "c"] 1 7 9 = "a b c".
Proof.
  destruct (excerpt_extremes ["a"; "b"; "c"] 1 7 9 "b") as [Hone Hall];
    [lia | reflexivity |].
  split; [exact Hone | apply Hall; simpl; lia].
Defined.

Lemma slice_to_end {A : Type} (arr : list A) (start end_ : Z) :
  0 <= start -> Z.of_nat (length arr) <= end_ ->
  JS.slice arr start end_ = drop (Z.to_nat start) arr.
Proof.
  intros Hstart Hend. unfold JS.slice.
  destruct (Z.ltb_spec start 0) as [Hneg|_]; [lia|].
  destruct (Z.ltb_spec end_ 0) as [Hneg|_]; [lia|].
  rewrite (Z.min_r end_) by lia.
  destruct (Z.le_gt_cases start (Z.of_nat (length arr))) as [Hin|Hout].
  - rewrite Z.min_l by lia. apply take_ge. rewrite length_drop. lia.
  - rewrite Z.min_r by lia. rewrite Z.sub_diag. cbn.
    symmetry. apply drop_ge. lia.
Qed.

(** X3.  A target index at or past the end of the document is no error.
    The deterministic builder joins the sentences from
    [targetIndex - min(p, targetIndex)] to the end, followed by the
    missing target, which is rendered as the empty string; the
    single-turn builder joins the same sentences and nothing else. *)
Theorem excerpt_past_the_end (sentences : list string) (targetIndex p f : Z) :
  Z.of_nat (length sentences) <= targetIndex -> 0 <= p -> 0 <= f ->
  let tail := drop (Z.to_nat (targetIndex - Z.min p targetIndex)) sentences in
  Deterministic.contextParts sentences targetIndex p f = (Some <$> tail) ++ [None]
  /\ SingleTurn.window sentences targetIndex p f = tail
  /\ (tail = [] ->
      Deterministic.createExcerpt sentences targetIndex p f = ""
      /\ SingleTurn.createExcerpt sentences targetIndex p f = "").
Proof.
  intros Ht Hp Hf tail.
  assert (Hparts :
    Deterministic.contextParts sentences targetIndex p f = (Some <$> tail) ++ [None]).
  { unfold Deterministic.contextParts.
    rewrite (slice_to_end sentences (targetIndex - Z.min p targetIndex)) by lia.
    replace (targetIndex + 1
             + Z.min f (Z.of_nat (length sentences) - 1 - targetIndex))
      with (Z.of_nat (length sentences)) by lia.
    rewrite (slice_to_end sentences (targetIndex + 1)) by lia.
    rewrite (drop_ge sentences (Z.to_nat (targetIndex + 1))) by lia.
    unfold JS.index.
    destruct (Z.ltb_spec targetIndex 0) as [Hneg|_]; [lia|].
    rewrite lookup_ge_None_2 by lia. done. }
  assert (Hwindow : SingleTurn.window sentences targetIndex p f = tail).
  { unfold SingleTurn.window.
    rewrite slice_to_end by lia. unfold tail. f_equal. lia. }
  split; [done|]. split; [done|].
  intros Hnil. unfold Deterministic.createExcerpt, SingleTurn.createExcerpt.
  by rewrite Hparts, Hwindow, Hnil.
Qed.

Lemma excerpt_past_the_end_witness :
  Deterministic.contextParts ["a"; "b"] 3 2 1 = [Some "b"; None]
  /\ SingleTurn.window ["a"; "b"] 3 2 1 = ["b"].
Proof.
  destruct (excerpt_past_the_end ["a"; "b"] 3 2 1) as (Hparts & Hwindow & _);
    [simpl; lia | lia | lia |].
  split; [exact Hparts | exact Hwindow].
Defined.

(** ** Context creation, then Selection *)

Lemma Selection_item_all_succeed model idx item tokenized_response excerpts :
  DataItemWithExcerpts.tokenized_response item = Some tokenized_response ->
  DataItemWithExcerpts.excerpts item = Some excerpts ->
  length tokenized_response = length excerpts ->
  (forall c, exists o, model c = inl o) ->
  exists row,
    result (Selection.itemBody idx item) model = [row]
    /\ length row = length tokenized_response.
Proof.
  intros Htr Hex Hlen Hok. eexists.
  split; [by apply Selection_wellformed_row|].
  apply forPush_lookup. intros k sentence _.
  destruct (Hok (Selection.request idx (0 + k) (DataItemWithExcerpts.query item)
                   (excerpts !! (0 + k)%nat) sentence)) as [o Ho].
  by rewrite (Selection_sentence_success _ _ _ _ _ _ o).
Qed.

(** What [createContext] makes of one document. *)
Lemma createContext_lookup p f data k source :
  data !! k = Some source ->
  exists item,
    Pipeline.createContext p f data !! k = Some item
    /\ DataItemWithExcerpts.tokenized_response item
       = ProcessedDataItem.tokenized_response source
    /\ exists excerpts,
         DataItemWithExcerpts.excerpts item = Some excerpts
         /\ length excerpts
            = length (default [] (ProcessedDataItem.tokenized_response source)).
Proof.
  intros Hsource. unfold Pipeline.createContext.
  rewrite list_lookup_fmap, Hsource. cbn.
  eexists. split; [done|]. split; [done|].
  eexists. split; [done|].
  destruct (ProcessedDataItem.tokenized_response source); [|done].
  apply length_imap.
Qed.

Lemma Selection_rows_after_createContext model p f data i :
  length
    (mjoin (imap (fun idx item => result (Selection.itemBody (i + idx) item) model)
                 (Pipeline.createContext p f data)))
  = length (filter (fun source => is_Some (ProcessedDataItem.tokenized_response source))
                   data).
Proof.
  revert i. induction data as [|source data IH]; intros i; [done|].
  change (Pipeline.createContext p f (source :: data))
    with (Pipeline.createContext p f [source] ++ Pipeline.createContext p f data).
  cbn [Pipeline.createContext fmap list_fmap app].
  rewrite imap_cons.
  change (mjoin (?x :: ?l)) with (x ++ mjoin l).
  rewrite length_app.
  erewrite (imap_ext _ (fun idx item =>
              result (Selection.itemBody (S i + idx) item) model));
    [rewrite (IH (S i))|].
  2:{ intros idx item _. cbn. by rewrite Nat.add_succ_r. }
  destruct (ProcessedDataItem.tokenized_response source) as [sentences|] eqn:Hsource.
  - rewrite filter_cons_True by (by exists sentences).
    erewrite Selection_wellformed_row; [done|done|done|].
    cbn. by rewrite length_imap.
  - rewrite filter_cons_False by (intros [x Hx]; simpl in Hx; congruence).
    unfold result. rewrite Selection_skips_malformed; [done|].
    by unfold malformed.
Qed.

(** X4.  Selection run on the output of [createContext].  It writes one
    row for each document that has a sentence array and none for the
    others: the length guard never fires.  When every document has a
    sentence array and every generation call succeeds, the artifact is
    aligned with the documents, one entry per sentence. *)
Theorem createContext_then_selection (p f : Z) (data : list ProcessedDataItem.t)
    (model : LanguageModel) :
  exists out,
    result (Selection.claimifySelection (ArrayOf (Pipeline.createContext p f data)))
      model = Written out
    /\ length out
       = length (filter (fun source =>
                           is_Some (ProcessedDataItem.tokenized_response source))
                        data)
    /\ ((forall source, source ∈ data ->
                        is_Some (ProcessedDataItem.tokenized_response source)) ->
        (forall c, exists o, model c = inl o) ->
        alignedWithSentences (Pipeline.createContext p f data) out).
Proof.
  eexists. split; [apply Selection_rows|]. split.
  { apply (Selection_rows_after_createContext model p f data 0). }
  intros Harrays Hok.
  assert (Hitem : forall k item,
            Pipeline.createContext p f data !! k = Some item ->
            exists row,
              result (Selection.itemBody k item) model = [row]
              /\ length row = length (sentencesOf item)).
  { intros k item Hk.
    destruct (lookup_lt_is_Some_2 data k) as [source Hsource].
    { apply lookup_lt_Some in Hk.
      unfold Pipeline.createContext in Hk. by rewrite length_fmap in Hk. }
    destruct (createContext_lookup p f data k source Hsource)
      as (item' & Hitem' & Htr & excerpts & Hex & Hlen).
    rewrite Hk in Hitem'. injection Hitem' as <-.
    destruct (Harrays source) as [sentences Hsentences].
    { by apply list_elem_of_lookup_2 with k. }
    rewrite Hsentences in Htr, Hlen. cbn in Hlen.
    unfold sentencesOf. rewrite Htr. cbn.
    by apply (Selection_item_all_succeed model k item sentences excerpts). }
  rewrite <- (result_forPush Selection.itemBody model 0%nat).
  destruct (forPush_lookup Selection.itemBody model 0%nat
              (Pipeline.createContext p f data)) as [Hlength Hlookup].
  { intros k item Hk. destruct (Hitem k item Hk) as (row & Hrow & _).
    cbn. by rewrite Hrow. }
  unfold alignedWithSentences, aligned.
  apply Forall2_same_length_lookup_2.
  { by rewrite length_fmap. }
  intros k doc row Hdoc Hrow.
  rewrite list_lookup_fmap in Hdoc.
  destruct (Pipeline.createContext p f data !! k) as [item|] eqn:Hk; [|done].
  injection Hdoc as <-.
  rewrite Hlookup, Hk in Hrow. cbn in Hrow.
  destruct (Hitem k item Hk) as (row' & Hrow' & Hlen').
  rewrite Hrow' in Hrow. by injection Hrow as <-.
Qed.

Lemma createContext_then_selection_witness :
  exists out,
    result
      (Selection.claimifySelection
         (ArrayOf (Pipeline.createContext 5 5 [Sample2.processed (Some ["s0"; "s1"])])))
      Sample.answering = Written out
    /\ alignedWithSentences
         (Pipeline.createContext 5 5 [Sample2.processed (Some ["s0"; "s1"])]) out.
Proof.
  destruct (createContext_then_selection 5 5
              [Sample2.processed (Some ["s0"; "s1"])] Sample.answering)
    as (out & Hout & _ & Haligned).
  exists out. split; [exact Hout|]. apply Haligned.
  - intros source Hsource. apply list_elem_of_singleton in Hsource.
    rewrite Hsource. eexists. reflexivity.
  - intros c. eexists. reflexivity.
Defined.

(** ** [unsafe_createContext] *)

Lemma slotAt_unsafe_createContext p f filteredData originalDocuments d s :
  slotAt (Pipeline.unsafe_createContext p f filteredData originalDocuments) d s
  = (fun item : option SentenceData.t =>
       match item with
       | None => None
       | Some sentenceData =>
           Some
             match originalDocuments !! d
                   ≫= (fun originalDoc =>
                         pair originalDoc
                         <$> OriginalDocument.tokenized_response originalDoc)
             with
             | Some (originalDoc, tokenizedResponse) =>
                 Pipeline.withContext sentenceData
                   (OriginalDocument.query originalDoc)
                   (Deterministic.createExcerpt tokenizedResponse (Z.of_nat s) p f)
             | None => Pipeline.withEmptyExcerpt sentenceData
             end
       end)
    <$> slotAt filteredData d s.
Proof.
  unfold slotAt, Pipeline.unsafe_createContext. rewrite list_lookup_imap.
  destruct (filteredData !! d) as [docFilteredSentences|]; [|done]. cbn.
  destruct (originalDocuments !! d ≫= _) as [[originalDoc tokenizedResponse]|].
  - rewrite list_lookup_imap. by destruct (docFilteredSentences !! s) as [[?|]|].
  - rewrite list_lookup_fmap. by destruct (docFilteredSentences !! s) as [[?|]|].
Qed.

Lemma unsafe_createContext_row p f filteredData originalDocuments d doc :
  filteredData !! d = Some doc ->
  exists row,
    Pipeline.unsafe_createContext p f filteredData originalDocuments !! d = Some row
    /\ length row = length doc.
Proof.
  intros Hdoc. unfold Pipeline.unsafe_createContext.
  rewrite list_lookup_imap, Hdoc. cbn. eexists. split; [done|].
  destruct (originalDocuments !! d ≫= _) as [[originalDoc tokenizedResponse]|].
  - apply length_imap.
  - apply length_fmap.
Qed.

(** X5.  Whatever the list of original documents, shorter, longer or
    with documents that lack their sentences, [unsafe_createContext]
    keeps the shape of the filtered data: the same number of documents,
    the same number of slots in each, empty slots where they were and
    nowhere else, and in each populated slot the sentence, the verdict
    and the rewrite that were there. *)
Theorem unsafe_createContext_keeps_shape (p f : Z)
    (filteredData : list (list (option SentenceData.t)))
    (originalDocuments : list OriginalDocument.t) (d s : nat) :
  let out := Pipeline.unsafe_createContext p f filteredData originalDocuments in
  aligned filteredData out
  /\ (slotAt out d s = None <-> slotAt filteredData d s = None)
  /\ (slotAt out d s = Some None <-> slotAt filteredData d s = Some None)
  /\ (forall sentenceData,
        slotAt filteredData d s = Some (Some sentenceData) ->
        exists withExcerpt,
          slotAt out d s = Some (Some withExcerpt)
          /\ SentenceData.sentence withExcerpt = SentenceData.sentence sentenceData
          /\ SentenceData.finalSubmission withExcerpt
             = SentenceData.finalSubmission sentenceData
          /\ SentenceData.sentenceWithOnlyVerifiableInformation withExcerpt
             = SentenceData.sentenceWithOnlyVerifiableInformation sentenceData).
Proof.
  intros out. split.
  { unfold aligned. apply Forall2_same_length_lookup_2.
    - unfold out, Pipeline.unsafe_createContext. by rewrite length_imap.
    - intros k doc row Hdoc Hrow.
      destruct (unsafe_createContext_row p f filteredData originalDocuments k doc Hdoc)
        as (row' & Hrow' & Hlen).
      unfold out in Hrow. rewrite Hrow' in Hrow. by injection Hrow as <-. }
  unfold out. rewrite slotAt_unsafe_createContext.
  destruct (slotAt filteredData d s) as [[sentenceData|]|]; cbn.
  - repeat split; try done.
    intros ? [= <-]. eexists. split; [done|].
    by destruct (originalDocuments !! d ≫= _) as [[? ?]|].
  - repeat split; done.
  - repeat split; done.
Qed.

Lemma unsafe_createContext_keeps_shape_witness :
  exists withExcerpt,
    slotAt
      (Pipeline.unsafe_createContext 5 0
         [[None; Some (Sample.sentenceData "s1" "remains unchanged")]] [])
      0 1
    = Some (Some withExcerpt)
    /\ SentenceData.sentence withExcerpt = "s1".
Proof.
  destruct (unsafe_createContext_keeps_shape 5 0
              [[None; Some (Sample.sentenceData "s1" "remains unchanged")]] [] 0 1)
    as (_ & _ & _ & Hpopulated).
  destruct (Hpopulated (Sample.sentenceData "s1" "remains unchanged") eq_refl)
    as (withExcerpt & Hslot & Hsentence & _).
  exists withExcerpt. split; [exact Hslot | exact Hsentence].
Defined.

(** X6.  The context that [unsafe_createContext] adds to a populated
    slot.  When the original document of the same index is there with its
    sentences, the slot gets that document's query and the excerpt built
    around the slot's own index.  When the document is missing, or has no
    sentences, the slot keeps its query and gets the empty excerpt. *)
Theorem unsafe_createContext_context (p f : Z)
    (filteredData : list (list (option SentenceData.t)))
    (originalDocuments : list OriginalDocument.t) (d s : nat)
    (sentenceData : SentenceData.t) :
  slotAt filteredData d s = Some (Some sentenceData) ->
  exists withExcerpt,
    slotAt (Pipeline.unsafe_createContext p f filteredData originalDocuments) d s
    = Some (Some withExcerpt)
    /\ (forall originalDoc tokenizedResponse,
          originalDocuments !! d = Some originalDoc ->
          OriginalDocument.tokenized_response originalDoc = Some tokenizedResponse ->
          SentenceData.query withExcerpt = OriginalDocument.query originalDoc
          /\ SentenceData.excerpt withExcerpt
             = Deterministic.createExcerpt tokenizedResponse (Z.of_nat s) p f)
    /\ (originalDocuments !! d = None ->
        SentenceData.query withExcerpt = SentenceData.query sentenceData
        /\ SentenceData.excerpt withExcerpt = "")
    /\ (forall originalDoc,
          originalDocuments !! d = Some originalDoc ->
          OriginalDocument.tokenized_response originalDoc = None ->
          SentenceData.query withExcerpt = SentenceData.query sentenceData
          /\ SentenceData.excerpt withExcerpt = "").
Proof.
  intros Hslot. rewrite slotAt_unsafe_createContext, Hslot. cbn.
  eexists. split; [done|].
  destruct (originalDocuments !! d) as [originalDoc|]; cbn.
  - destruct (OriginalDocument.tokenized_response originalDoc)
      as [tokenizedResponse|] eqn:Hsentences; cbn.
    + split; [|split; [done|]].
      * intros ? ? [= <-] Hsome. rewrite Hsentences in Hsome.
        by injection Hsome as <-.
      * intros ? [= <-] Hnone. congruence.
    + split; [|by split].
      intros ? ? [= <-] Hsome. congruence.
  - by repeat split.
Qed.

Lemma unsafe_createContext_context_witness :
  exists withExcerpt,
    slotAt
      (Pipeline.unsafe_createContext 1 0
         [[Some (Sample.sentenceData "s0" "r0"); Some (Sample.sentenceData "s1" "r1")]]
         [Sample2.original (Some ["s0"; "s1"])])
      0 1
    = Some (Some withExcerpt)
    /\ SentenceData.query withExcerpt = "Q0"
    /\ SentenceData.excerpt withExcerpt = "s0 s1".
Proof.
  destruct (unsafe_createContext_context 1 0
              [[Some (Sample.sentenceData "s0" "r0");
                Some (Sample.sentenceData "s1" "r1")]]
              [Sample2.original (Some ["s0"; "s1"])] 0 1
              (Sample.sentenceData "s1" "r1") eq_refl)
    as (withExcerpt & Hslot & Hcontext & _).
  exists withExcerpt. split; [exact Hslot|].
  exact (Hcontext (Sample2.original (Some ["s0"; "s1"])) ["s0"; "s1"]
           eq_refl eq_refl).
Defined.

(** ** More on the prune filter *)

Lemma isNone_pruned item :
  Pipeline.isNone (if Pipeline.isNone item then None else item) = false.
Proof. by destruct (Pipeline.isNone item) eqn:Hnone. Qed.

(** X7.  After the prune filter no populated slot has the rewrite
    ["None"], and filtering a second time changes nothing. *)
Theorem prune_filter_idempotent (data : list (list (option SentenceData.t)))
    (d s : nat) :
  Pipeline.filterVerifiableInformation (Pipeline.filterVerifiableInformation data)
  = Pipeline.filterVerifiableInformation data
  /\ (forall sentenceData,
        slotAt (Pipeline.filterVerifiableInformation data) d s
        = Some (Some sentenceData) ->
        SentenceData.sentenceWithOnlyVerifiableInformation sentenceData <> "None").
Proof.
  split.
  - unfold Pipeline.filterVerifiableInformation.
    rewrite <- list_fmap_compose. apply list_fmap_ext. intros _ innerArray _. cbn.
    rewrite <- list_fmap_compose. apply list_fmap_ext. intros _ item _. cbn.
    by rewrite isNone_pruned.
  - intros sentenceData. rewrite slotAt_filterVerifiableInformation.
    destruct (slotAt data d s) as [item|]; [|done]. cbn.
    destruct (Pipeline.isNone item) eqn:Hnone; [done|].
    intros [= ->]. cbn in Hnone. by apply String.eqb_neq.
Qed.

Lemma prune_filter_idempotent_witness :
  SentenceData.sentenceWithOnlyVerifiableInformation (Sample.sentenceData "t" "kept")
  <> "None".
Proof.
  refine (proj2 (prune_filter_idempotent
                   [[Some (Sample.sentenceData "s" "None");
                     Some (Sample.sentenceData "t" "kept")]] 0 1)
            (Sample.sentenceData "t" "kept") _).
  reflexivity.
Defined.

(** X8.  Pruning and context creation commute: adding the context to the
    pruned data gives the same artifact as pruning the data with its
    context added, since the context leaves the rewrite alone. *)
Theorem prune_filter_commutes_with_context (p f : Z)
    (data : list (list (option SentenceData.t)))
    (originalDocuments : list OriginalDocument.t) :
  Pipeline.unsafe_createContext p f (Pipeline.filterVerifiableInformation data)
    originalDocuments
  = Pipeline.filterVerifiableInformation
      (Pipeline.unsafe_createContext p f data originalDocuments).
Proof.
  unfold Pipeline.unsafe_createContext, Pipeline.filterVerifiableInformation.
  rewrite imap_fmap, fmap_imap. apply imap_ext. intros d innerArray _. cbn.
  destruct (originalDocuments !! d ≫= _) as [[originalDoc tokenizedResponse]|].
  - rewrite imap_fmap, fmap_imap. apply imap_ext. intros s item _. cbn.
    destruct item as [sentenceData|]; [|done]. cbn.
    by destruct (String.eqb _ "None").
  - rewrite <- !list_fmap_compose. apply list_fmap_ext. intros _ item _. cbn.
    destruct item as [sentenceData|]; [|done]. cbn.
    by destruct (String.eqb _ "None").
Qed.

(** ** More on Selection *)

Lemma mjoin_imap_singleton {A B : Type} (g : nat -> A -> B) (l : list A) :
  mjoin (imap (fun k x => [g k x]) l) = imap g l.
Proof.
  revert g. induction l as [|x l IH]; intros g; [done|].
  rewrite !imap_cons.
  change (mjoin ([g 0%nat x] :: ?ls)) with (g 0%nat x :: mjoin ls).
  f_equal. apply (IH (g ∘ S)).
Qed.

Lemma Selection_item_calls model idx item tokenized_response excerpts :
  DataItemWithExcerpts.tokenized_response item = Some tokenized_response ->
  DataItemWithExcerpts.excerpts item = Some excerpts ->
  length tokenized_response = length excerpts ->
  calls (Selection.itemBody idx item) model
  = imap (fun i sentence =>
            Selection.request idx i (DataItemWithExcerpts.query item)
              (excerpts !! i) sentence)
         tokenized_response.
Proof.
  intros Htr Hex Hlen. unfold Selection.itemBody. rewrite Htr, Hex.
  rewrite (proj2 (Nat.eqb_eq _ _) Hlen). cbn [negb].
  transitivity
    (calls (forPush (Selection.sentenceBody idx (DataItemWithExcerpts.query item)
                       excerpts) 0%nat tokenized_response) model).
  { unfold calls, Gen_bind. destruct (forPush _ _ _ model). cbn. apply app_nil_r. }
  rewrite calls_forPush.
  rewrite <- (mjoin_imap_singleton
                (fun i sentence =>
                   Selection.request idx i (DataItemWithExcerpts.query item)
                     (excerpts !! i) sentence)
                tokenized_response).
  f_equal. apply imap_ext. intros i sentence _. cbn.
  unfold Selection.sentenceBody. run_body; done.
Qed.

(** X9.  In a document that passes the guards, Selection issues exactly
    one call per sentence, in index order, whatever the model answers: a
    failed call does not stop the loop.  The prompt of the call for
    sentence [i] is built from the document's query, the excerpt at index
    [i] and the sentence. *)
Theorem selection_calls (model : LanguageModel) (idx : nat)
    (item : DataItemWithExcerpts.t) (tokenized_response excerpts : list string) :
  DataItemWithExcerpts.tokenized_response item = Some tokenized_response ->
  DataItemWithExcerpts.excerpts item = Some excerpts ->
  length tokenized_response = length excerpts ->
  call_site <$> calls (Selection.itemBody idx item) model
  = imap (fun i _ => [idx; i]) tokenized_response
  /\ forall i sentence,
       tokenized_response !! i = Some sentence ->
       exists excerpt c,
         excerpts !! i = Some excerpt
         /\ calls (Selection.itemBody idx item) model !! i = Some c
         /\ call_prompt c
            = SELECTION_USER (DataItemWithExcerpts.query item) excerpt sentence.
Proof.
  intros Htr Hex Hlen.
  rewrite (Selection_item_calls model idx item tokenized_response excerpts)
    by done.
  split.
  - rewrite fmap_imap. by apply imap_ext.
  - intros i sentence Hi.
    destruct (lookup_lt_is_Some_2 excerpts i) as [excerpt Hexcerpt].
    { rewrite <- Hlen. by apply lookup_lt_Some in Hi. }
    exists excerpt. eexists. split; [done|].
    rewrite list_lookup_imap, Hi. cbn. split; [done|].
    by rewrite Hexcerpt.
Qed.

Lemma selection_calls_witness :
  call_site <$> calls (Selection.itemBody 0 Sample.threeSentences)
                  (Sample.failingAt [[0; 1]%nat])
  = [[0; 0]; [0; 1]; [0; 2]]%nat.
Proof.
  exact (proj1 (selection_calls (Sample.failingAt [[0; 1]%nat]) 0
                  Sample.threeSentences
                  ["s0"; "s1"; "s2"] ["s0 s1"; "s0 s1 s2"; "s1 s2"]
                  eq_refl eq_refl eq_refl)).
Defined.

(** X10.  In a document that passes the guards, the row that Selection
    writes is never longer than the sentence array, and it has the length
    of the sentence array exactly when every call of the document
    succeeded. *)
Theorem selection_row_full_iff (model : LanguageModel) (idx : nat)
    (item : DataItemWithExcerpts.t) (tokenized_response excerpts : list string) :
  DataItemWithExcerpts.tokenized_response item = Some tokenized_response ->
  DataItemWithExcerpts.excerpts item = Some excerpts ->
  length tokenized_response = length excerpts ->
  exists row,
    result (Selection.itemBody idx item) model = [row]
    /\ (length row <= length tokenized_response)%nat
    /\ (length row = length tokenized_response
        <-> forall i sentence,
              tokenized_response !! i = Some sentence ->
              exists o,
                model (Selection.request idx i (DataItemWithExcerpts.query item)
                         (excerpts !! i) sentence) = inl o).
Proof.
  intros Htr Hex Hlen. eexists.
  split; [by apply Selection_wellformed_row|].
  split.
  { apply forPush_length_le. intros. apply Selection_sentence_at_most_one. }
  split.
  - intros Hfull i sentence Hi.
    destruct (model (Selection.request idx i (DataItemWithExcerpts.query item)
                       (excerpts !! i) sentence)) as [o|llmError] eqn:Hanswer.
    + by exists o.
    + pose proof (forPush_length_lt
                    (Selection.sentenceBody idx (DataItemWithExcerpts.query item)
                       excerpts)
                    model 0%nat tokenized_response i sentence) as Hshort.
      cbn in Hshort. rewrite Hfull in Hshort.
      exfalso. apply (Nat.lt_irrefl (length tokenized_response)). apply Hshort.
      * intros. apply Selection_sentence_at_most_one.
      * done.
      * by apply (Selection_sentence_failure _ _ _ _ _ _ llmError).
  - intros Hok. apply forPush_lookup. intros k sentence Hk.
    destruct (Hok k sentence Hk) as [o Ho]. cbn.
    by rewrite (Selection_sentence_success _ _ _ _ _ _ o).
Qed.

Lemma selection_row_full_iff_witness :
  exists row,
    result (Selection.itemBody 0 Sample.threeSentences) (Sample.failingAt [[0; 1]%nat])
    = [row]
    /\ (length row <= 3)%nat.
Proof.
  destruct (selection_row_full_iff (Sample.failingAt [[0; 1]%nat]) 0
              Sample.threeSentences
              ["s0"; "s1"; "s2"] ["s0 s1"; "s0 s1 s2"; "s1 s2"]
              eq_refl eq_refl eq_refl) as (row & Hrow & Hle & _).
  exists row. split; [exact Hrow | exact Hle].
Defined.

(** ** More on the stages after Selection *)

Section LaterStageSlots.

Context {A B : Type} (body : nat -> nat -> A -> Gen (list B)).

Hypothesis pushes_once :
  forall model d s item, length (result (body d s item) model) = 1%nat.
Hypothesis calls_issuedFor :
  forall model d s item c, c ∈ calls (body d s item) model -> issuedFor d s c.

Lemma calls_laterStage_eq model data :
  calls (laterStage body (ArrayOf data)) model
  = mjoin (imap (fun d doc =>
                   mjoin (imap (fun s item => calls (body d s item) model) doc))
                data).
Proof.
  unfold laterStage. rewrite calls_stageRun, calls_forPush. f_equal.
  apply imap_ext. intros d doc _. cbn.
  by rewrite calls_perDocument, calls_forPush.
Qed.

(** What a stage does with one slot: it stores what the sentence loop
    pushed for it, and the calls it issues for the slot are those of the
    sentence loop on it. *)
Lemma laterStage_slot model data d s item :
  slotAt data d s = Some item ->
  exists out,
    result (laterStage body (ArrayOf data)) model = Written out
    /\ slotAt out d s = head (result (body d s item) model)
    /\ forall c, c ∈ calls (laterStage body (ArrayOf data)) model ->
                 issuedFor d s c -> c ∈ calls (body d s item) model.
Proof.
  intros Hslot.
  destruct (laterStage_aligned body pushes_once model data)
    as (out & Hout & _ & Hlookup).
  exists out. split; [done|]. split.
  - by rewrite Hlookup, Hslot.
  - intros c Hc Hfor.
    apply calls_laterStage in Hc as (d' & s' & doc & item' & Hdoc & Hitem & Hc).
    pose proof (calls_issuedFor _ _ _ _ _ Hc) as Hsite.
    unfold issuedFor in Hfor, Hsite. rewrite Hsite in Hfor.
    injection Hfor as -> ->.
    rewrite (slotAt_Some _ _ _ _ _ Hdoc Hitem) in Hslot.
    by injection Hslot as ->.
Qed.

End LaterStageSlots.

Lemma Disambiguation_calls model d s item :
  calls (Disambiguation.sentenceBody d s item) model
  = match item with
    | Some sentenceData => [Disambiguation.request d s sentenceData]
    | None => []
    end.
Proof. destruct item; unfold Disambiguation.sentenceBody; run_body; done. Qed.

Lemma Decomposition_calls model d s item :
  calls (Decomposition.sentenceBody d s item) model
  = match item with
    | Some disambiguationData =>
        if DisambiguationData.canBeDisambiguated disambiguationData
        then [Decomposition.request d s disambiguationData]
        else []
    | None => []
    end.
Proof.
  destruct item as [disambiguationData|]; unfold Decomposition.sentenceBody;
    [destruct (DisambiguationData.canBeDisambiguated disambiguationData)|];
    run_body; done.
Qed.

Lemma Entailment_claim_calls model d s decompositionData k claim :
  calls (Entailment.claimBody d s decompositionData k claim) model
  = [Entailment.request d s k decompositionData claim].
Proof. unfold Entailment.claimBody. run_body; done. Qed.

Lemma Entailment_calls model d s item :
  calls (Entailment.sentenceBody d s item) model
  = match item with
    | Some decompositionData =>
        imap (fun claimIndex claim =>
                Entailment.request d s claimIndex decompositionData claim)
             (DecompositionData.propositionsWithContext decompositionData)
    | None => []
    end.
Proof.
  destruct item as [decompositionData|]; [|done].
  unfold calls at 1. rewrite Entailment_sentenceBody_Some. cbn.
  rewrite calls_forPush.
  rewrite <- (mjoin_imap_singleton
                (fun claimIndex claim =>
                   Entailment.request d s claimIndex decompositionData claim)).
  f_equal. apply imap_ext. intros k claim _. cbn.
  apply Entailment_claim_calls.
Qed.

Lemma ElementExtraction_calls model d s item :
  calls (ElementExtraction.sentenceBody d s item) model
  = match item with
    | Some decompositionData => [ElementExtraction.request d s decompositionData]
    | None => []
    end.
Proof. destruct item; unfold ElementExtraction.sentenceBody; run_body; done. Qed.

Lemma Coverage_calls model d s item :
  calls (Coverage.sentenceBody d s item) model
  = match item with
    | Some elementData =>
        match ElementCoverageData.elementExtraction elementData with
        | inl elementExtraction =>
            [Coverage.request d s elementData elementExtraction]
        | inr _ => []
        end
    | None => []
    end.
Proof.
  destruct item as [elementData|]; unfold Coverage.sentenceBody;
    [destruct (ElementCoverageData.elementExtraction elementData)|];
    run_body; done.
Qed.

(** X11.  The calls that a stage after Selection issues are a function
    of its input alone; the answers of the model change none of them.
    Row by row and slot by slot, in order: Disambiguation and Element
    extraction issue one call for each populated slot; Decomposition one
    for each populated slot that can be disambiguated; Coverage one for
    each populated slot whose element extraction is an object; Entailment
    one for each proposition of each populated slot. *)
Theorem stage_calls (model : LanguageModel) :
  (forall data,
     calls (Disambiguation.claimifyDisambiguiation (ArrayOf data)) model
     = mjoin (imap (fun d doc =>
                mjoin (imap (fun s (item : option SentenceData.t) =>
                         match item with
                         | Some sentenceData =>
                             [Disambiguation.request d s sentenceData]
                         | None => []
                         end) doc)) data))
  /\ (forall data,
        calls (Decomposition.claimifyDecomposition (ArrayOf data)) model
        = mjoin (imap (fun d doc =>
                   mjoin (imap (fun s (item : option DisambiguationData.t) =>
                            match item with
                            | Some disambiguationData =>
                                if DisambiguationData.canBeDisambiguated
                                     disambiguationData
                                then [Decomposition.request d s disambiguationData]
                                else []
                            | None => []
                            end) doc)) data))
  /\ (forall data,
        calls (Entailment.entailmentEvaluator (ArrayOf data)) model
        = mjoin (imap (fun d doc =>
                   mjoin (imap (fun s (item : option DecompositionData.t) =>
                            match item with
                            | Some decompositionData =>
                                imap (fun claimIndex claim =>
                                        Entailment.request d s claimIndex
                                          decompositionData claim)
                                     (DecompositionData.propositionsWithContext
                                        decompositionData)
                            | None => []
                            end) doc)) data))
  /\ (forall data,
        calls (ElementExtraction.elementExtractorV2 (ArrayOf data)) model
        = mjoin (imap (fun d doc =>
                   mjoin (imap (fun s (item : option DecompositionData.t) =>
                            match item with
                            | Some decompositionData =>
                                [ElementExtraction.request d s decompositionData]
                            | None => []
                            end) doc)) data))
  /\ (forall data,
        calls (Coverage.elementCoverageEvaluatorV2 (ArrayOf data)) model
        = mjoin (imap (fun d doc =>
                   mjoin (imap (fun s (item : option ElementCoverageData.t) =>
                            match item with
                            | Some elementData =>
                                match ElementCoverageData.elementExtraction
                                        elementData with
                                | inl elementExtraction =>
                                    [Coverage.request d s elementData
                                       elementExtraction]
                                | inr _ => []
                                end
                            | None => []
                            end) doc)) data)).
Proof.
  repeat split; intros data.
  - rewrite Disambiguation_is_laterStage, calls_laterStage_eq. f_equal.
    apply imap_ext. intros d doc _. f_equal.
    apply imap_ext. intros s item _. apply Disambiguation_calls.
  - rewrite Decomposition_is_laterStage, calls_laterStage_eq. f_equal.
    apply imap_ext. intros d doc _. f_equal.
    apply imap_ext. intros s item _. apply Decomposition_calls.
  - rewrite Entailment_is_laterStage, calls_laterStage_eq. f_equal.
    apply imap_ext. intros d doc _. f_equal.
    apply imap_ext. intros s item _. apply Entailment_calls.
  - rewrite ElementExtraction_is_laterStage, calls_laterStage_eq. f_equal.
    apply imap_ext. intros d doc _. f_equal.
    apply imap_ext. intros s item _. apply ElementExtraction_calls.
  - rewrite Coverage_is_laterStage, calls_laterStage_eq. f_equal.
    apply imap_ext. intros d doc _. f_equal.
    apply imap_ext. intros s item _. apply Coverage_calls.
Qed.

Lemma Entailment_claim_result model d s decompositionData k claim :
  result (Entailment.claimBody d s decompositionData k claim) model
  = [ {| ClaimEvaluation.claim := claim;
         ClaimEvaluation.entailmentEvaluation :=
           match model (Entailment.request d s k decompositionData claim) with
           | inl llmResponse => inl llmResponse
           | inr llmError => inr (ERROR llmError)
           end |} ].
Proof. unfold Entailment.claimBody. run_body; done. Qed.

(** X12.  For a populated slot Entailment stores one claim evaluation
    per proposition, in the order of the propositions and each with its
    proposition as [claim], whether the calls succeed or fail; a failed
    call puts the error marker in the place of that one evaluation and
    leaves the others alone.  A slot with no proposition gets an empty
    list. *)
Theorem entailment_one_evaluation_per_claim (model : LanguageModel) (d s : nat)
    (decompositionData : DecompositionData.t) :
  exists claimEvaluations,
    result (Entailment.sentenceBody d s (Some decompositionData)) model
    = [Some {| EntailmentRecord.claimEvaluations := claimEvaluations |}]
    /\ ClaimEvaluation.claim <$> claimEvaluations
       = DecompositionData.propositionsWithContext decompositionData
    /\ (forall claimIndex claim,
          DecompositionData.propositionsWithContext decompositionData !! claimIndex
          = Some claim ->
          exists evaluation,
            claimEvaluations !! claimIndex = Some evaluation
            /\ ClaimEvaluation.entailmentEvaluation evaluation
               = match model (Entailment.request d s claimIndex
                                decompositionData claim) with
                 | inl llmResponse => inl llmResponse
                 | inr llmError => inr (ERROR llmError)
                 end)
    /\ (DecompositionData.propositionsWithContext decompositionData = [] ->
        claimEvaluations = []).
Proof.
  eexists. split.
  { unfold result. by rewrite Entailment_sentenceBody_Some. }
  rewrite (forPush_one_each _ model
             (fun k claim =>
                {| ClaimEvaluation.claim := claim;
                   ClaimEvaluation.entailmentEvaluation :=
                     match model (Entailment.request d s k decompositionData claim)
                     with
                     | inl llmResponse => inl llmResponse
                     | inr llmError => inr (ERROR llmError)
                     end |}))
    by (intros; apply Entailment_claim_result).
  split; [|split].
  - apply list_eq. intros k. rewrite list_lookup_fmap, list_lookup_imap.
    by destruct (_ !! k).
  - intros claimIndex claim Hclaim. eexists.
    rewrite list_lookup_imap, Hclaim. cbn. done.
  - by intros ->.
Qed.

Lemma entailment_one_evaluation_per_claim_witness :
  exists claimEvaluations,
    result
      (Entailment.sentenceBody 0 0 (Some (Sample.decompositionData "Q" "X" "S")))
      (Sample.failingAt [[0; 0; 0]%nat])
    = [Some {| EntailmentRecord.claimEvaluations := claimEvaluations |}]
    /\ ClaimEvaluation.claim <$> claimEvaluations = ["P - true or false?"].
Proof.
  destruct (entailment_one_evaluation_per_claim (Sample.failingAt [[0; 0; 0]%nat])
              0 0 (Sample.decompositionData "Q" "X" "S"))
    as (claimEvaluations & Hstored & Hclaims & _).
  exists claimEvaluations. split; [exact Hstored | exact Hclaims].
Defined.

(** X13.  The prune rule of Decomposition: a populated slot whose
    [canBeDisambiguated] is false becomes an empty slot, and the stage
    issues no call for it. *)
Theorem decomposition_prunes_undisambiguated (model : LanguageModel)
    (data : list (list (option DisambiguationData.t))) (d s : nat)
    (disambiguationData : DisambiguationData.t) :
  slotAt data d s = Some (Some disambiguationData) ->
  DisambiguationData.canBeDisambiguated disambiguationData = false ->
  exists out,
    result (Decomposition.claimifyDecomposition (ArrayOf data)) model = Written out
    /\ slotAt out d s = Some None
    /\ forall c, c ∈ calls (Decomposition.claimifyDecomposition (ArrayOf data)) model ->
                 ~ issuedFor d s c.
Proof.
  intros Hslot Hcannot.
  destruct (laterStage_slot Decomposition.sentenceBody Decomposition_pushes_once
              Decomposition_issuedFor model data d s _ Hslot)
    as (out & Hout & Hstored & Hcalls).
  exists out. split; [done|].
  assert (Hbody : Decomposition.sentenceBody d s (Some disambiguationData) model
                  = ([None], [])).
  { unfold Decomposition.sentenceBody. by rewrite Hcannot. }
  split.
  - rewrite Hstored. unfold result. by rewrite Hbody.
  - intros c Hc Hfor. specialize (Hcalls c Hc Hfor).
    unfold calls in Hcalls. rewrite Hbody in Hcalls.
    by apply elem_of_nil in Hcalls.
Qed.

Lemma decomposition_prunes_undisambiguated_witness :
  exists out,
    result
      (Decomposition.claimifyDecomposition
         (ArrayOf [[Some (Sample.disambiguationData false "s")]]))
      Sample.answering
    = Written out
    /\ slotAt out 0 0 = Some None.
Proof.
  destruct (decomposition_prunes_undisambiguated Sample.answering
              [[Some (Sample.disambiguationData false "s")]] 0 0
              (Sample.disambiguationData false "s") eq_refl eq_refl)
    as (out & Hout & Hslot & _).
  exists out. split; [exact Hout | exact Hslot].
Defined.

(** X14.  Disambiguation, then Decomposition.  A slot whose
    Disambiguation call fails is written with the error sentinel, and
    Decomposition run on that artifact prunes it without a call: the
    failure costs the sentence its claims and nothing else. *)
Theorem failed_disambiguation_is_pruned (m1 m2 : LanguageModel)
    (data : list (list (option SentenceData.t))) (d s : nat)
    (sentenceData : SentenceData.t) (llmError : string) :
  slotAt data d s = Some (Some sentenceData) ->
  m1 (Disambiguation.request d s sentenceData) = inr llmError ->
  exists disambiguated decomposed,
    result (Disambiguation.claimifyDisambiguiation (ArrayOf data)) m1
    = Written disambiguated
    /\ result (Decomposition.claimifyDecomposition (ArrayOf disambiguated)) m2
       = Written decomposed
    /\ aligned data decomposed
    /\ slotAt decomposed d s = Some None
    /\ forall c,
         c ∈ calls (Decomposition.claimifyDecomposition (ArrayOf disambiguated)) m2 ->
         ~ issuedFor d s c.
Proof.
  intros Hslot Hfail.
  destruct (laterStage_aligned Disambiguation.sentenceBody
              Disambiguation_pushes_once m1 data)
    as (disambiguated & Hrun1 & Haligned1 & Hlookup1).
  assert (Hsentinel :
    slotAt disambiguated d s
    = Some (Some (Disambiguation.spread (Disambiguation.errorOutput llmError)
                    (Disambiguation.sentenceForPrompt sentenceData)
                    (SentenceData.query sentenceData)
                    (SentenceData.excerpt sentenceData)))).
  { rewrite Hlookup1, Hslot. cbn.
    unfold Disambiguation.sentenceBody, result, Gen_bind, generateObject.
    by rewrite Hfail. }
  destruct (laterStage_slot Decomposition.sentenceBody Decomposition_pushes_once
              Decomposition_issuedFor m2 disambiguated d s _ Hsentinel)
    as (decomposed & Hrun2 & Hstored & Hcalls).
  destruct (laterStage_aligned Decomposition.sentenceBody
              Decomposition_pushes_once m2 disambiguated)
    as (decomposed' & Hrun2' & Haligned2 & _).
  assert (decomposed' = decomposed) as ->.
  { change (laterStage Decomposition.sentenceBody)
      with Decomposition.claimifyDecomposition in *. congruence. }
  exists disambiguated, decomposed.
  split; [done|]. split; [done|]. split.
  { unfold aligned in *.
    eapply Forall2_trans; [|exact Haligned1|exact Haligned2].
    cbn. intros doc row1 row2 H1 H2. congruence. }
  split; [done|].
  intros c Hc Hfor. specialize (Hcalls c Hc Hfor).
  by apply elem_of_nil in Hcalls.
Qed.

Lemma failed_disambiguation_is_pruned_witness :
  exists disambiguated decomposed,
    result
      (Disambiguation.claimifyDisambiguiation
         (ArrayOf [[Some (Sample.sentenceData "s" "r")]]))
      (Sample.failingAt [[0; 0]%nat])
    = Written disambiguated
    /\ result (Decomposition.claimifyDecomposition (ArrayOf disambiguated))
         Sample.answering
       = Written decomposed
    /\ slotAt decomposed 0 0 = Some None.
Proof.
  destruct (failed_disambiguation_is_pruned (Sample.failingAt [[0; 0]%nat])
              Sample.answering [[Some (Sample.sentenceData "s" "r")]] 0 0
              (Sample.sentenceData "s" "r") "boom" eq_refl eq_refl)
    as (disambiguated & decomposed & Hrun1 & Hrun2 & _ & Hslot & _).
  exists disambiguated, decomposed.
  split; [exact Hrun1|]. split; [exact Hrun2 | exact Hslot].
Defined.

Lemma aligned_trans {A B C : Type} (input : list (list A)) (middle : list (list B))
    (output : list (list C)) :
  aligned input middle -> aligned middle output -> aligned input output.
Proof.
  unfold aligned. intros H1 H2.
  eapply Forall2_trans; [|exact H1|exact H2].
  cbn. intros doc row1 row2 Hrow1 Hrow2. congruence.
Qed.

(** A stage run, with the facts about it that compose. *)
Lemma laterStage_run {A B : Type} (body : nat -> nat -> A -> Gen (list B))
    (pushes_once :
       forall model d s item, length (result (body d s item) model) = 1%nat)
    (calls_issuedFor :
       forall model d s item c, c ∈ calls (body d s item) model -> issuedFor d s c)
    model data :
  exists out,
    result (laterStage body (ArrayOf data)) model = Written out
    /\ aligned data out
    /\ (forall d s, slotAt out d s
                    = slotAt data d s
                        ≫= (fun item => head (result (body d s item) model)))
    /\ (forall d s item c,
          slotAt data d s = Some item ->
          c ∈ calls (laterStage body (ArrayOf data)) model ->
          issuedFor d s c -> c ∈ calls (body d s item) model).
Proof.
  destruct (laterStage_aligned body pushes_once model data)
    as (out & Hout & Haligned & Hlookup).
  exists out. repeat split; try done.
  intros d s item c Hslot Hc Hfor.
  destruct (laterStage_slot body pushes_once calls_issuedFor model data d s item Hslot)
    as (out' & _ & _ & Hcalls).
  by apply Hcalls.
Qed.

(** X15.  Decomposition, then Entailment.  A slot whose Decomposition
    call fails is written as a record with both proposition lists empty,
    the decontextualized sentence as its sentence, the error marker in
    its analysis fields, and query and excerpt carried over.  Entailment
    run on that artifact stores an empty list of claim evaluations for
    the slot and issues no call for it. *)
Theorem failed_decomposition_has_no_claims (m1 m2 : LanguageModel)
    (data : list (list (option DisambiguationData.t))) (d s : nat)
    (disambiguationData : DisambiguationData.t) (llmError : string) :
  slotAt data d s = Some (Some disambiguationData) ->
  DisambiguationData.canBeDisambiguated disambiguationData = true ->
  m1 (Decomposition.request d s disambiguationData) = inr llmError ->
  exists decomposed entailed stored,
    result (Decomposition.claimifyDecomposition (ArrayOf data)) m1
    = Written decomposed
    /\ slotAt decomposed d s = Some (Some stored)
    /\ DecompositionData.sentence stored
       = DisambiguationData.decontextualizedSentence disambiguationData
    /\ DecompositionData.specificVerifiablePropositions stored = []
    /\ DecompositionData.propositionsWithContext stored = []
    /\ DecompositionData.referentialTermsAnalysis stored = ERROR llmError
    /\ DecompositionData.maxClarifiedSentence stored = ERROR llmError
    /\ DecompositionData.propositionRange stored = ERROR llmError
    /\ DecompositionData.query stored = DisambiguationData.query disambiguationData
    /\ DecompositionData.excerpt stored
       = DisambiguationData.excerpt disambiguationData
    /\ result (Entailment.entailmentEvaluator (ArrayOf decomposed)) m2
       = Written entailed
    /\ slotAt entailed d s
       = Some (Some {| EntailmentRecord.claimEvaluations := [] |})
    /\ forall c,
         c ∈ calls (Entailment.entailmentEvaluator (ArrayOf decomposed)) m2 ->
         ~ issuedFor d s c.
Proof.
  intros Hslot Hcan Hfail.
  destruct (laterStage_run Decomposition.sentenceBody Decomposition_pushes_once
              Decomposition_issuedFor m1 data)
    as (decomposed & Hrun1 & _ & Hlookup1 & _).
  destruct (laterStage_run Entailment.sentenceBody Entailment_pushes_once
              Entailment_issuedFor m2 decomposed)
    as (entailed & Hrun2 & _ & Hlookup2 & Hcalls2).
  exists decomposed, entailed. eexists.
  split; [exact Hrun1|].
  assert (Hstored :
    slotAt decomposed d s
    = Some (Some (Decomposition.spread
                    (Decomposition.errorOutput
                       (DisambiguationData.decontextualizedSentence
                          disambiguationData) llmError)
                    (DisambiguationData.query disambiguationData)
                    (DisambiguationData.excerpt disambiguationData)))).
  { rewrite Hlookup1, Hslot. cbn.
    unfold Decomposition.sentenceBody, result. rewrite Hcan. cbn [negb].
    unfold Gen_bind, generateObject. by rewrite Hfail. }
  split; [exact Hstored|].
  do 8 (split; [reflexivity|]).
  split; [exact Hrun2|]. split.
  - rewrite Hlookup2, Hstored. reflexivity.
  - intros c Hc Hfor.
    pose proof (Hcalls2 d s _ c Hstored Hc Hfor) as Hin.
    rewrite Entailment_calls in Hin. by apply elem_of_nil in Hin.
Qed.

Lemma failed_decomposition_has_no_claims_witness :
  exists decomposed entailed,
    result
      (Decomposition.claimifyDecomposition
         (ArrayOf [[Some (Sample.disambiguationData true "s")]]))
      (Sample.failingAt [[0; 0]%nat])
    = Written decomposed
    /\ result (Entailment.entailmentEvaluator (ArrayOf decomposed)) Sample.answering
       = Written entailed
    /\ slotAt entailed 0 0
       = Some (Some {| EntailmentRecord.claimEvaluations := [] |}).
Proof.
  destruct (failed_decomposition_has_no_claims (Sample.failingAt [[0; 0]%nat])
              Sample.answering [[Some (Sample.disambiguationData true "s")]] 0 0
              (Sample.disambiguationData true "s") "boom" eq_refl eq_refl eq_refl)
    as (decomposed & entailed & stored & Hrun1 & _ & _ & _ & _ & _ & _ & _ & _ & _
        & Hrun2 & Hslot & _).
  exists decomposed, entailed.
  split; [exact Hrun1|]. split; [exact Hrun2 | exact Hslot].
Defined.

(** X16.  Element extraction, then Coverage.  A slot whose element
    extraction call fails is written with the error marker under
    [elementExtraction]; Coverage run on that artifact issues no call for
    the slot and stores it with the marker of a skip, which quotes the
    error, and with query, excerpt, sentence and claims as they were. *)
Theorem failed_extraction_is_skipped (m1 m2 : LanguageModel)
    (data : list (list (option DecompositionData.t))) (d s : nat)
    (decompositionData : DecompositionData.t) (llmError : string) :
  slotAt data d s = Some (Some decompositionData) ->
  m1 (ElementExtraction.request d s decompositionData) = inr llmError ->
  exists extracted covered stored,
    result (ElementExtraction.elementExtractorV2 (ArrayOf data)) m1
    = Written extracted
    /\ result (Coverage.elementCoverageEvaluatorV2 (ArrayOf extracted)) m2
       = Written covered
    /\ slotAt covered d s = Some (Some stored)
    /\ CoverageRecord.coverageEvaluation stored
       = inr ("SKIPPED: Element extraction failed - ERROR: " +:+ llmError)
    /\ CoverageRecord.elementExtraction stored = inr (ERROR llmError)
    /\ CoverageRecord.query stored = DecompositionData.query decompositionData
    /\ CoverageRecord.excerpt stored = DecompositionData.excerpt decompositionData
    /\ CoverageRecord.sentence stored = DecompositionData.sentence decompositionData
    /\ CoverageRecord.claims stored
       = DecompositionData.propositionsWithContext decompositionData
    /\ forall c,
         c ∈ calls (Coverage.elementCoverageEvaluatorV2 (ArrayOf extracted)) m2 ->
         ~ issuedFor d s c.
Proof.
  intros Hslot Hfail.
  destruct (laterStage_run ElementExtraction.sentenceBody
              ElementExtraction_pushes_once ElementExtraction_issuedFor m1 data)
    as (extracted & Hrun1 & _ & Hlookup1 & _).
  destruct (laterStage_run Coverage.sentenceBody Coverage_pushes_once
              Coverage_issuedFor m2 extracted)
    as (covered & Hrun2 & _ & Hlookup2 & Hcalls2).
  exists extracted, covered. eexists.
  split; [exact Hrun1|]. split; [exact Hrun2|].
  assert (Hstored :
    slotAt extracted d s
    = Some (Some (ElementExtraction.pushed decompositionData
                    (inr (ERROR llmError))))).
  { rewrite Hlookup1, Hslot. cbn.
    unfold ElementExtraction.sentenceBody, result, Gen_bind, generateObject.
    by rewrite Hfail. }
  split.
  { rewrite Hlookup2, Hstored. cbn. reflexivity. }
  do 6 (split; [reflexivity|]).
  intros c Hc Hfor.
  pose proof (Hcalls2 d s _ c Hstored Hc Hfor) as Hin.
  rewrite Coverage_calls in Hin. by apply elem_of_nil in Hin.
Qed.

Lemma failed_extraction_is_skipped_witness :
  exists extracted covered stored,
    result
      (ElementExtraction.elementExtractorV2
         (ArrayOf [[Some (Sample.decompositionData "Q" "X" "S")]]))
      (Sample.failingAt [[0; 0]%nat])
    = Written extracted
    /\ result (Coverage.elementCoverageEvaluatorV2 (ArrayOf extracted))
         Sample.answering
       = Written covered
    /\ slotAt covered 0 0 = Some (Some stored)
    /\ CoverageRecord.coverageEvaluation stored
       = inr "SKIPPED: Element extraction failed - ERROR: boom".
Proof.
  destruct (failed_extraction_is_skipped (Sample.failingAt [[0; 0]%nat])
              Sample.answering [[Some (Sample.decompositionData "Q" "X" "S")]] 0 0
              (Sample.decompositionData "Q" "X" "S") "boom" eq_refl eq_refl)
    as (extracted & covered & stored & Hrun1 & Hrun2 & Hslot & Hskip & _).
  exists extracted, covered, stored.
  split; [exact Hrun1|]. split; [exact Hrun2|]. split; [exact Hslot | exact Hskip].
Defined.

(** What a populated output slot says about the input slot, stage by
    stage. *)
Lemma Disambiguation_populated_inv model d s item stored :
  head (result (Disambiguation.sentenceBody d s item) model) = Some (Some stored) ->
  exists sentenceData,
    item = Some sentenceData
    /\ DisambiguationData.query stored = SentenceData.query sentenceData
    /\ DisambiguationData.excerpt stored = SentenceData.excerpt sentenceData.
Proof.
  destruct item as [sentenceData|]; [|done].
  unfold Disambiguation.sentenceBody. run_body; intros [= <-]; by eexists.
Qed.

Lemma Decomposition_populated_inv model d s item stored :
  head (result (Decomposition.sentenceBody d s item) model) = Some (Some stored) ->
  exists disambiguationData,
    item = Some disambiguationData
    /\ DecompositionData.query stored = DisambiguationData.query disambiguationData
    /\ DecompositionData.excerpt stored
       = DisambiguationData.excerpt disambiguationData.
Proof.
  destruct item as [disambiguationData|]; [|done].
  unfold Decomposition.sentenceBody.
  destruct (DisambiguationData.canBeDisambiguated disambiguationData); [|done].
  run_body; intros [= <-]; by eexists.
Qed.

Lemma ElementExtraction_populated_inv model d s item stored :
  head (result (ElementExtraction.sentenceBody d s item) model)
  = Some (Some stored) ->
  exists decompositionData,
    item = Some decompositionData
    /\ ElementCoverageData.query stored = DecompositionData.query decompositionData
    /\ ElementCoverageData.excerpt stored
       = DecompositionData.excerpt decompositionData.
Proof.
  destruct item as [decompositionData|]; [|done].
  unfold ElementExtraction.sentenceBody. run_body; intros [= <-]; by eexists.
Qed.

Lemma Coverage_populated_inv model d s item stored :
  head (result (Coverage.sentenceBody d s item) model) = Some (Some stored) ->
  exists elementData,
    item = Some elementData
    /\ CoverageRecord.query stored = ElementCoverageData.query elementData
    /\ CoverageRecord.excerpt stored = ElementCoverageData.excerpt elementData.
Proof.
  destruct item as [elementData|]; [|done].
  unfold Coverage.sentenceBody.
  destruct (ElementCoverageData.elementExtraction elementData);
    run_body; intros [= <-]; by eexists.
Qed.

Lemma slot_bind_inv {A B : Type} (slot : option A) (k : A -> option B) (b : B) :
  slot ≫= k = Some b -> exists a, slot = Some a /\ k a = Some b.
Proof. destruct slot as [a|]; [|done]. intros Hk. by exists a. Qed.

(** X17.  From Disambiguation to Coverage.  Run one after the other on
    any input and against any four providers, Disambiguation,
    Decomposition, Element extraction and Coverage write an artifact
    aligned with the input, and every slot that is still populated at the
    end was populated at the start and holds the query and the excerpt it
    started with, whichever calls failed on the way. *)
Theorem context_reaches_coverage (m1 m2 m3 m4 : LanguageModel)
    (data : list (list (option SentenceData.t))) :
  exists disambiguated decomposed extracted covered,
    result (Disambiguation.claimifyDisambiguiation (ArrayOf data)) m1
    = Written disambiguated
    /\ result (Decomposition.claimifyDecomposition (ArrayOf disambiguated)) m2
       = Written decomposed
    /\ result (ElementExtraction.elementExtractorV2 (ArrayOf decomposed)) m3
       = Written extracted
    /\ result (Coverage.elementCoverageEvaluatorV2 (ArrayOf extracted)) m4
       = Written covered
    /\ aligned data covered
    /\ forall d s stored,
         slotAt covered d s = Some (Some stored) ->
         exists sentenceData,
           slotAt data d s = Some (Some sentenceData)
           /\ CoverageRecord.query stored = SentenceData.query sentenceData
           /\ CoverageRecord.excerpt stored = SentenceData.excerpt sentenceData.
Proof.
  destruct (laterStage_aligned Disambiguation.sentenceBody
              Disambiguation_pushes_once m1 data)
    as (disambiguated & Hrun1 & Haligned1 & Hlookup1).
  destruct (laterStage_aligned Decomposition.sentenceBody
              Decomposition_pushes_once m2 disambiguated)
    as (decomposed & Hrun2 & Haligned2 & Hlookup2).
  destruct (laterStage_aligned ElementExtraction.sentenceBody
              ElementExtraction_pushes_once m3 decomposed)
    as (extracted & Hrun3 & Haligned3 & Hlookup3).
  destruct (laterStage_aligned Coverage.sentenceBody
              Coverage_pushes_once m4 extracted)
    as (covered & Hrun4 & Haligned4 & Hlookup4).
  exists disambiguated, decomposed, extracted, covered.
  do 4 (split; [done|]). split.
  { eauto using @aligned_trans. }
  intros d s stored Hcovered.
  rewrite Hlookup4 in Hcovered.
  apply slot_bind_inv in Hcovered as (item4 & Hslot3 & Hhead4).
  apply Coverage_populated_inv in Hhead4 as (elementData & -> & Hq4 & Hx4).
  rewrite Hlookup3 in Hslot3.
  apply slot_bind_inv in Hslot3 as (item3 & Hslot2 & Hhead3).
  apply ElementExtraction_populated_inv in Hhead3
    as (decompositionData & -> & Hq3 & Hx3).
  rewrite Hlookup2 in Hslot2.
  apply slot_bind_inv in Hslot2 as (item2 & Hslot1 & Hhead2).
  apply Decomposition_populated_inv in Hhead2
    as (disambiguationData & -> & Hq2 & Hx2).
  rewrite Hlookup1 in Hslot1.
  apply slot_bind_inv in Hslot1 as (item1 & Hslot0 & Hhead1).
  apply Disambiguation_populated_inv in Hhead1 as (sentenceData & -> & Hq1 & Hx1).
  exists sentenceData. split; [done|]. split; congruence.
Qed.

Lemma context_reaches_coverage_witness :
  exists disambiguated decomposed extracted covered,
    result
      (Disambiguation.claimifyDisambiguiation
         (ArrayOf [[Some (Sample.sentenceData "s" "r"); None]]))
      Sample.answering = Written disambiguated
    /\ result (Decomposition.claimifyDecomposition (ArrayOf disambiguated))
         (Sample.failingAt [[0; 0]%nat]) = Written decomposed
    /\ result (ElementExtraction.elementExtractorV2 (ArrayOf decomposed))
         Sample.answering = Written extracted
    /\ result (Coverage.elementCoverageEvaluatorV2 (ArrayOf extracted))
         Sample.answering = Written covered
    /\ aligned [[Some (Sample.sentenceData "s" "r"); None]] covered.
Proof.
  destruct (context_reaches_coverage Sample.answering
              (Sample.failingAt [[0; 0]%nat]) Sample.answering Sample.answering
              [[Some (Sample.sentenceData "s" "r"); None]])
    as (disambiguated & decomposed & extracted & covered
        & Hrun1 & Hrun2 & Hrun3 & Hrun4 & Haligned & _).
  exists disambiguated, decomposed, extracted, covered.
  split; [exact Hrun1|]. split; [exact Hrun2|]. split; [exact Hrun3|].
  split; [exact Hrun4 | exact Haligned].
Defined.

(** ** [extractSentenceCoverageData] *)

Lemma slotAt_extractedData data d s :
  slotAt (SentenceCoverage.extractedData data) d s
  = (fun sentenceItem : option DecompositionData.t =>
       (fun decompositionData =>
          {| SentenceCoverageData.sentence :=
               DecompositionData.sentence decompositionData;
             SentenceCoverageData.maxClarifiedSentence :=
               DecompositionData.maxClarifiedSentence decompositionData |})
       <$> sentenceItem)
    <$> slotAt data d s.
Proof.
  unfold slotAt, SentenceCoverage.extractedData. rewrite list_lookup_fmap.
  destruct (data !! d) as [documentSentences|]; [|done]. cbn.
  rewrite list_lookup_fmap. by destruct (documentSentences !! s) as [[?|]|].
Qed.

Lemma populated_after_fmap {A B : Type} (g : option A -> option B)
    (doc : list (option A)) :
  (forall item, is_Some (g item) <-> is_Some item) ->
  length (filter (fun item : option B => is_Some item) (g <$> doc))
  = length (filter (fun item : option A => is_Some item) doc).
Proof.
  intros Hg. induction doc as [|item doc IH]; [done|]. cbn [fmap list_fmap].
  destruct (decide (is_Some item)) as [Hsome|Hnone].
  - rewrite !filter_cons_True by (done || by apply Hg). cbn. by rewrite IH.
  - rewrite !filter_cons_False by (done || by rewrite Hg). done.
Qed.

Lemma totalSentences_acc {A : Type} (docs : list (list (option A))) (acc : nat) :
  foldl (fun sum doc => (sum + length doc)%nat) acc docs
  = (acc + length (mjoin docs))%nat.
Proof.
  revert acc. induction docs as [|doc docs IH]; intros acc.
  - symmetry. apply Nat.add_0_r.
  - cbn [foldl]. rewrite IH.
    change (mjoin (doc :: docs)) with (doc ++ mjoin docs).
    rewrite length_app. lia.
Qed.

Lemma nonEmptySentences_acc {A : Type} (docs : list (list (option A))) (acc : nat) :
  foldl (fun sum doc =>
           (sum + length (filter (fun item : option A => is_Some item) doc))%nat)
        acc docs
  = (acc + length (filter (fun item : option A => is_Some item) (mjoin docs)))%nat.
Proof.
  revert acc. induction docs as [|doc docs IH]; intros acc.
  - symmetry. apply Nat.add_0_r.
  - cbn [foldl]. rewrite IH.
    change (mjoin (doc :: docs)) with (doc ++ mjoin docs).
    rewrite filter_app, length_app. lia.
Qed.

Lemma mjoin_fmap_rows {A B : Type} (g : A -> B) (data : list (list A)) :
  mjoin ((fun doc : list A => g <$> doc) <$> data) = g <$> mjoin data.
Proof.
  induction data as [|doc data IH]; [done|].
  cbn [fmap list_fmap].
  change (mjoin (?x :: ?l)) with (x ++ mjoin l).
  by rewrite fmap_app, <- IH.
Qed.

Lemma mjoin_extractedData_lengths data :
  length (mjoin (SentenceCoverage.extractedData data)) = length (mjoin data)
  /\ length (filter (fun item : option SentenceCoverageData.t => is_Some item)
                    (mjoin (SentenceCoverage.extractedData data)))
     = length (filter (fun item : option DecompositionData.t => is_Some item)
                      (mjoin data)).
Proof.
  unfold SentenceCoverage.extractedData. rewrite mjoin_fmap_rows. split.
  - apply length_fmap.
  - apply populated_after_fmap.
    intros [decompositionData|]; cbn; split; intros [? ?]; by eauto.
Qed.

(** X18.  [extractSentenceCoverageData] keeps the shape of its input:
    one row per document, one slot per slot, an empty slot exactly where
    the input has one, and in a populated slot the sentence and the
    clarified sentence of the input.  The counts it reports are those of
    the input: all positions, the populated ones, and as "empty objects
    preserved" the empty ones. *)
Theorem sentence_coverage_extraction
    (data : list (list (option DecompositionData.t))) (d s : nat) :
  let out := SentenceCoverage.extractedData data in
  aligned data out
  /\ (slotAt out d s = Some None <-> slotAt data d s = Some None)
  /\ (forall decompositionData,
        slotAt data d s = Some (Some decompositionData) ->
        slotAt out d s
        = Some (Some {| SentenceCoverageData.sentence :=
                          DecompositionData.sentence decompositionData;
                        SentenceCoverageData.maxClarifiedSentence :=
                          DecompositionData.maxClarifiedSentence
                            decompositionData |}))
  /\ SentenceCoverage.totalDocuments out = length data
  /\ SentenceCoverage.totalSentences out = length (mjoin data)
  /\ SentenceCoverage.nonEmptySentences out
     = length (filter (fun item : option DecompositionData.t => is_Some item)
                      (mjoin data))
  /\ (SentenceCoverage.totalSentences out - SentenceCoverage.nonEmptySentences out)%nat
     = length (filter (fun item : option DecompositionData.t => item = None)
                      (mjoin data)).
Proof.
  intros out.
  destruct (mjoin_extractedData_lengths data) as [Hall Hsome].
  assert (Htotal : SentenceCoverage.totalSentences out = length (mjoin data)).
  { unfold SentenceCoverage.totalSentences. by rewrite totalSentences_acc. }
  assert (Hpopulated :
    SentenceCoverage.nonEmptySentences out
    = length (filter (fun item : option DecompositionData.t => is_Some item)
                     (mjoin data))).
  { unfold SentenceCoverage.nonEmptySentences. by rewrite nonEmptySentences_acc. }
  split.
  { unfold aligned, out, SentenceCoverage.extractedData.
    apply Forall2_fmap_r, Forall_Forall2_diag, Forall_forall.
    intros doc _. apply length_fmap. }
  split.
  { unfold out. rewrite slotAt_extractedData.
    destruct (slotAt data d s) as [[?|]|]; cbn; split; done. }
  split.
  { intros decompositionData Hslot. unfold out.
    by rewrite slotAt_extractedData, Hslot. }
  split.
  { unfold SentenceCoverage.totalDocuments, out, SentenceCoverage.extractedData.
    apply length_fmap. }
  split; [done|]. split; [done|].
  rewrite Htotal, Hpopulated.
  generalize (mjoin data). intros slots.
  induction slots as [|[decompositionData|] slots IH].
  - done.
  - rewrite filter_cons_True by done.
    rewrite (filter_cons_False (fun item => item = None)) by done.
    cbn [length]. lia.
  - rewrite filter_cons_False by (by intros [? ?]).
    rewrite (filter_cons_True (fun item => item = None)) by done.
    cbn [length].
    pose proof (length_filter (fun item : option DecompositionData.t => is_Some item)
                  slots).
    lia.
Qed.

Lemma sentence_coverage_extraction_witness :
  slotAt
    (SentenceCoverage.extractedData
       [[None; Some (Sample.decompositionData "Q" "X" "S")]])
    0 1
  = Some (Some {| SentenceCoverageData.sentence := "S";
                  SentenceCoverageData.maxClarifiedSentence := "S" |}).
Proof.
  exact (proj1 (proj2 (proj2
           (sentence_coverage_extraction
              [[None; Some (Sample.decompositionData "Q" "X" "S")]] 0 1)))
           (Sample.decompositionData "Q" "X" "S") eq_refl).
Defined.

(** ** The single-turn baseline *)

Lemma BaselineEntailment_is_laterStage :
  BaselineEntailment.baselineEntailmentEvaluator
  = laterStage BaselineEntailment.claimBody.
Proof. reflexivity. Qed.

Lemma BaselineEntailment_pushes_once model d k claimData :
  length (result (BaselineEntailment.claimBody d k claimData) model) = 1%nat.
Proof. unfold BaselineEntailment.claimBody. run_body; done. Qed.

Lemma BaselineEntailment_issuedFor model d k claimData c :
  c ∈ calls (BaselineEntailment.claimBody d k claimData) model -> issuedFor d k c.
Proof. unfold BaselineEntailment.claimBody. run_body; one_call. Qed.

(** *** Stages whose sentence loop may throw *)

Lemma mjoin_imap_lookup {A B : Type} (g : nat -> A -> list B) (l : list A) :
  (forall k x, l !! k = Some x -> length (g k x) = 1%nat) ->
  length (mjoin (imap g l)) = length l
  /\ forall k, mjoin (imap g l) !! k = l !! k ≫= (fun x => head (g k x)).
Proof.
  intros Hone.
  pose proof (forPush_lookup (fun k x => Gen_ret (g k x)) (fun _ => inr "")
                0%nat l Hone) as Hlookup.
  by rewrite result_forPush in Hlookup.
Qed.

Section LaterStageT.

Context {A B : Type} (body : nat -> nat -> A -> Gen (Completion (list B))).

Lemma result_perDocumentT model d doc :
  result (perDocumentT body d doc) model
  = match result (forPushT (body d) 0%nat doc) model with
    | Throws error => Throws error
    | Normal row => Normal [row]
    end.
Proof.
  unfold perDocumentT, result, Gen_bind.
  by destruct (forPushT (body d) 0%nat doc model) as [[row|error] calls1].
Qed.

Lemma calls_perDocumentT model d doc :
  calls (perDocumentT body d doc) model = calls (forPushT (body d) 0%nat doc) model.
Proof.
  unfold perDocumentT, calls, Gen_bind.
  destruct (forPushT (body d) 0%nat doc model) as [[row|error] calls1]; cbn;
    apply app_nil_r.
Qed.

(** The run throws exactly when the sentence loop throws at some entry. *)
Lemma laterStageT_aborts_iff model data :
  aborts (result (laterStageT body (ArrayOf data)) model)
  <-> exists d s item error,
        slotAt data d s = Some item
        /\ result (body d s item) model = Throws error.
Proof.
  unfold laterStageT, aborts. rewrite result_stageRunT.
  transitivity (exists error,
                  result (forPushT (perDocumentT body) 0%nat data) model
                  = Throws error).
  { destruct (result (forPushT _ _ _) model) as [out|error].
    - split; intros [? ?]; done.
    - split; intros _; by eexists. }
  rewrite forPushT_throws_iff. split.
  - intros (d & doc & error & Hdoc & Hthrows). cbn in Hthrows.
    rewrite result_perDocumentT in Hthrows.
    destruct (proj1 (forPushT_throws_iff (body d) model 0%nat doc))
      as (s & item & error' & Hitem & Hthrows').
    { destruct (result (forPushT _ _ _) model) as [row|error'']; [done|].
      by exists error''. }
    exists d, s, item, error'. split; [by apply slotAt_Some with doc|done].
  - intros (d & s & item & error & Hslot & Hthrows).
    unfold slotAt in Hslot.
    destruct (data !! d) as [doc|] eqn:Hdoc; [|done]. cbn in Hslot.
    destruct (proj2 (forPushT_throws_iff (body d) model 0%nat doc))
      as [error' Herror'].
    { by exists s, item, error. }
    exists d, doc, error'. split; [done|]. cbn.
    by rewrite result_perDocumentT, Herror'.
Qed.

(** When the sentence loop pushes one entry at every entry of the input,
    the run writes an aligned artifact made of these entries, and its
    calls are those of the sentence loop, in order. *)
Lemma laterStageT_written model data :
  (forall d s item, slotAt data d s = Some item ->
                    exists entry, result (body d s item) model = Normal [entry]) ->
  exists out,
    result (laterStageT body (ArrayOf data)) model = Written out
    /\ aligned data out
    /\ (forall d s item,
          slotAt data d s = Some item ->
          exists entry,
            result (body d s item) model = Normal [entry]
            /\ slotAt out d s = Some entry)
    /\ calls (laterStageT body (ArrayOf data)) model
       = mjoin (imap (fun d doc =>
                        mjoin (imap (fun s item => calls (body d s item) model) doc))
                     data).
Proof.
  intros Hone.
  set (g := fun d s item =>
              match result (body d s item) model with
              | Normal pushed => pushed
              | Throws _ => []
              end).
  assert (Hg : forall d s item entry,
             result (body d s item) model = Normal [entry] -> g d s item = [entry]).
  { intros d s item entry Hentry. unfold g. by rewrite Hentry. }
  assert (Hdoc : forall d doc,
             data !! d = Some doc ->
             result (perDocumentT body d doc) model
             = Normal [mjoin (imap (g d) doc)]
             /\ calls (perDocumentT body d doc) model
                = mjoin (imap (fun s item => calls (body d s item) model) doc)).
  { intros d doc Hd.
    destruct (forPushT_normal (body d) model (g d) 0%nat doc) as [Hresult Hcalls].
    { intros s item Hitem. cbn.
      destruct (Hone d s item (slotAt_Some _ _ _ _ _ Hd Hitem)) as [entry Hentry].
      by rewrite Hentry, (Hg _ _ _ _ Hentry). }
    by rewrite result_perDocumentT, calls_perDocumentT, Hresult, Hcalls. }
  destruct (forPushT_normal (perDocumentT body) model
              (fun d doc => [mjoin (imap (g d) doc)]) 0%nat data)
    as [Hresult Hcalls].
  { intros d doc Hd. by apply Hdoc. }
  cbn in Hresult, Hcalls. rewrite mjoin_imap_singleton in Hresult.
  assert (Hrow : forall d doc,
             data !! d = Some doc ->
             forall s item, doc !! s = Some item -> length (g d s item) = 1%nat).
  { intros d doc Hd s item Hitem.
    destruct (Hone d s item (slotAt_Some _ _ _ _ _ Hd Hitem)) as [entry Hentry].
    by rewrite (Hg _ _ _ _ Hentry). }
  exists (imap (fun d doc => mjoin (imap (g d) doc)) data).
  split; [|split; [|split]].
  - unfold laterStageT. by rewrite result_stageRunT, Hresult.
  - unfold aligned. apply Forall2_same_length_lookup_2.
    + by rewrite length_imap.
    + intros d doc row Hd Hr.
      rewrite list_lookup_imap, Hd in Hr. injection Hr as <-.
      by apply mjoin_imap_lookup, Hrow.
  - intros d s item Hslot.
    destruct (Hone d s item Hslot) as [entry Hentry].
    exists entry. split; [done|].
    unfold slotAt in *. rewrite list_lookup_imap.
    destruct (data !! d) as [doc|] eqn:Hd; [|done]. cbn in *.
    rewrite (proj2 (mjoin_imap_lookup (g d) doc (Hrow d doc Hd))), Hslot. cbn.
    by rewrite (Hg _ _ _ _ Hentry).
  - unfold laterStageT. rewrite calls_stageRunT, Hcalls.
    f_equal. apply imap_ext. intros d doc Hd. by apply Hdoc.
Qed.

Hypothesis calls_issuedFor :
  forall model d s item c, c ∈ calls (body d s item) model -> issuedFor d s c.

(** The calls of the run that are issued for an entry are those of the
    sentence loop on it. *)
Lemma laterStageT_calls_at model data d s item c :
  (forall d s item, slotAt data d s = Some item ->
                    exists entry, result (body d s item) model = Normal [entry]) ->
  slotAt data d s = Some item ->
  c ∈ calls (laterStageT body (ArrayOf data)) model ->
  issuedFor d s c ->
  c ∈ calls (body d s item) model.
Proof.
  intros Hone Hslot Hc Hfor.
  destruct (laterStageT_written model data Hone) as (out & _ & _ & _ & Hcalls).
  rewrite Hcalls in Hc.
  apply list_elem_of_join in Hc as (callsOfDoc & Hc & Hin).
  apply elem_of_lookup_imap in Hin as (d' & doc & -> & Hdoc).
  apply list_elem_of_join in Hc as (callsOfItem & Hc & Hin).
  apply elem_of_lookup_imap in Hin as (s' & item' & -> & Hitem).
  pose proof (calls_issuedFor _ _ _ _ _ Hc) as Hsite.
  unfold issuedFor in Hfor, Hsite. rewrite Hsite in Hfor.
  injection Hfor as -> ->.
  rewrite (slotAt_Some _ _ _ _ _ Hdoc Hitem) in Hslot.
  by injection Hslot as ->.
Qed.

Lemma laterStageT_calls_intro model data d s item c :
  (forall d s item, slotAt data d s = Some item ->
                    exists entry, result (body d s item) model = Normal [entry]) ->
  slotAt data d s = Some item ->
  c ∈ calls (body d s item) model ->
  c ∈ calls (laterStageT body (ArrayOf data)) model.
Proof.
  intros Hone Hslot Hc.
  destruct (laterStageT_written model data Hone) as (out & _ & _ & _ & Hcalls).
  rewrite Hcalls. unfold slotAt in Hslot.
  destruct (data !! d) as [doc|] eqn:Hdoc; [|done]. cbn in Hslot.
  apply list_elem_of_join. eexists. split; [|apply elem_of_lookup_imap; eauto].
  apply list_elem_of_join. eexists. split; [|apply elem_of_lookup_imap; eauto].
  done.
Qed.

End LaterStageT.

Lemma BaselineElements_is_laterStageT :
  BaselineElements.baselineElementExtractor = laterStageT BaselineElements.claimBody.
Proof. reflexivity. Qed.

(** The element extractor throws at a record exactly when the record
    has no sentence; otherwise it pushes one entry. *)
Lemma BaselineElements_throws model d k claimItem :
  ~ BaselineElements.hasSentence claimItem ->
  BaselineElements.claimBody d k claimItem model
  = (Throws substring_of_undefined, []).
Proof.
  unfold BaselineElements.hasSentence, BaselineElements.claimBody.
  destruct (ExtractedClaimRecord.sentence claimItem) as [sentence|]; [|done].
  intros Hnot. exfalso. apply Hnot. by eexists.
Qed.

Lemma BaselineElements_pushes_once model d k claimItem :
  BaselineElements.hasSentence claimItem ->
  exists entry,
    result (BaselineElements.claimBody d k claimItem) model = Normal [entry].
Proof.
  unfold BaselineElements.hasSentence, BaselineElements.claimBody.
  intros [sentence ->]. run_body; by eexists.
Qed.

Lemma BaselineElements_issuedFor model d k claimItem c :
  c ∈ calls (BaselineElements.claimBody d k claimItem) model -> issuedFor d k c.
Proof.
  unfold BaselineElements.claimBody.
  destruct (ExtractedClaimRecord.sentence claimItem); run_body; one_call.
Qed.

Lemma BaselineCoverage_is_laterStageT :
  BaselineCoverage.baselineCoverageEvaluator = laterStageT BaselineCoverage.claimBody.
Proof. reflexivity. Qed.

Lemma BaselineCoverage_throws model d k claimItem :
  ~ BaselineCoverage.evaluable claimItem ->
  BaselineCoverage.claimBody d k claimItem model
  = (Throws substring_of_undefined, []).
Proof.
  unfold BaselineCoverage.evaluable, BaselineCoverage.claimBody.
  destruct claimItem as [elementData|]; [|by intros Hnot; destruct Hnot].
  destruct (BaselineElementData.elementExtraction elementData);
    [|by intros Hnot; destruct Hnot].
  destruct (BaselineElementData.sentence elementData) as [sentence|]; [|done].
  intros Hnot. exfalso. apply Hnot. by eexists.
Qed.

Lemma BaselineCoverage_pushes_once model d k claimItem :
  BaselineCoverage.evaluable claimItem ->
  exists entry,
    result (BaselineCoverage.claimBody d k claimItem) model = Normal [entry].
Proof.
  unfold BaselineCoverage.evaluable, BaselineCoverage.claimBody.
  destruct claimItem as [elementData|]; [|by eexists].
  destruct (BaselineElementData.elementExtraction elementData); [|by eexists].
  intros [sentence ->]. run_body; by eexists.
Qed.

Lemma BaselineCoverage_issuedFor model d k claimItem c :
  c ∈ calls (BaselineCoverage.claimBody d k claimItem) model -> issuedFor d k c.
Proof.
  destruct claimItem as [elementData|]; unfold BaselineCoverage.claimBody;
    [destruct (BaselineElementData.elementExtraction elementData);
     [destruct (BaselineElementData.sentence elementData)|]|];
    run_body; one_call.
Qed.

Lemma BaselineCoverage_calls model d k claimItem :
  calls (BaselineCoverage.claimBody d k claimItem) model
  = match claimItem with
    | Some elementData =>
        match BaselineElementData.elementExtraction elementData,
              BaselineElementData.sentence elementData with
        | inl elementExtraction, Some _ =>
            [BaselineCoverage.request d k elementData elementExtraction]
        | _, _ => []
        end
    | None => []
    end.
Proof.
  destruct claimItem as [elementData|]; unfold BaselineCoverage.claimBody;
    [destruct (BaselineElementData.elementExtraction elementData);
     [destruct (BaselineElementData.sentence elementData)|]|];
    run_body; done.
Qed.

(** A throwing stage and its lemmas, put together. *)
Lemma laterStageT_keepsAlignmentOn {A B : Type}
    (body : nat -> nat -> A -> Gen (Completion (list B))) (ready : A -> Prop) :
  (forall model d s item,
     ready item -> exists entry, result (body d s item) model = Normal [entry]) ->
  keepsAlignmentOn (laterStageT body) body ready.
Proof.
  intros Hready model data Hall.
  destruct (laterStageT_written body model data) as (out & Hout & Haligned & Hslots & _).
  { intros d s item Hslot. by apply Hready, (Hall d s). }
  by exists out.
Qed.

Lemma laterStageT_abortsUnless {A B : Type}
    (body : nat -> nat -> A -> Gen (Completion (list B))) (ready : A -> Prop) :
  (forall model d s item,
     ready item -> exists entry, result (body d s item) model = Normal [entry]) ->
  (forall model d s item,
     ~ ready item -> exists error, result (body d s item) model = Throws error) ->
  abortsUnless (laterStageT body) ready.
Proof.
  intros Hready Hnot model data. rewrite laterStageT_aborts_iff. split.
  - intros (d & s & item & error & Hslot & Hthrows).
    exists d, s, item. split; [done|]. intros Hr.
    destruct (Hready model d s item Hr) as [entry Hentry]. congruence.
  - intros (d & s & item & Hslot & Hr).
    destruct (Hnot model d s item Hr) as [error Herror].
    by exists d, s, item, error.
Qed.

(** X19.  Alignment in the three evaluation stages of the baseline.
    The entailment evaluator writes, for every document, exactly one
    entry per claim of the input, in order, whether the calls succeed or
    fail.  The element extractor does so when every record of the input
    has a sentence; when some record has none, the run throws and writes
    nothing.  The coverage evaluator does so when every entry of the
    input is empty, or holds a failed extraction, or has a sentence; when
    some entry holds an extraction and no sentence, the run throws and
    writes nothing.  When the coverage evaluator writes, an empty entry
    stays empty and no call is issued for it. *)
Theorem baseline_alignment :
  keepsAlignment BaselineEntailment.baselineEntailmentEvaluator
    BaselineEntailment.claimBody
  /\ keepsAlignmentOn BaselineElements.baselineElementExtractor
       BaselineElements.claimBody BaselineElements.hasSentence
  /\ abortsUnless BaselineElements.baselineElementExtractor
       BaselineElements.hasSentence
  /\ keepsAlignmentOn BaselineCoverage.baselineCoverageEvaluator
       BaselineCoverage.claimBody BaselineCoverage.evaluable
  /\ abortsUnless BaselineCoverage.baselineCoverageEvaluator
       BaselineCoverage.evaluable
  /\ keepsPrunedOn BaselineCoverage.baselineCoverageEvaluator
       BaselineCoverage.evaluable.
Proof.
  split; [|split; [|split; [|split; [|split]]]].
  - intros model data.
    apply (laterStage_aligned _ BaselineEntailment_pushes_once).
  - apply laterStageT_keepsAlignmentOn. intros model d s item.
    apply BaselineElements_pushes_once.
  - apply laterStageT_abortsUnless.
    + intros model d s item. apply BaselineElements_pushes_once.
    + intros model d s item Hnot. exists substring_of_undefined.
      unfold result. by rewrite BaselineElements_throws.
  - apply laterStageT_keepsAlignmentOn. intros model d s item.
    apply BaselineCoverage_pushes_once.
  - apply laterStageT_abortsUnless.
    + intros model d s item. apply BaselineCoverage_pushes_once.
    + intros model d s item Hnot. exists substring_of_undefined.
      unfold result. by rewrite BaselineCoverage_throws.
  - intros model data d s Hall Hslot.
    assert (Hone : forall d s item,
              slotAt data d s = Some item ->
              exists entry,
                result (BaselineCoverage.claimBody d s item) model = Normal [entry]).
    { intros d' s' item Hitem.
      by apply BaselineCoverage_pushes_once, (Hall d' s'). }
    destruct (laterStageT_written BaselineCoverage.claimBody model data Hone)
      as (out & Hout & _ & Hslots & _).
    exists out. split; [exact Hout|]. split.
    + destruct (Hslots d s None Hslot) as (entry & Hentry & Hstored).
      injection Hentry as <-. exact Hstored.
    + intros c Hc Hfor.
      pose proof (laterStageT_calls_at BaselineCoverage.claimBody
                    BaselineCoverage_issuedFor model data d s None c
                    Hone Hslot Hc Hfor) as Hin.
      by apply elem_of_nil in Hin.
Qed.

Lemma baseline_alignment_witness :
  let written := [[Sample2.extracted "C1" (Some "S"); Sample2.extracted "C2" (Some "S")]] in
  let thrown := [[Sample2.extracted "C1" (Some "S")]; [Sample2.extracted "C2" None]] in
  (exists out,
     result (BaselineElements.baselineElementExtractor (ArrayOf written))
       (Sample.failingAt [[0; 1]%nat])
     = Written out
     /\ aligned written out)
  /\ aborts (result (BaselineElements.baselineElementExtractor (ArrayOf thrown))
               Sample.answering).
Proof.
  split.
  - destruct (proj1 (proj2 baseline_alignment) (Sample.failingAt [[0; 1]%nat])
                [[Sample2.extracted "C1" (Some "S");
                  Sample2.extracted "C2" (Some "S")]])
      as (out & Hout & Haligned & _).
    { intros [|[|d]] [|[|[|s]]] item Hslot; try discriminate Hslot;
        injection Hslot as <-; by eexists. }
    exists out. split; [exact Hout | exact Haligned].
  - apply (proj1 (proj2 (proj2 baseline_alignment))).
    exists 1%nat, 0%nat, (Sample2.extracted "C2" None).
    split; [reflexivity|]. intros [sentence Hsentence]. discriminate Hsentence.
Defined.

(** X20.  The entailment evaluator of the baseline fails closed.  When
    the call for a claim fails, the entry written for the claim has the
    shape of a success: the claim data as they were, and an evaluation
    whose conclusion is "S does not entail all elements of C", whose
    sentence and claim are those of the input, whose element list is
    empty and whose free-text fields hold the error marker. *)
Theorem baseline_entailment_fails_closed (model : LanguageModel)
    (data : list (list BaselineClaimData.t)) (d k : nat)
    (claimData : BaselineClaimData.t) (llmError : string) :
  slotAt data d k = Some claimData ->
  model (BaselineEntailment.request d k claimData) = inr llmError ->
  exists out stored,
    result (BaselineEntailment.baselineEntailmentEvaluator (ArrayOf data)) model
    = Written out
    /\ slotAt out d k = Some stored
    /\ BaselineEntailmentRecord.claim stored = BaselineClaimData.claim claimData
    /\ BaselineEntailmentRecord.sentence stored = BaselineClaimData.sentence claimData
    /\ BaselineEntailmentRecord.excerpt stored = BaselineClaimData.excerpt claimData
    /\ BaselineEntailmentRecord.query stored = BaselineClaimData.query claimData
    /\ BaselineEntailmentRecord.filename stored = BaselineClaimData.filename claimData
    /\ BaselineEntailmentRecord.sentenceIndex stored
       = BaselineClaimData.sentenceIndex claimData
    /\ let evaluation := BaselineEntailmentRecord.entailmentEvaluation stored in
       EntailmentOutput.finalConclusion evaluation = DoesNotEntailAll
       /\ EntailmentOutput.sentenceS evaluation = BaselineClaimData.sentence claimData
       /\ EntailmentOutput.claimC evaluation = BaselineClaimData.claim claimData
       /\ EntailmentOutput.elementsOfC evaluation = []
       /\ EntailmentOutput.statementsAndActionsRuleApplies evaluation = false
       /\ EntailmentOutput.contextDescription evaluation = ERROR llmError
       /\ EntailmentOutput.claimInterpretation evaluation = ERROR llmError
       /\ EntailmentOutput.statementsAndActionsRuleReasoning evaluation
          = ERROR llmError
       /\ EntailmentOutput.elementAnalysis evaluation = ERROR llmError.
Proof.
  intros Hslot Hfail.
  destruct (laterStage_aligned BaselineEntailment.claimBody
              BaselineEntailment_pushes_once model data)
    as (out & Hout & _ & Hlookup).
  exists out. eexists. split; [exact Hout|]. split.
  - rewrite Hlookup, Hslot. cbn.
    unfold BaselineEntailment.claimBody, result, Gen_bind, generateObject.
    rewrite Hfail. reflexivity.
  - by repeat split.
Qed.

Lemma baseline_entailment_fails_closed_witness :
  exists out stored,
    result
      (BaselineEntailment.baselineEntailmentEvaluator
         (ArrayOf [[Sample2.claimData "C"]]))
      (Sample.failingAt [[0; 0]%nat])
    = Written out
    /\ slotAt out 0 0 = Some stored
    /\ EntailmentOutput.finalConclusion
         (BaselineEntailmentRecord.entailmentEvaluation stored)
       = DoesNotEntailAll.
Proof.
  destruct (baseline_entailment_fails_closed (Sample.failingAt [[0; 0]%nat])
              [[Sample2.claimData "C"]] 0 0 (Sample2.claimData "C") "boom"
              eq_refl eq_refl)
    as (out & stored & Hout & Hslot & _ & _ & _ & _ & _ & _ & Hconclusion & _).
  exists out, stored.
  split; [exact Hout|]. split; [exact Hslot | exact Hconclusion].
Defined.

Lemma calls_laterStage_intro {A B : Type} (body : nat -> nat -> A -> Gen (list B))
    model data d s item c :
  slotAt data d s = Some item ->
  c ∈ calls (body d s item) model ->
  c ∈ calls (laterStage body (ArrayOf data)) model.
Proof.
  intros Hslot Hc. unfold slotAt in Hslot.
  destruct (data !! d) as [doc|] eqn:Hdoc; [|done]. cbn in Hslot.
  unfold laterStage. rewrite calls_stageRun, calls_forPush.
  apply list_elem_of_join. eexists. split; [|apply elem_of_lookup_imap; eauto].
  cbn. rewrite calls_perDocument, calls_forPush.
  apply list_elem_of_join. eexists. split; [|apply elem_of_lookup_imap; eauto].
  done.
Qed.

Lemma slotAt_Some_rows {A : Type} (artifact : list (list A)) d s :
  slotAt ((fun row : list A => Some <$> row) <$> artifact) d s
  = Some <$> slotAt artifact d s.
Proof.
  unfold slotAt. rewrite list_lookup_fmap.
  destruct (artifact !! d) as [row|]; [|done]. cbn. apply list_lookup_fmap.
Qed.

Lemma aligned_slot_back {A B : Type} (input : list (list A)) (output : list (list B))
    d s entry :
  aligned input output ->
  slotAt output d s = Some entry ->
  exists item, slotAt input d s = Some item.
Proof.
  intros Haligned Hslot. unfold slotAt in *.
  destruct (output !! d) as [row|] eqn:Hrow; [|done]. cbn in Hslot.
  destruct (Forall2_lookup_r _ _ _ _ _ Haligned Hrow) as (doc & Hdoc & Hlen).
  rewrite Hdoc. cbn. apply lookup_lt_is_Some_2.
  rewrite <- Hlen. by apply lookup_lt_Some with entry.
Qed.

(** What the element extractor stores for a record that has a
    sentence. *)
Lemma BaselineElements_stores model d k claimItem sentence :
  ExtractedClaimRecord.sentence claimItem = Some sentence ->
  result (BaselineElements.claimBody d k claimItem) model
  = Normal
      [BaselineElements.pushed claimItem
         match model (BaselineElements.request d k claimItem sentence) with
         | inl llmResponse => inl llmResponse
         | inr llmError => inr (ERROR llmError)
         end].
Proof.
  intros Hsentence. unfold BaselineElements.claimBody. rewrite Hsentence.
  run_body; done.
Qed.

(** X21.  The element extractor of the baseline, then its coverage
    evaluator, on one claim of an input all of whose records have a
    sentence.  Both runs write their artifact.  If the extraction call
    for the claim fails, the coverage evaluator issues no call for the
    claim and stores the marker of a skip, which quotes the error.  If it
    succeeds, the coverage evaluator issues exactly one call for the
    claim, and the claims part of its prompt is the single line ["1. "]
    followed by the claim. *)
Theorem baseline_extraction_then_coverage (m1 m2 : LanguageModel)
    (data : list (list ExtractedClaimRecord.t)) (d k : nat)
    (claimItem : ExtractedClaimRecord.t) (sentence : string) :
  (forall d' k' item,
     slotAt data d' k' = Some item -> BaselineElements.hasSentence item) ->
  slotAt data d k = Some claimItem ->
  ExtractedClaimRecord.sentence claimItem = Some sentence ->
  exists extracted covered,
    result (BaselineElements.baselineElementExtractor (ArrayOf data)) m1
    = Written extracted
    /\ result
         (BaselineCoverage.baselineCoverageEvaluator
            (ArrayOf ((fun row : list BaselineElementData.t => Some <$> row)
                      <$> extracted)))
         m2
       = Written covered
    /\ (forall llmError,
          m1 (BaselineElements.request d k claimItem sentence) = inr llmError ->
          (exists stored,
             slotAt covered d k = Some (Some stored)
             /\ BaselineCoverageRecord.coverageEvaluation stored
                = inr ("SKIPPED: Element extraction failed - ERROR: " +:+ llmError)
             /\ BaselineCoverageRecord.claims stored
                = [ExtractedClaimRecord.claim claimItem]
             /\ BaselineCoverageRecord.sentence stored = Some sentence)
          /\ forall c,
               c ∈ calls
                     (BaselineCoverage.baselineCoverageEvaluator
                        (ArrayOf ((fun row : list BaselineElementData.t =>
                                     Some <$> row) <$> extracted)))
                     m2 ->
               ~ issuedFor d k c)
    /\ (forall elementExtraction,
          m1 (BaselineElements.request d k claimItem sentence)
          = inl elementExtraction ->
          exists c,
            c ∈ calls
                  (BaselineCoverage.baselineCoverageEvaluator
                     (ArrayOf ((fun row : list BaselineElementData.t =>
                                  Some <$> row) <$> extracted)))
                  m2
            /\ issuedFor d k c
            /\ call_prompt c
               = EVAL_ELEMENT_COVERAGE_USER
                   (ExtractedClaimRecord.query claimItem)
                   (ExtractedClaimRecord.excerpt claimItem)
                   ("1. " +:+ ExtractedClaimRecord.claim claimItem)
                   (Coverage.elementsText
                      (ElementExtractionOutput.elements elementExtraction))
            /\ forall c',
                 c' ∈ calls
                       (BaselineCoverage.baselineCoverageEvaluator
                          (ArrayOf ((fun row : list BaselineElementData.t =>
                                       Some <$> row) <$> extracted)))
                       m2 ->
                 issuedFor d k c' -> c' = c).
Proof.
  intros Hall Hslot Hsentence.
  destruct (laterStageT_written BaselineElements.claimBody m1 data)
    as (extracted & Hrun1 & Haligned1 & Hslots1 & _).
  { intros d' k' item Hitem. by apply BaselineElements_pushes_once, (Hall d' k'). }
  set (input := (fun row : list BaselineElementData.t => Some <$> row) <$> extracted).
  assert (Hone : forall d' k' item,
            slotAt input d' k' = Some item ->
            exists entry,
              result (BaselineCoverage.claimBody d' k' item) m2 = Normal [entry]).
  { intros d' k' item Hitem. apply BaselineCoverage_pushes_once.
    unfold input in Hitem. rewrite slotAt_Some_rows in Hitem.
    destruct (slotAt extracted d' k') as [elementData|] eqn:Hextracted; [|done].
    injection Hitem as <-.
    destruct (aligned_slot_back _ _ _ _ _ Haligned1 Hextracted) as [source Hsource].
    destruct (Hslots1 d' k' source Hsource) as (entry & Hentry & Hstored).
    destruct (Hall d' k' source Hsource) as [sentence' Hsentence'].
    rewrite (BaselineElements_stores _ _ _ _ _ Hsentence') in Hentry.
    injection Hentry as <-. rewrite Hextracted in Hstored. injection Hstored as ->.
    cbn. destruct (m1 _); [|done]. cbn. rewrite Hsentence'. by eexists. }
  destruct (laterStageT_written BaselineCoverage.claimBody m2 input Hone)
    as (covered & Hrun2 & _ & Hslots2 & _).
  exists extracted, covered.
  split; [exact Hrun1|]. split; [exact Hrun2|].
  assert (Hinput :
    slotAt input d k
    = Some (Some (BaselineElements.pushed claimItem
                    match m1 (BaselineElements.request d k claimItem sentence) with
                    | inl llmResponse => inl llmResponse
                    | inr llmError => inr (ERROR llmError)
                    end))).
  { destruct (Hslots1 d k claimItem Hslot) as (entry & Hentry & Hstored).
    rewrite (BaselineElements_stores _ _ _ _ _ Hsentence) in Hentry.
    injection Hentry as <-.
    unfold input. by rewrite slotAt_Some_rows, Hstored. }
  split.
  - intros llmError Hfail. rewrite Hfail in Hinput.
    split.
    + destruct (Hslots2 d k _ Hinput) as (entry & Hentry & Hstored).
      cbn in Hentry. injection Hentry as <-.
      eexists. split; [exact Hstored|]. by repeat split.
    + intros c Hc Hfor.
      pose proof (laterStageT_calls_at BaselineCoverage.claimBody
                    BaselineCoverage_issuedFor m2 input d k _ c
                    Hone Hinput Hc Hfor) as Hin.
      rewrite BaselineCoverage_calls in Hin. by apply elem_of_nil in Hin.
  - intros elementExtraction Hok. rewrite Hok in Hinput.
    eexists. split; [|split; [|split]].
    + apply (laterStageT_calls_intro BaselineCoverage.claimBody m2 input d k _ _
               Hone Hinput).
      rewrite BaselineCoverage_calls. cbn. rewrite Hsentence.
      apply list_elem_of_singleton. reflexivity.
    + reflexivity.
    + reflexivity.
    + intros c' Hc' Hfor.
      pose proof (laterStageT_calls_at BaselineCoverage.claimBody
                    BaselineCoverage_issuedFor m2 input d k _ c'
                    Hone Hinput Hc' Hfor) as Hin.
      rewrite BaselineCoverage_calls in Hin. cbn in Hin. rewrite Hsentence in Hin.
      by apply list_elem_of_singleton in Hin.
Qed.

Lemma baseline_extraction_then_coverage_witness :
  exists extracted covered,
    result
      (BaselineElements.baselineElementExtractor
         (ArrayOf [[Sample2.extracted "C" (Some "S")]]))
      Sample.answering
    = Written extracted
    /\ result
         (BaselineCoverage.baselineCoverageEvaluator
            (ArrayOf ((fun row : list BaselineElementData.t => Some <$> row)
                      <$> extracted)))
         Sample.answering
       = Written covered.
Proof.
  destruct (baseline_extraction_then_coverage Sample.answering Sample.answering
              [[Sample2.extracted "C" (Some "S")]] 0 0
              (Sample2.extracted "C" (Some "S")) "S")
    as (extracted & covered & Hrun1 & Hrun2 & _).
  - intros [|d] [|[|k]] item Hslot; try discriminate Hslot;
      injection Hslot as <-; by eexists.
  - reflexivity.
  - reflexivity.
  - exists extracted, covered. split; [exact Hrun1 | exact Hrun2].
Defined.

(** *** The claim extractor *)

Section BaselineExtractor.

Variable toLowerCase : string -> string.
Variable splitWhitespace : string -> list string.
Variable includes : string -> string -> bool.

Local Abbreviation overlapOf :=
  (BaselineExtractor.overlap toLowerCase splitWhitespace includes).
Local Abbreviation bestLoopOf :=
  (BaselineExtractor.bestLoop toLowerCase splitWhitespace includes).
Local Abbreviation bestIndexOf :=
  (BaselineExtractor.bestSentenceIndex toLowerCase splitWhitespace includes).

(** The invariant of the loop over the sentences: after the sentences
    [seen], the two variables hold the first best index among them and
    its overlap. *)
Lemma bestLoop_invariant claim seen rest best maxOverlap :
  (seen = [] /\ best = 0%nat /\ maxOverlap = 0%nat)
  \/ (firstBest (overlapOf claim) seen best
      /\ exists sentence, seen !! best = Some sentence
                          /\ overlapOf claim sentence = maxOverlap) ->
  seen ++ rest <> [] ->
  firstBest (overlapOf claim) (seen ++ rest)
    (fst (bestLoopOf claim (length seen) rest best maxOverlap)).
Proof.
  revert seen best maxOverlap.
  induction rest as [|sentence rest IH]; intros seen best maxOverlap Hinv Hne.
  - rewrite app_nil_r in *. cbn. destruct Hinv as [(-> & _)|[Hbest _]]; done.
  - cbn [BaselineExtractor.bestLoop].
    replace (seen ++ sentence :: rest) with ((seen ++ [sentence]) ++ rest)
      by (by rewrite <- app_assoc).
    replace (S (length seen)) with (length (seen ++ [sentence]))
      by (rewrite length_app; cbn; lia).
    assert (Hlast : (seen ++ [sentence]) !! length seen = Some sentence).
    { rewrite lookup_app_r by lia. by rewrite Nat.sub_diag. }
    assert (Hne' : (seen ++ [sentence]) ++ rest <> []).
    { by destruct seen. }
    destruct (Nat.ltb_spec maxOverlap (overlapOf claim sentence)) as [Hlt|Hge];
      apply IH; try done; right.
    + (* the sentence becomes the best *)
      split; [|by exists sentence].
      exists sentence. split; [done|]. split.
      * intros j s Hj. apply lookup_app_Some in Hj as [Hj|[_ Hj]].
        -- destruct Hinv as [(-> & _)|[(sb & Hsb & Hmax & _) (sb' & Hsb' & Hov)]];
             [done|].
           assert (sb' = sb) as -> by congruence.
           specialize (Hmax j s Hj). lia.
        -- apply list_lookup_singleton_Some in Hj as [_ <-]. lia.
      * intros j s Hjlt Hj. apply lookup_app_Some in Hj as [Hj|[Hjge _]]; [|lia].
        destruct Hinv as [(-> & _)|[(sb & Hsb & Hmax & _) (sb' & Hsb' & Hov)]];
          [done|].
        assert (sb' = sb) as -> by congruence.
        specialize (Hmax j s Hj). lia.
    + (* the best stays *)
      destruct Hinv as [(-> & -> & ->)|[(sb & Hsb & Hmax & Hfirst) (sb' & Hsb' & Hov)]].
      * split; [|exists sentence; split; [done|lia]].
        exists sentence. split; [done|]. split.
        -- intros j s Hj. apply list_lookup_singleton_Some in Hj as [_ <-]. lia.
        -- intros j s Hjlt. lia.
      * assert (sb' = sb) as -> by congruence.
        assert (Hsb_app : (seen ++ [sentence]) !! best = Some sb).
        { by apply lookup_app_l_Some. }
        split; [|by exists sb].
        exists sb. split; [done|]. split.
        -- intros j s Hj. apply lookup_app_Some in Hj as [Hj|[_ Hj]].
           ++ by apply (Hmax j).
           ++ apply list_lookup_singleton_Some in Hj as [_ <-]. lia.
        -- intros j s Hjlt Hj. apply lookup_app_Some in Hj as [Hj|[Hjge _]].
           ++ by apply (Hfirst j).
           ++ apply lookup_lt_Some in Hsb. lia.
Qed.

Lemma bestSentenceIndex_firstBest claim tokenized_response :
  tokenized_response <> [] ->
  firstBest (overlapOf claim) tokenized_response
    (bestIndexOf claim tokenized_response).
Proof.
  intros Hne. unfold BaselineExtractor.bestSentenceIndex.
  apply (bestLoop_invariant claim [] tokenized_response 0%nat 0%nat); [|done].
  by left.
Qed.

(** X22.  The sentence that the baseline extractor matches to a claim is
    the first sentence of greatest word overlap with the claim: no
    sentence overlaps more, and every earlier sentence overlaps strictly
    less.  In particular its index is within the document, and it is the
    first sentence when no sentence overlaps at all. *)
Theorem best_sentence_is_first_maximum (claim : string)
    (tokenized_response : list string) :
  tokenized_response <> [] ->
  let best := bestIndexOf claim tokenized_response in
  (best < length tokenized_response)%nat
  /\ firstBest (overlapOf claim) tokenized_response best
  /\ ((forall j s, tokenized_response !! j = Some s -> overlapOf claim s = 0%nat) ->
      best = 0%nat).
Proof.
  intros Hne best.
  pose proof (bestSentenceIndex_firstBest claim tokenized_response Hne)
    as Hbest.
  fold best in Hbest. split; [|split; [done|]].
  - destruct Hbest as (sentence & Hsentence & _). by apply lookup_lt_Some in Hsentence.
  - intros Hzero. destruct Hbest as (sentence & Hsentence & _ & Hfirst).
    destruct best as [|best']; [done|].
    destruct tokenized_response as [|s0 rest]; [done|].
    specialize (Hfirst 0%nat s0 ltac:(lia) eq_refl).
    rewrite (Hzero _ _ Hsentence) in Hfirst. lia.
Qed.

End BaselineExtractor.

Lemma best_sentence_is_first_maximum_witness :
  (BaselineExtractor.bestSentenceIndex Sample2.toLowerCase Sample2.splitWhitespace
     Sample2.includes "s1" ["s0"; "s1"; "s1"] < 3)%nat.
Proof.
  refine (proj1 (best_sentence_is_first_maximum Sample2.toLowerCase
                   Sample2.splitWhitespace Sample2.includes "s1"
                   ["s0"; "s1"; "s1"] _)).
  discriminate.
Defined.

Section BaselineExtractorRows.

Variable toLowerCase : string -> string.
Variable splitWhitespace : string -> list string.
Variable includes : string -> string -> bool.

Local Abbreviation recordOf :=
  (BaselineExtractor.claimRecord toLowerCase splitWhitespace includes).
Local Abbreviation runExtractor :=
  (BaselineExtractor.baselineClaimExtractor toLowerCase splitWhitespace includes).

(** X23.  The record that the baseline extractor writes for a claim.  In
    a document that has sentences, its [sentenceIndex] is an index of the
    document, its [sentence] is the sentence at that index, and its
    [excerpt] is the string that the excerpt builder of the pipeline
    gives for that sentence with five sentences on each side.  In a
    document without sentences the index is 0, there is no sentence and
    the excerpt is empty.  Claim, query and file name are those of the
    call and of the document. *)
Theorem baseline_claim_record (item : InputData.t) (claim : string) :
  let tokenized_response := InputData.tokenized_response item in
  let record := recordOf item claim in
  ExtractedClaimRecord.claim record = claim
  /\ ExtractedClaimRecord.query record = InputData.query item
  /\ ExtractedClaimRecord.filename record = InputData.filename item
  /\ (tokenized_response <> [] ->
      exists sentence,
        tokenized_response !! ExtractedClaimRecord.sentenceIndex record
        = Some sentence
        /\ ExtractedClaimRecord.sentence record = Some sentence
        /\ ExtractedClaimRecord.excerpt record
           = Deterministic.createExcerpt tokenized_response
               (Z.of_nat (ExtractedClaimRecord.sentenceIndex record)) 5 5)
  /\ (tokenized_response = [] ->
      ExtractedClaimRecord.sentenceIndex record = 0%nat
      /\ ExtractedClaimRecord.sentence record = None
      /\ ExtractedClaimRecord.excerpt record = "").
Proof.
  intros tokenized_response record. do 3 (split; [reflexivity|]). split.
  - intros Hne.
    destruct (bestSentenceIndex_firstBest toLowerCase splitWhitespace includes
                claim tokenized_response Hne) as (sentence & Hsentence & _).
    exists sentence. split; [exact Hsentence|]. split; [exact Hsentence|].
    unfold record, BaselineExtractor.claimRecord. cbn.
    fold tokenized_response.
    unfold Deterministic.createExcerpt, SingleTurn.createExcerpt.
    rewrite contextParts_window; [done| |lia|lia].
    apply lookup_lt_Some in Hsentence. lia.
  - intros Hnil. unfold record, BaselineExtractor.claimRecord. cbn.
    fold tokenized_response. by rewrite Hnil.
Qed.

(** X24.  The baseline extractor writes one row per item, in order, and
    issues one call per item, in order, whatever the model answers.  The
    row of an item whose call fails is empty; the row of an item whose
    call succeeds has one record per extracted claim, in the order of the
    claims, each with the query and the file name of the item. *)
Theorem baseline_extractor_rows (model : BaselineExtractor.ExtractionModel)
    (data : list InputData.t) :
  exists out,
    fst (runExtractor model (ArrayOf data)) = Written out
    /\ length out = length data
    /\ BaselineExtractor.site <$> snd (runExtractor model (ArrayOf data))
       = seq 0 (length data)
    /\ forall itemIndex item,
         data !! itemIndex = Some item ->
         exists row,
           out !! itemIndex = Some row
           /\ (forall llmError,
                 model (BaselineExtractor.request itemIndex item) = inr llmError ->
                 row = [])
           /\ (forall llmOutput,
                 model (BaselineExtractor.request itemIndex item) = inl llmOutput ->
                 ExtractedClaimRecord.claim <$> row
                 = BaselineExtraction.extractedClaims llmOutput
                 /\ Forall (fun record =>
                              ExtractedClaimRecord.query record = InputData.query item
                              /\ ExtractedClaimRecord.filename record
                                 = InputData.filename item)
                           row).
Proof.
  eexists. split; [reflexivity|]. split; [apply length_imap|]. split.
  - cbn. rewrite fmap_imap.
    transitivity (imap (fun (k : nat) (_ : InputData.t) => k) data).
    { by apply imap_ext. }
    rewrite (imap_seq_0 data (fun k => k)). apply list_fmap_id.
  - intros itemIndex item Hitem. eexists.
    rewrite list_lookup_imap, Hitem. cbn. split; [reflexivity|].
    unfold BaselineExtractor.currentItemClaims. split.
    + intros llmError ->. done.
    + intros llmOutput ->. split.
      * rewrite <- list_fmap_compose. apply list_fmap_id.
      * apply Forall_fmap, Forall_forall. by intros claim _.
Qed.

End BaselineExtractorRows.

Lemma baseline_claim_record_witness :
  exists sentence,
    ExtractedClaimRecord.sentence
      (BaselineExtractor.claimRecord Sample2.toLowerCase Sample2.splitWhitespace
         Sample2.includes (Sample2.inputData ["s0"; "s1"]) "s1")
    = Some sentence.
Proof.
  destruct (baseline_claim_record Sample2.toLowerCase Sample2.splitWhitespace
              Sample2.includes (Sample2.inputData ["s0"; "s1"]) "s1")
    as (_ & _ & _ & Hsentences & _).
  destruct Hsentences as (sentence & _ & Hsentence & _); [discriminate|].
  exists sentence. exact Hsentence.
Defined.

Lemma baseline_extractor_rows_witness :
  exists out,
    fst (BaselineExtractor.baselineClaimExtractor Sample2.toLowerCase
           Sample2.splitWhitespace Sample2.includes (Sample2.extracting [0%nat])
           (ArrayOf [Sample2.inputData ["s0"; "s1"]; Sample2.inputData ["s0"; "s1"]]))
    = Written out
    /\ out !! 0%nat = Some [].
Proof.
  destruct (baseline_extractor_rows Sample2.toLowerCase Sample2.splitWhitespace
              Sample2.includes (Sample2.extracting [0%nat])
              [Sample2.inputData ["s0"; "s1"]; Sample2.inputData ["s0"; "s1"]])
    as (out & Hout & _ & _ & Hrows).
  destruct (Hrows 0%nat (Sample2.inputData ["s0"; "s1"]) eq_refl)
    as (row & Hrow & Hfail & _).
  exists out. split; [exact Hout|].
  rewrite Hrow. f_equal. exact (Hfail "boom" eq_refl).
Defined.
